(** * CALEX backend (app.py): a shallow embedding of the JSON-file CRUD handlers

    The Flask application keeps four JSON documents (projects, goals,
    insights, files) and the uploaded files in the directory [data].  Every
    route handler loads the documents it needs, changes a dictionary and
    writes the whole document back.  This development embeds the helpers
    [load_json_data], [save_json_data], [allowed_file] and the project, file,
    goal and insight handlers, with the Python built-ins they call, and proves
    the behaviour of the handlers on every state of the documents.

    Conventions.
    - A Python [str] is a Rocq [string] whose characters are the code points
      below 256.
    - A dictionary with string keys is a [gmap string _]; the order in which
      [values()] enumerates it is the order of [map_to_list], not Python's
      insertion order.  No statement below depends on that order.
    - [uuid.uuid4()] and [datetime.now().isoformat()] are results of the
      environment: each call site receives its value as an argument of the
      handler, in the order in which the source evaluates the calls.
    - The body of a POST request is a JSON object; the body of a PUT
      request is a JSON object or a JSON value that is no container.
    - The host is POSIX.  The file system of the state is the upload
      folder [data] of the working directory: the four data storage
      files, and the uploaded files, each known by the path [data/name]
      under which [upload_file] creates it.  The folder holds no other
      folder.  A file name has at most [NAME_MAX] bytes.  Writing a data
      storage file does not fail.  The four data storage files are kept
      apart from the uploaded files: their names have no underscore, the
      name of an upload has one. *)

From Stdlib Require Import ZArith String Ascii List.
From Stdlib Require Import Floats.PrimFloat Floats.FloatOps Floats.SpecFloat.
From stdpp Require Import base option list gmap strings fin_maps.

Set Default Proof Using "Type".
Set Warnings "-register-all,-inexact-float".

(** ** Python strings *)

Module Str.

(** [c.isspace()] for a character below 256. *)
Definition isspace (c : ascii) : bool :=
  let n := N_of_ascii c in
  ((9 <=? n) && (n <=? 13) || (28 <=? n) && (n <=? 32) || (n =? 133) || (n =? 160))%N.

Fixpoint lstrip_by (p : ascii -> bool) (s : string) : string :=
  match s with
  | EmptyString => EmptyString
  | String c s' => if p c then lstrip_by p s' else s
  end.

Fixpoint rstrip_by (p : ascii -> bool) (s : string) : string :=
  match s with
  | EmptyString => EmptyString
  | String c s' =>
      match rstrip_by p s' with
      | EmptyString => if p c then EmptyString else String c EmptyString
      | r => String c r
      end
  end.

(** [s.strip(chars)], the set [chars] given as a predicate. *)
Definition strip_by (p : ascii -> bool) (s : string) : string :=
  rstrip_by p (lstrip_by p s).

(** [s.strip()] *)
Definition strip (s : string) : string := strip_by isspace s.

(** [c.lower()] for a character below 256: the letters A-Z and the
    Latin-1 capitals U+00C0-U+00DE (U+00D7 is the multiplication sign). *)
Definition lower_char (c : ascii) : ascii :=
  let n := N_of_ascii c in
  if ((65 <=? n) && (n <=? 90) || (192 <=? n) && (n <=? 222) && negb (n =? 215))%N
  then ascii_of_N (n + 32) else c.

Fixpoint lower (s : string) : string :=
  match s with
  | EmptyString => EmptyString
  | String c s' => String (lower_char c) (lower s')
  end.

(** [c in s] for a one-character [c]. *)
Fixpoint contains (c : ascii) (s : string) : bool :=
  match s with
  | EmptyString => false
  | String d s' => Ascii.eqb d c || contains c s'
  end.

(** The split of [s] at its last [sep], when there is one. *)
Fixpoint rpartition (sep : ascii) (s : string) : option (string * string) :=
  match s with
  | EmptyString => None
  | String c s' =>
      match rpartition sep s' with
      | Some (a, b) => Some (String c a, b)
      | None => if Ascii.eqb c sep then Some (EmptyString, s') else None
      end
  end.

(** [s.rsplit(sep, 1)] *)
Definition rsplit1 (sep : ascii) (s : string) : list string :=
  match rpartition sep s with
  | Some (a, b) => [a; b]
  | None => [s]
  end.

(** [s.replace(a, b)] for one-character [a] and [b]. *)
Fixpoint replace_char (a b : ascii) (s : string) : string :=
  match s with
  | EmptyString => EmptyString
  | String c s' => String (if Ascii.eqb c a then b else c) (replace_char a b s')
  end.

Definition is_empty (s : string) : bool :=
  match s with EmptyString => true | _ => false end.

(** The word that starts at the head of [s] (empty when [s] starts with
    white space) and the words after it. *)
Fixpoint split_go (s : string) : string * list string :=
  match s with
  | EmptyString => (EmptyString, [])
  | String c s' =>
      let '(w, ws) := split_go s' in
      if isspace c then (EmptyString, if is_empty w then ws else w :: ws)
      else (String c w, ws)
  end.

(** [s.split()] *)
Definition split (s : string) : list string :=
  let '(w, ws) := split_go s in if is_empty w then ws else w :: ws.

Fixpoint filter_chars (p : ascii -> bool) (s : string) : string :=
  match s with
  | EmptyString => EmptyString
  | String c s' => if p c then String c (filter_chars p s') else filter_chars p s'
  end.

(** [bool(s)] *)
Definition truthy (s : string) : bool := negb (is_empty s).

(** Every character of [s] satisfies [p]. *)
Fixpoint all_chars (p : ascii -> bool) (s : string) : bool :=
  match s with
  | EmptyString => true
  | String c s' => p c && all_chars p s'
  end.

(** What follows the prefix [p] in [s], when [s] starts with [p]. *)
Fixpoint after_prefix (p s : string) : option string :=
  match p, s with
  | EmptyString, _ => Some s
  | String a p', String b s' => if Ascii.eqb a b then after_prefix p' s' else None
  | String _ _, EmptyString => None
  end.

(** [len(s.encode())]: a code point from 128 on takes two bytes. *)
Fixpoint utf8_length (s : string) : nat :=
  match s with
  | EmptyString => 0
  | String c s' => (if (N_of_ascii c <? 128)%N then 1 else 2) + utf8_length s'
  end.

End Str.

(** ** JSON values, as [json.load] returns them *)

Inductive json : Type :=
| JNull
| JBool (b : bool)
| JInt (n : Z)
| JFloat (f : float)
| JStr (s : string)
| JArr (l : list json)
| JObj (o : list (string * json)).

(** A record of a store: a Python [dict] with [str] keys.  A store maps
    the generated identifiers to records. *)
Abbreviation record := (gmap string json).
Abbreviation store := (gmap string (gmap string json)).

Module Py.

(** Python's numbers: [bool] is a subclass of [int]. *)
Inductive num : Type :=
| NInt (n : Z)
| NFloat (f : float).

Definition as_num (v : json) : option num :=
  match v with
  | JBool b => Some (NInt (Z.b2z b))
  | JInt n => Some (NInt n)
  | JFloat f => Some (NFloat f)
  | _ => None
  end.

Definition of_num (x : num) : json :=
  match x with
  | NInt n => JInt n
  | NFloat f => JFloat f
  end.

(** [n == f] for an [int] and a [float]: the comparison is exact, the
    integer is not rounded to a double first. *)
Definition int_eq_float (n : Z) (f : float) : bool :=
  match Prim2SF f with
  | S754_zero _ => (n =? 0)%Z
  | S754_finite s m e =>
      let v := if s then Z.neg m else Z.pos m in
      if (0 <=? e)%Z then (n =? v * 2 ^ e)%Z else (n * 2 ^ (- e) =? v)%Z
  | S754_infinity _ | S754_nan => false
  end.

Definition num_eq (x y : num) : bool :=
  match x, y with
  | NInt a, NInt b => (a =? b)%Z
  | NFloat f, NFloat g => (f =? g)%float
  | NInt a, NFloat g => int_eq_float a g
  | NFloat f, NInt b => int_eq_float b f
  end.

Definition is_nan (v : json) : bool :=
  match v with
  | JFloat f => negb (f =? f)%float
  | _ => false
  end.

Fixpoint assoc (k : string) (o : list (string * json)) : option json :=
  match o with
  | [] => None
  | (k', v) :: o' => if String.eqb k' k then Some v else assoc k o'
  end.

(** [a == b] on values read from JSON documents.  Inside a list or a
    dictionary Python compares the items with [is] before [==], and every
    NaN that [json.load] returns is the one object of the decoder's table
    of constants. *)
Fixpoint equals (a b : json) : bool :=
  match a, b with
  | JNull, JNull => true
  | JStr s, JStr t => String.eqb s t
  | JArr l, JArr m =>
      (fix items (l m : list json) {struct l} : bool :=
         match l, m with
         | [], [] => true
         | x :: l', y :: m' => (is_nan x && is_nan y || equals x y) && items l' m'
         | _, _ => false
         end) l m
  | JObj o, JObj p =>
      Nat.eqb (length o) (length p) &&
      (fix items (o : list (string * json)) : bool :=
         match o with
         | [] => true
         | (k, v) :: o' =>
             match assoc k p with
             | Some w => is_nan v && is_nan w || equals v w
             | None => false
             end && items o'
         end) o
  | _, _ =>
      match as_num a, as_num b with
      | Some x, Some y => num_eq x y
      | _, _ => false
      end
  end.

(** [bool(v)] *)
Definition truthy (v : json) : bool :=
  match v with
  | JNull => false
  | JBool b => b
  | JInt n => negb (n =? 0)%Z
  | JFloat f => negb (f =? 0)%float
  | JStr s => Str.truthy s
  | JArr l => match l with [] => false | _ => true end
  | JObj o => match o with [] => false | _ => true end
  end.

(** The exceptions the handlers can meet; all of them derive from
    [Exception]. *)
Inductive exn : Type :=
| AttributeError
| KeyError
| IndexError
| TypeError
| ValueError
| OverflowError
| OSError
| IsADirectoryError
| FileNotFoundError
| JSONDecodeError.

Inductive outcome (A : Type) : Type :=
| Ok (a : A)
| Raised (e : exn).
Arguments Ok {A} a.
Arguments Raised {A} e.

(** [v + 25] *)
Definition add_25 (v : json) : outcome num :=
  match as_num v with
  | Some (NInt n) => Ok (NInt (n + 25))
  | Some (NFloat f) => Ok (NFloat (f + 25)%float)
  | None => Raised TypeError
  end.

(** [min(100, x)]: [x] when [x < 100], otherwise the first argument. *)
Definition min_100 (x : num) : num :=
  match x with
  | NInt n => if (n <? 100)%Z then x else NInt 100
  | NFloat f => if (f <? 100)%float then x else NInt 100
  end.

(** [d.get(k)] and [d.get(k, default)] *)
Definition get (d : gmap string json) (k : string) : json := default JNull (d !! k).
Definition get_or (d : gmap string json) (k : string) (dflt : json) : json :=
  default dflt (d !! k).

(** [d[k]] *)
Definition getitem (d : gmap string json) (k : string) : outcome json :=
  match d !! k with
  | Some v => Ok v
  | None => Raised KeyError
  end.

(** [v.strip()]: only a [str] has the method. *)
Definition strip (v : json) : outcome string :=
  match v with
  | JStr s => Ok (Str.strip s)
  | _ => Raised AttributeError
  end.

(** [list(d.values())] *)
Definition values {A} (d : gmap string A) : list A := (map_to_list d).*2.

(** A dictionary display [{k1: v1, ...}]. *)
Definition dict (items : list (string * json)) : gmap string json :=
  list_to_map (reverse items).

End Py.

(** ** [werkzeug.utils.secure_filename] on a POSIX host *)

Module Werkzeug.

Definition between (lo hi n : N) : bool := ((lo <=? n) && (n <=? hi))%N.

(** What [unicodedata.normalize("NFKD", c).encode("ascii", "ignore")]
    keeps of a character below 256: an ASCII character is kept, an
    accented Latin-1 letter leaves its base letter, a compatibility
    character leaves the ASCII part of its decomposition, every other
    character is dropped. *)
Definition nfkd_ascii (c : ascii) : string :=
  let n := N_of_ascii c in
  if (n <? 128)%N then String c EmptyString
  else if ((n =? 160) || (n =? 168) || (n =? 175) || (n =? 180) || (n =? 184))%N then " "
  else if (n =? 170)%N then "a"
  else if (n =? 178)%N then "2"
  else if (n =? 179)%N then "3"
  else if (n =? 185)%N then "1"
  else if (n =? 186)%N then "o"
  else if (n =? 188)%N then "14"
  else if (n =? 189)%N then "12"
  else if (n =? 190)%N then "34"
  else if between 192 197 n then "A"
  else if (n =? 199)%N then "C"
  else if between 200 203 n then "E"
  else if between 204 207 n then "I"
  else if (n =? 209)%N then "N"
  else if between 210 214 n then "O"
  else if between 217 220 n then "U"
  else if (n =? 221)%N then "Y"
  else if between 224 229 n then "a"
  else if (n =? 231)%N then "c"
  else if between 232 235 n then "e"
  else if between 236 239 n then "i"
  else if (n =? 241)%N then "n"
  else if between 242 246 n then "o"
  else if between 249 252 n then "u"
  else if ((n =? 253) || (n =? 255))%N then "y"
  else "".

Fixpoint ascii_fold (s : string) : string :=
  match s with
  | EmptyString => EmptyString
  | String c s' => (nfkd_ascii c ++ ascii_fold s')%string
  end.

(** The characters that [_filename_ascii_strip_re], [[^A-Za-z0-9_.-]],
    leaves in place. *)
Definition filename_char (c : ascii) : bool :=
  let n := N_of_ascii c in
  between 65 90 n || between 97 122 n || between 48 57 n
  || (n =? 95)%N || (n =? 46)%N || (n =? 45)%N.

Definition dot_or_underscore (c : ascii) : bool :=
  Ascii.eqb c "." || Ascii.eqb c "_".

Definition secure_filename (filename : string) : string :=
  let filename := ascii_fold filename in
  let filename := Str.replace_char "/" " " filename in
  Str.strip_by dot_or_underscore
    (Str.filter_chars filename_char (String.concat "_" (Str.split filename))).

End Werkzeug.

(** ** The application state and the monad of the handlers *)

Module App.
Import Py.

Definition UPLOAD_FOLDER : string := "data".

Definition ALLOWED_EXTENSIONS : list string :=
  ["txt"; "pdf"; "png"; "jpg"; "jpeg"; "gif"; "doc"; "docx"; "csv"; "json";
   "xml"; "xls"; "xlsx"; "md"].

(** The data storage files. *)
Inductive datafile : Type := PROJECTS_FILE | GOALS_FILE | INSIGHTS_FILE | FILES_FILE.

(** What is at the place of a data storage file: nothing, a file that
    cannot be opened or parsed, or the JSON text of a store. *)
Inductive document : Type :=
| Missing
| Unreadable
| Document (t : store).

(** The four documents, the uploaded files by path, and the numbers of
    the file descriptors that the server process has open.  A path names
    a file literally. *)
Record World : Type := mkWorld {
  projects_doc : document;
  goals_doc : document;
  insights_doc : document;
  files_doc : document;
  disk : gmap string string;
  descriptors : gset Z
}.

Definition read_doc (w : World) (f : datafile) : document :=
  match f with
  | PROJECTS_FILE => projects_doc w
  | GOALS_FILE => goals_doc w
  | INSIGHTS_FILE => insights_doc w
  | FILES_FILE => files_doc w
  end.

Definition write_doc (w : World) (f : datafile) (d : document) : World :=
  match f with
  | PROJECTS_FILE =>
      mkWorld d (goals_doc w) (insights_doc w) (files_doc w) (disk w) (descriptors w)
  | GOALS_FILE =>
      mkWorld (projects_doc w) d (insights_doc w) (files_doc w) (disk w) (descriptors w)
  | INSIGHTS_FILE =>
      mkWorld (projects_doc w) (goals_doc w) d (files_doc w) (disk w) (descriptors w)
  | FILES_FILE =>
      mkWorld (projects_doc w) (goals_doc w) (insights_doc w) d (disk w) (descriptors w)
  end.

Definition set_disk (w : World) (d : gmap string string) : World :=
  mkWorld (projects_doc w) (goals_doc w) (insights_doc w) (files_doc w) d (descriptors w).

(** A computation reads and writes the world and returns or raises.  What
    it wrote before an exception stays written. *)
Definition M (A : Type) : Type := World -> outcome A * World.

Definition ret {A} (a : A) : M A := fun w => (Ok a, w).

Definition raise {A} (e : exn) : M A := fun w => (Raised e, w).

Definition bind {A B} (c : M A) (k : A -> M B) : M B :=
  fun w =>
    match c w with
    | (Ok a, w') => k a w'
    | (Raised e, w') => (Raised e, w')
    end.

(** [try: c except Exception as e: h e] *)
Definition try_except {A} (c : M A) (h : exn -> M A) : M A :=
  fun w =>
    match c w with
    | (Ok a, w') => (Ok a, w')
    | (Raised e, w') => h e w'
    end.

Definition lift {A} (o : outcome A) : M A := fun w => (o, w).

Declare Scope py_scope.
Delimit Scope py_scope with py.
Notation "x <- c ;; k" := (bind c (fun x => k))
  (at level 100, c at next level, right associativity) : py_scope.
Notation "c ;; k" := (bind c (fun _ => k))
  (at level 100, right associativity) : py_scope.
Local Open Scope py_scope.

(** [for x in l: f x], collecting the results. *)
Fixpoint for_each {A B} (f : A -> M B) (l : list A) : M (list B) :=
  match l with
  | [] => ret []
  | x :: l' => y <- f x ;; ys <- for_each f l' ;; ret (y :: ys)
  end.

(** *** The file system *)

Definition os_path_exists_doc (f : datafile) : M bool :=
  fun w => (Ok (match read_doc w f with Missing => false | _ => true end), w).

(** [with open(filename, 'r') as f: json.load(f)] *)
Definition json_load (f : datafile) : M store :=
  fun w =>
    match read_doc w f with
    | Document t => (Ok t, w)
    | Unreadable => (Raised JSONDecodeError, w)
    | Missing => (Raised FileNotFoundError, w)
    end.

(** [with open(filename, 'w') as f: json.dump(data, f, indent=2, default=str)] *)
Definition json_dump (f : datafile) (data : store) : M unit :=
  fun w => (Ok tt, write_doc w f (Document data)).

(** [os.path.join(a, b)] *)
Definition os_path_join (a b : string) : string :=
  match b with
  | String "/" _ => b
  | _ =>
      if Str.is_empty a then b
      else match Str.rpartition "/" a with
           | Some (_, EmptyString) => (a ++ b)%string
           | _ => (a ++ "/" ++ b)%string
           end
  end.

(** The longest file name, in bytes, that the file system takes. *)
Definition NAME_MAX : nat := 255.

Definition NUL : ascii := Ascii.zero.

(** A name under which a file can be created in a folder: not empty, not
    [.] or [..], without a slash or a NUL, at most [NAME_MAX] bytes. *)
Definition plain_name (name : string) : bool :=
  Str.truthy name && negb (Str.contains "/" name) && negb (Str.contains NUL name)
  && negb (String.eqb name ".") && negb (String.eqb name "..")
  && (Str.utf8_length name <=? NAME_MAX)%nat.

(** The name [name] of the path [data/name]. *)
Definition upload_name (path : string) : option string :=
  Str.after_prefix (UPLOAD_FOLDER ++ "/") path.

(** The path names the upload folder: [data], [data/], ... *)
Definition is_folder (path : string) : bool :=
  match Str.after_prefix UPLOAD_FOLDER path with
  | Some rest => Str.all_chars (Ascii.eqb "/") rest
  | None => false
  end.

(** The data storage file at a path. *)
Definition datafile_at (path : string) : option datafile :=
  if String.eqb path "data/projects.json" then Some PROJECTS_FILE
  else if String.eqb path "data/goals.json" then Some GOALS_FILE
  else if String.eqb path "data/insights.json" then Some INSIGHTS_FILE
  else if String.eqb path "data/files.json" then Some FILES_FILE
  else None.

(** [os.path.exists(p)]: [os.stat] takes a [str] for a path and an [int]
    (a [bool] is one) for a file descriptor, and raises [TypeError] for
    anything else; [os.path.exists] answers [False] when [os.stat] raises
    [OSError] or [ValueError] (a NUL in the path), and lets an
    [OverflowError] (an integer that is no C [int]) through.  A path is
    looked up in the file system of the state: the upload folder, the
    data storage files and the uploaded files; the state knows no file
    elsewhere, and the statements below that delete a file take its path
    in the upload folder. *)
Definition os_path_exists (p : json) : M bool :=
  fun w =>
    match p with
    | JStr s =>
        if Str.is_empty s || Str.contains NUL s then (Ok false, w)
        else if is_folder s then (Ok true, w)
        else match datafile_at s with
             | Some f => (Ok (match read_doc w f with Missing => false | _ => true end), w)
             | None => (Ok (bool_decide (is_Some (disk w !! s))), w)
             end
    | JBool b => (Ok (bool_decide (Z.b2z b ∈ descriptors w)), w)
    | JInt n =>
        if ((n <? - 2 ^ 31) || (2 ^ 31 <=? n))%Z then (Raised OverflowError, w)
        else (Ok ((0 <=? n)%Z && bool_decide (n ∈ descriptors w)), w)
    | _ => (Raised TypeError, w)
    end.

(** [os.remove(p)]: only a [str] is a path here; a folder is not
    removed. *)
Definition os_remove (p : json) : M unit :=
  fun w =>
    match p with
    | JStr s =>
        if Str.contains NUL s then (Raised ValueError, w)
        else if Str.is_empty s then (Raised FileNotFoundError, w)
        else if is_folder s then (Raised IsADirectoryError, w)
        else match datafile_at s with
             | Some f =>
                 match read_doc w f with
                 | Missing => (Raised FileNotFoundError, w)
                 | _ => (Ok tt, write_doc w f Missing)
                 end
             | None =>
                 match disk w !! s with
                 | Some _ => (Ok tt, set_disk w (delete s (disk w)))
                 | None => (Raised FileNotFoundError, w)
                 end
             end
    | _ => (Raised TypeError, w)
    end.

Definition os_path_getsize (p : string) : M Z :=
  fun w =>
    match disk w !! p with
    | Some content => (Ok (Z.of_nat (String.length content)), w)
    | None => (Raised FileNotFoundError, w)
    end.

(** *** The helpers of app.py *)

Definition load_json_data (filename : datafile) : M store :=
  found <- os_path_exists_doc filename ;;
  loaded <- (if found : bool
             then try_except (t <- json_load filename ;; ret (Some t))
                             (fun _ => ret None)
             else ret None) ;;
  ret (default ∅ loaded).

Definition save_json_data (filename : datafile) (data : store) : M bool :=
  try_except (json_dump filename data ;; ret true) (fun _ => ret false).

Definition allowed_file (filename : string) : bool :=
  Str.contains "." filename &&
  match Str.rsplit1 "." filename !! 1%nat with
  | Some ext => bool_decide (Str.lower ext ∈ ALLOWED_EXTENSIONS)
  | None => false
  end.

(** *** Requests and responses *)

(** The JSON bodies the handlers pass to [jsonify]: [{'error': msg}],
    [{'message': msg}], [{key: record}] and [{key: [record, ...]}]. *)
Inductive body : Type :=
| Error (msg : string)
| Message (msg : string)
| Item (key : string) (r : record)
| Items (key : string) (l : list record).

Record response : Type := mkResponse { status : Z; payload : body }.

(** The part [file] of a multipart request. *)
Record FileStorage : Type := mkFileStorage {
  filename : string;
  content_type : option string;
  stream : string
}.

(** [request.files] and [request.form] of an upload. *)
Record upload_request : Type := mkUpload {
  request_file : option FileStorage;
  form_project_id : option string
}.

(** A file can be created at [path]: the path is [data/name] for a
    plain name. *)
Definition creatable (path : string) : bool :=
  match upload_name path with
  | Some name => plain_name name
  | None => false
  end.

(** [file.save(path)]: [open(path, "wb")] and the copy of the stream.
    Opening raises [OSError] when the name is too long for the file
    system (a client chooses the name), or when the path does not lead
    into the upload folder. *)
Definition file_save (file : FileStorage) (path : string) : M unit :=
  fun w =>
    if creatable path
    then (Ok tt, set_disk w (<[path := stream file]> (disk w)))
    else (Raised OSError, w).

(** What [request.get_json()] returns for the body of a PUT request: a
    JSON object, or a JSON value that is no container.  (An array, which
    [dict.update] reads as a sequence of key-value pairs, is not part of
    the model.) *)
Inductive put_body : Type :=
| Object (data : record)
| Null
| Boolean (b : bool)
| Integer (n : Z)
| Real (f : float)
| Text (s : string).

#[warning="-uniform-inheritance"]
Coercion Object : gmap >-> put_body.

(** [goal.update(data)]: a dictionary is merged; [None], a [bool] and a
    number are not iterable; a [str] is iterated by character, and a
    character is no key-value pair. *)
Definition dict_update (goal : record) (data : put_body) : outcome record :=
  match data with
  | Object data => Ok (data ∪ goal)
  | Null | Boolean _ | Integer _ | Real _ => Raised TypeError
  | Text s => if Str.is_empty s then Ok goal else Raised ValueError
  end.

(** Every handler is [try: ... except Exception as e: return
    jsonify({'error': msg}), 500]. *)
Definition handler (msg : string) (c : M response) : World -> response * World :=
  fun w =>
    match c w with
    | (Ok r, w') => (r, w')
    | (Raised _, w') => (mkResponse 500 (Error msg), w')
    end.

Definition respond (code : Z) (b : body) : M response := ret (mkResponse code b).

(** *** Project management endpoints *)

(** [len([r for r in t.values() if r.get('project_id') == project_id])] *)
Definition count_for (t : store) (project_id : json) : Z :=
  Z.of_nat (length (List.filter (fun r => Py.equals (get r "project_id") project_id) (values t))).

(** The body of the loop of [get_projects]. *)
Definition with_counts (files goals insights : store) (project : record) : M record :=
  project_id <- lift (getitem project "id") ;;
  let project := <["documents_count" := JInt (count_for files project_id)]> project in
  let project := <["goals_count" := JInt (count_for goals project_id)]> project in
  let project := <["insights_count" := JInt (count_for insights project_id)]> project in
  let project :=
    <["research_progress" := get_or project "research_progress" (JInt 0)]> project in
  ret project.

Definition get_projects : World -> response * World :=
  handler "Failed to get projects" (
    projects <- load_json_data PROJECTS_FILE ;;
    let projects_list := values projects in
    goals <- load_json_data GOALS_FILE ;;
    insights <- load_json_data INSIGHTS_FILE ;;
    files <- load_json_data FILES_FILE ;;
    projects_list <- for_each (with_counts files goals insights) projects_list ;;
    respond 200 (Items "projects" projects_list)).

Definition create_project (uuid4 now_1 now_2 : string) (data : record)
  : World -> response * World :=
  handler "Failed to create project" (
    name <- lift (strip (get_or data "name" (JStr ""))) ;;
    description <- lift (strip (get_or data "description" (JStr ""))) ;;
    if negb (Str.truthy name) then respond 400 (Error "Project name is required")
    else
      projects <- load_json_data PROJECTS_FILE ;;
      let project_id := uuid4 in
      let project := dict [
        ("id", JStr project_id);
        ("name", JStr name);
        ("description", JStr description);
        ("status", JStr "setup");
        ("created_at", JStr now_1);
        ("updated_at", JStr now_2);
        ("documents_count", JInt 0);
        ("goals_count", JInt 0);
        ("insights_count", JInt 0);
        ("research_progress", JInt 0)] in
      let projects := <[project_id := project]> projects in
      save_json_data PROJECTS_FILE projects ;;
      respond 201 (Item "project" project)).

Definition start_research (now : string) (project_id : string)
  : World -> response * World :=
  handler "Failed to start research" (
    projects <- load_json_data PROJECTS_FILE ;;
    match projects !! project_id with
    | None => respond 404 (Error "Project not found")
    | Some project =>
        let project := <["status" := JStr "researching"]> project in
        let project := <["updated_at" := JStr now]> project in
        let project := <["research_progress" := JInt 0]> project in
        let projects := <[project_id := project]> projects in
        save_json_data PROJECTS_FILE projects ;;
        _ <- lift (getitem project "name") ;;
        respond 200 (Message "Research started successfully")
    end).

(** *** File upload endpoints *)

Definition upload_file (uuid4 now : string) (request : upload_request)
  : World -> response * World :=
  handler "Failed to upload file" (
    match request_file request with
    | None => respond 400 (Error "No file provided")
    | Some file =>
        match form_project_id request with
        | None => respond 400 (Error "Project ID is required")
        | Some project_id =>
            if negb (Str.truthy project_id)
            then respond 400 (Error "Project ID is required")
            else if String.eqb (filename file) ""
            then respond 400 (Error "No file selected")
            else if negb (allowed_file (filename file))
            then respond 400 (Error "File type not allowed")
            else
              let filename_ := Werkzeug.secure_filename (filename file) in
              let file_id := uuid4 in
              match Str.rsplit1 "." filename_ !! 1%nat with
              | None => raise IndexError
              | Some ext =>
                  let file_extension := Str.lower ext in
                  let file_path :=
                    os_path_join UPLOAD_FOLDER (file_id ++ "_" ++ filename_)%string in
                  file_save file file_path ;;
                  files <- load_json_data FILES_FILE ;;
                  size <- os_path_getsize file_path ;;
                  let file_data := dict [
                    ("id", JStr file_id);
                    ("filename", JStr filename_);
                    ("original_name", JStr (filename file));
                    ("size", JInt size);
                    ("type", JStr (match content_type file with
                                   | Some t => if Str.truthy t then t
                                               else "application/" ++ file_extension
                                   | None => "application/" ++ file_extension
                                   end)%string);
                    ("project_id", JStr project_id);
                    ("upload_date", JStr now);
                    ("status", JStr "completed");
                    ("path", JStr file_path)] in
                  let files := <[file_id := file_data]> files in
                  save_json_data FILES_FILE files ;;
                  respond 200 (Item "file" file_data)
              end
        end
    end).

Definition list_files : World -> response * World :=
  handler "Failed to list files" (
    files <- load_json_data FILES_FILE ;;
    let files_list := values files in
    respond 200 (Items "files" files_list)).

Definition delete_file (file_id : string) : World -> response * World :=
  handler "Failed to delete file" (
    files <- load_json_data FILES_FILE ;;
    match files !! file_id with
    | None => respond 404 (Error "File not found")
    | Some file_data =>
        let file_path := get file_data "path" in
        (if truthy file_path
         then found <- os_path_exists file_path ;;
              if found : bool then os_remove file_path else ret tt
         else ret tt) ;;
        let files := delete file_id files in
        save_json_data FILES_FILE files ;;
        _ <- lift (getitem file_data "filename") ;;
        respond 200 (Message "File deleted successfully")
    end).

(** *** Goals endpoints *)

(** [[r for r in t.values() if r.get('project_id') == project_id]] *)
Definition of_project (t : store) (project_id : string) : list record :=
  List.filter (fun r => Py.equals (get r "project_id") (JStr project_id)) (values t).

Definition get_project_goals (project_id : string) : World -> response * World :=
  handler "Failed to get goals" (
    goals <- load_json_data GOALS_FILE ;;
    let project_goals := of_project goals project_id in
    respond 200 (Items "goals" project_goals)).

Definition create_goal (uuid4 now_1 now_2 : string) (project_id : string) (data : record)
  : World -> response * World :=
  handler "Failed to create goal" (
    title <- lift (strip (get_or data "title" (JStr ""))) ;;
    description <- lift (strip (get_or data "description" (JStr ""))) ;;
    let priority := get_or data "priority" (JStr "medium") in
    if negb (Str.truthy title) then respond 400 (Error "Goal title is required")
    else
      goals <- load_json_data GOALS_FILE ;;
      let goal_id := uuid4 in
      let goal := dict [
        ("id", JStr goal_id);
        ("title", JStr title);
        ("description", JStr description);
        ("priority", priority);
        ("status", JStr "active");
        ("project_id", JStr project_id);
        ("created_at", JStr now_1);
        ("updated_at", JStr now_2);
        ("progress", JInt 0)] in
      let goals := <[goal_id := goal]> goals in
      save_json_data GOALS_FILE goals ;;
      respond 201 (Item "goal" goal)).

Definition update_goal (now : string) (goal_id : string) (data : put_body)
  : World -> response * World :=
  handler "Failed to update goal" (
    goals <- load_json_data GOALS_FILE ;;
    match goals !! goal_id with
    | None => respond 404 (Error "Goal not found")
    | Some goal =>
        goal <- lift (dict_update goal data) ;;
        let goal := <["updated_at" := JStr now]> goal in
        let goals := <[goal_id := goal]> goals in
        save_json_data GOALS_FILE goals ;;
        _ <- lift (getitem goal "title") ;;
        respond 200 (Item "goal" goal)
    end).

Definition delete_goal (goal_id : string) : World -> response * World :=
  handler "Failed to delete goal" (
    goals <- load_json_data GOALS_FILE ;;
    match goals !! goal_id with
    | None => respond 404 (Error "Goal not found")
    | Some goal =>
        let goals := delete goal_id goals in
        save_json_data GOALS_FILE goals ;;
        _ <- lift (getitem goal "title") ;;
        respond 200 (Message "Goal deleted successfully")
    end).

(** *** Insights endpoints *)

Definition get_project_insights (project_id : string) : World -> response * World :=
  handler "Failed to get insights" (
    insights <- load_json_data INSIGHTS_FILE ;;
    let project_insights := of_project insights project_id in
    respond 200 (Items "insights" project_insights)).

Definition sample_insights (project_id uuid_1 now_1 uuid_2 now_2 uuid_3 now_3 : string)
  : list record :=
  [ dict [
      ("id", JStr uuid_1);
      ("content", JStr "Based on the uploaded documents, there appears to be a strong correlation between market trends and consumer behavior patterns.");
      ("insight_type", JStr "finding");
      ("confidence_score", JFloat 0.85);
      ("relevance_score", JFloat 0.92);
      ("tags", JArr [JStr "market analysis"; JStr "consumer behavior"; JStr "trends"]);
      ("project_id", JStr project_id);
      ("created_at", JStr now_1)];
    dict [
      ("id", JStr uuid_2);
      ("content", JStr "The data suggests implementing a phased approach to the proposed strategy would minimize risk while maximizing potential returns.");
      ("insight_type", JStr "recommendation");
      ("confidence_score", JFloat 0.78);
      ("relevance_score", JFloat 0.88);
      ("tags", JArr [JStr "strategy"; JStr "risk management"; JStr "implementation"]);
      ("project_id", JStr project_id);
      ("created_at", JStr now_2)];
    dict [
      ("id", JStr uuid_3);
      ("content", JStr "Further investigation is needed to understand the underlying factors driving these observed patterns.");
      ("insight_type", JStr "question");
      ("confidence_score", JFloat 0.65);
      ("relevance_score", JFloat 0.75);
      ("tags", JArr [JStr "investigation"; JStr "patterns"; JStr "analysis"]);
      ("project_id", JStr project_id);
      ("created_at", JStr now_3)] ].

(** [for insight in sample_insights: insights[insight['id']] = insight] *)
Fixpoint add_insights (sample : list record) (insights : store) : M store :=
  match sample with
  | [] => ret insights
  | insight :: rest =>
      id <- lift (getitem insight "id") ;;
      match id with
      | JStr id => add_insights rest (<[id := insight]> insights)
      | _ => raise TypeError
      end
  end.

Definition generate_insights
    (uuid_1 now_1 uuid_2 now_2 uuid_3 now_3 now_4 : string) (project_id : string)
  : World -> response * World :=
  handler "Failed to generate insights" (
    insights <- load_json_data INSIGHTS_FILE ;;
    let sample := sample_insights project_id uuid_1 now_1 uuid_2 now_2 uuid_3 now_3 in
    insights <- add_insights sample insights ;;
    save_json_data INSIGHTS_FILE insights ;;
    projects <- load_json_data PROJECTS_FILE ;;
    match projects !! project_id with
    | Some project =>
        progress <- lift (add_25 (get_or project "research_progress" (JInt 0))) ;;
        let project := <["research_progress" := of_num (min_100 progress)]> project in
        let project := <["updated_at" := JStr now_4]> project in
        let projects := <[project_id := project]> projects in
        save_json_data PROJECTS_FILE projects ;;
        ret tt
    | None => ret tt
    end ;;
    respond 200 (Message "Insights generated successfully")).

(** *** Research progress endpoints *)

Definition start_live_research (now : string) (project_id : string)
  : World -> response * World :=
  handler "Failed to start live research" (
    projects <- load_json_data PROJECTS_FILE ;;
    match projects !! project_id with
    | None => respond 404 (Error "Project not found")
    | Some project =>
        let project := <["status" := JStr "researching"]> project in
        let project := <["updated_at" := JStr now]> project in
        let project := <["research_progress" := JInt 0]> project in
        let project := <["live_research_started" := JBool true]> project in
        let projects := <[project_id := project]> projects in
        save_json_data PROJECTS_FILE projects ;;
        _ <- lift (getitem project "name") ;;
        respond 200 (Message "Live research started successfully")
    end).

End App.

(** ** Vocabulary of the statements *)

Module Spec.
Import App Py.

(** The store that a handler finds in a data storage file: the parsed
    mapping, or the empty one. *)
Definition stored (w : World) (f : datafile) : store :=
  match read_doc w f with
  | Document t => t
  | Missing | Unreadable => ∅
  end.

(** The disk without the file at a recorded path: a path that is not a
    non-empty string without a NUL names no file. *)
Definition disk_without (path : json) (d : gmap string string) : gmap string string :=
  match path with
  | JStr p => if Str.truthy p && negb (Str.contains NUL p) then delete p d else d
  | _ => d
  end.

(** The path of an uploaded file: [data/name] for a plain name that is
    none of the data storage files. *)
Definition upload_path (p : string) : bool :=
  creatable p && negb (bool_decide (is_Some (datafile_at p))).

(** A recorded path as [upload_file] writes it, or none. *)
Definition path_or_none (path : json) : Prop :=
  path = JNull \/
  exists p : string, path = JStr p /\ (p = "" \/ upload_path p = true).

(** A recorded path that is none, or a string that names neither the
    upload folder nor a data storage file. *)
Definition no_special (path : json) : Prop :=
  path = JNull \/
  exists p : string,
    path = JStr p /\ (p = "" \/ is_folder p = false /\ datafile_at p = None).

(** The records of a store that belong to a project: the entries whose
    field project_id is equal ([==]) to the id of the project. *)
Definition records_of (t : store) (project_id : json) : store :=
  filter (fun entry : string * record =>
            Py.equals (get entry.2 "project_id") project_id = true) t.

(** A project record without its three stored counts. *)
Definition erase_counts (project : record) : record :=
  delete "documents_count" (delete "goals_count" (delete "insights_count" project)).

(** The metadata record of an upload. *)
Definition file_record (uuid4 now project_id : string) (file : FileStorage)
    (ext : string) : record :=
  let filename_ := Werkzeug.secure_filename (filename file) in
  let file_path := os_path_join UPLOAD_FOLDER (uuid4 ++ "_" ++ filename_)%string in
  dict [
    ("id", JStr uuid4);
    ("filename", JStr filename_);
    ("original_name", JStr (filename file));
    ("size", JInt (Z.of_nat (String.length (stream file))));
    ("type", JStr (match content_type file with
                   | Some t => if Str.truthy t then t
                               else "application/" ++ Str.lower ext
                   | None => "application/" ++ Str.lower ext
                   end)%string);
    ("project_id", JStr project_id);
    ("upload_date", JStr now);
    ("status", JStr "completed");
    ("path", JStr file_path)].

(** An insight record of [project_id] with the given fixed content. *)
Definition fixed_insight (project_id : string) (insight : record)
    (type content : string) (confidence relevance : float) : Prop :=
  get insight "project_id" = JStr project_id /\
  get insight "insight_type" = JStr type /\
  get insight "content" = JStr content /\
  get insight "confidence_score" = JFloat confidence /\
  get insight "relevance_score" = JFloat relevance.

(** The record that [get_projects] lists for a project with the id
    [project_id]. *)
Definition counted (files goals insights : store) (project_id : json)
    (project : record) : record :=
  <["research_progress" := get_or project "research_progress" (JInt 0)]>
    (<["insights_count" := JInt (count_for insights project_id)]>
       (<["goals_count" := JInt (count_for goals project_id)]>
          (<["documents_count" := JInt (count_for files project_id)]> project))).

End Spec.

(** ** Sample states *)

Module Sample.
Import App Py.

(** A fresh installation: no data storage file has been written, and
    the standard streams are open. *)
Definition fresh : World := mkWorld Missing Missing Missing Missing ∅ {[ 0%Z; 1%Z; 2%Z ]}.

Definition project_1 : record :=
  dict [("id", JStr "p-1"); ("name", JStr "Alpha"); ("status", JStr "setup");
        ("documents_count", JInt 7); ("research_progress", JInt 90)].

Definition goal_1 : record :=
  dict [("id", JStr "g-1"); ("title", JStr "Read"); ("priority", JStr "medium");
        ("status", JStr "active"); ("project_id", JStr "p-1");
        ("updated_at", JStr "2024-01-01T00:00:00")].

Definition file_1 : record :=
  dict [("id", JStr "f-1"); ("filename", JStr "notes.txt");
        ("original_name", JStr "notes.txt"); ("project_id", JStr "p-1");
        ("path", JStr "data/f-1_notes.txt")].

(** One project with one goal and one uploaded file. *)
Definition busy : World :=
  mkWorld (Document {[ "p-1" := project_1 ]})
          (Document {[ "g-1" := goal_1 ]})
          Unreadable
          (Document {[ "f-1" := file_1 ]})
          {[ "data/f-1_notes.txt" := "hello" ]}
          {[ 0%Z; 1%Z; 2%Z ]}.

End Sample.

(** ** The states the routes can produce *)

Module Reach.
Import App Py Spec.

(** One request to a route that writes a file.  The other routes
    ([health_check], the listings, [submit_feedback] and the research
    mock-ups) write nothing. *)
Inductive step : World -> World -> Prop :=
| step_create_project (uuid4 now_1 now_2 : string) (data : record) (w : World) :
    step w (snd (create_project uuid4 now_1 now_2 data w))
| step_start_research (now project_id : string) (w : World) :
    step w (snd (start_research now project_id w))
| step_start_live_research (now project_id : string) (w : World) :
    step w (snd (start_live_research now project_id w))
| step_upload_file (uuid4 now : string) (request : upload_request) (w : World) :
    step w (snd (upload_file uuid4 now request w))
| step_delete_file (file_id : string) (w : World) :
    step w (snd (delete_file file_id w))
| step_create_goal (uuid4 now_1 now_2 project_id : string) (data : record) (w : World) :
    step w (snd (create_goal uuid4 now_1 now_2 project_id data w))
| step_update_goal (now goal_id : string) (data : put_body) (w : World) :
    step w (snd (update_goal now goal_id data w))
| step_delete_goal (goal_id : string) (w : World) :
    step w (snd (delete_goal goal_id w))
| step_generate_insights
    (uuid_1 now_1 uuid_2 now_2 uuid_3 now_3 now_4 project_id : string) (w : World) :
    step w (snd (generate_insights uuid_1 now_1 uuid_2 now_2 uuid_3 now_3 now_4
                   project_id w)).

(** The states that requests produce from a fresh installation. *)
Definition reachable (w : World) : Prop := rtc step Sample.fresh w.

(** The shape of a project record under the key [id]. *)
Definition project_ok (id : string) (project : record) : Prop :=
  project !! "id" = Some (JStr id) /\
  (exists name : string,
     project !! "name" = Some (JStr name) /\ name <> "" /\ Str.strip name = name) /\
  (project !! "status" = Some (JStr "setup") \/
   project !! "status" = Some (JStr "researching")) /\
  (exists n : Z,
     project !! "research_progress" = Some (JInt n) /\ (0 <= n <= 100)%Z).

(** The shape of a goal record: [update_goal] can give any value to any
    field but [updated_at], and takes no field away. *)
Definition goal_ok (goal : record) : Prop :=
  Forall (fun k : string => is_Some (goal !! k))
    ["id"; "title"; "description"; "priority"; "status"; "project_id";
     "created_at"; "updated_at"; "progress"] /\
  exists t : string, goal !! "updated_at" = Some (JStr t).

(** The shape of a file record under the key [id]. *)
Definition file_ok (id : string) (file_data : record) : Prop :=
  file_data !! "id" = Some (JStr id) /\
  (exists name : string,
     file_data !! "filename" = Some (JStr name) /\
     Str.all_chars Werkzeug.filename_char name = true /\
     file_data !! "path" =
       Some (JStr (os_path_join UPLOAD_FOLDER (id ++ "_" ++ name)))) /\
  (exists original : string,
     file_data !! "original_name" = Some (JStr original) /\
     allowed_file original = true) /\
  (exists project_id : string,
     file_data !! "project_id" = Some (JStr project_id) /\ project_id <> "").

(** The shape of an insight record under the key [id]. *)
Definition insight_ok (id : string) (insight : record) : Prop :=
  insight !! "id" = Some (JStr id) /\
  (exists project_id : string, insight !! "project_id" = Some (JStr project_id)) /\
  (insight !! "insight_type" = Some (JStr "finding") \/
   insight !! "insight_type" = Some (JStr "recommendation") \/
   insight !! "insight_type" = Some (JStr "question")).

Definition well_formed (w : World) : Prop :=
  map_Forall project_ok (stored w PROJECTS_FILE) /\
  map_Forall (fun _ => goal_ok) (stored w GOALS_FILE) /\
  map_Forall file_ok (stored w FILES_FILE) /\
  map_Forall insight_ok (stored w INSIGHTS_FILE).

(** What the environment gives to one call of [generate_insights]. *)
Record generate_env : Type := mkGenerateEnv {
  env_uuid_1 : string; env_now_1 : string;
  env_uuid_2 : string; env_now_2 : string;
  env_uuid_3 : string; env_now_3 : string;
  env_now_4 : string
}.

Definition generate_with (e : generate_env) (project_id : string) (w : World)
  : response * World :=
  generate_insights (env_uuid_1 e) (env_now_1 e) (env_uuid_2 e) (env_now_2 e)
    (env_uuid_3 e) (env_now_3 e) (env_now_4 e) project_id w.

(** One request to generate insights for [project_id] after the other. *)
Fixpoint generate_each (envs : list generate_env) (project_id : string) (w : World)
  : World :=
  match envs with
  | [] => w
  | e :: rest => generate_each rest project_id (snd (generate_with e project_id w))
  end.

(** A request to one of the nine routes that write, with the values that
    the environment gives to it. *)
Inductive request : Type :=
| CreateProject (uuid4 now_1 now_2 : string) (data : record)
| StartResearch (now project_id : string)
| StartLiveResearch (now project_id : string)
| UploadFile (uuid4 now : string) (upload : upload_request)
| DeleteFile (file_id : string)
| CreateGoal (uuid4 now_1 now_2 project_id : string) (data : record)
| UpdateGoal (now goal_id : string) (data : put_body)
| DeleteGoal (goal_id : string)
| GenerateInsights (uuid_1 now_1 uuid_2 now_2 uuid_3 now_3 now_4 project_id : string).

Definition serve (r : request) : World -> response * World :=
  match r with
  | CreateProject uuid4 now_1 now_2 data => create_project uuid4 now_1 now_2 data
  | StartResearch now project_id => start_research now project_id
  | StartLiveResearch now project_id => start_live_research now project_id
  | UploadFile uuid4 now upload => upload_file uuid4 now upload
  | DeleteFile file_id => delete_file file_id
  | CreateGoal uuid4 now_1 now_2 project_id data =>
      create_goal uuid4 now_1 now_2 project_id data
  | UpdateGoal now goal_id data => update_goal now goal_id data
  | DeleteGoal goal_id => delete_goal goal_id
  | GenerateInsights uuid_1 now_1 uuid_2 now_2 uuid_3 now_3 now_4 project_id =>
      generate_insights uuid_1 now_1 uuid_2 now_2 uuid_3 now_3 now_4 project_id
  end.

(** One request after the other. *)
Fixpoint serve_all (requests : list request) (w : World) : World :=
  match requests with
  | [] => w
  | r :: rest => serve_all rest (snd (serve r w))
  end.

(** The request creates a project under the id [project_id]. *)
Definition creates (project_id : string) (r : request) : bool :=
  match r with
  | CreateProject uuid4 _ _ _ => String.eqb uuid4 project_id
  | _ => false
  end.

(** The stored project [project_id] carries the mark of live research. *)
Definition marked (project_id : string) (w : World) : Prop :=
  exists project : record,
    stored w PROJECTS_FILE !! project_id = Some project /\
    project !! "live_research_started" = Some (JBool true).

End Reach.

(** * Properties *)

Import App Py Spec Reach.
Local Open Scope py_scope.

(** ** Running the monad *)

Section run.
Context {A B : Type}.

Lemma bind_ret (a : A) (k : A -> M B) (w : World) : (x <- ret a ;; k x) w = k a w.
Proof. reflexivity. Qed.

Lemma bind_lift_ok (a : A) (k : A -> M B) (w : World) :
  (x <- lift (Ok a) ;; k x) w = k a w.
Proof. reflexivity. Qed.

Lemma bind_lift_raised (e : exn) (k : A -> M B) (w : World) :
  (x <- lift (Raised e) ;; k x) w = (Raised e, w).
Proof. reflexivity. Qed.

Lemma bind_assoc {C} (c : M A) (k : A -> M B) (h : B -> M C) (w : World) :
  (y <- (x <- c ;; k x) ;; h y) w = (x <- c ;; y <- k x ;; h y) w.
Proof. unfold bind. destruct (c w) as [[a|e] w']; reflexivity. Qed.
End run.

Lemma load_json_data_run (f : datafile) (w : World) :
  load_json_data f w = (Ok (stored w f), w).
Proof.
  cbv [load_json_data stored bind os_path_exists_doc try_except json_load ret].
  destruct (read_doc w f) eqn:E; cbv beta iota; rewrite ?E; reflexivity.
Qed.

Lemma save_json_data_run (f : datafile) (t : store) (w : World) :
  save_json_data f t w = (Ok true, write_doc w f (Document t)).
Proof. reflexivity. Qed.

Lemma bind_load {B} (f : datafile) (k : store -> M B) (w : World) :
  (t <- load_json_data f ;; k t) w = k (stored w f) w.
Proof. unfold bind. rewrite load_json_data_run. reflexivity. Qed.

Lemma bind_save {B} (f : datafile) (t : store) (k : bool -> M B) (w : World) :
  (b <- save_json_data f t ;; k b) w = k true (write_doc w f (Document t)).
Proof. reflexivity. Qed.

Lemma stored_write_same (w : World) (f : datafile) (t : store) :
  stored (write_doc w f (Document t)) f = t.
Proof. destruct f; reflexivity. Qed.

Lemma stored_write_other (w : World) (f g : datafile) (d : document) :
  f <> g -> stored (write_doc w f d) g = stored w g.
Proof. destruct f, g; intros H; try reflexivity; contradiction. Qed.

Lemma write_doc_read_other (w : World) (f g : datafile) (d : document) :
  f <> g -> read_doc (write_doc w f d) g = read_doc w g.
Proof. destruct f, g; intros H; try reflexivity; contradiction. Qed.

Lemma disk_write_doc (w : World) (f : datafile) (d : document) :
  disk (write_doc w f d) = disk w.
Proof. destruct f; reflexivity. Qed.

Lemma stored_set_disk (w : World) (d : gmap string string) (f : datafile) :
  stored (set_disk w d) f = stored w f.
Proof. destruct f; reflexivity. Qed.

(** ** The JSON store *)

(** C6: [load_json_data] returns the mapping of the file when the file
    exists and parses, and the empty mapping when the file is absent or
    cannot be read; it never raises and leaves every file as it was. *)
Theorem load_json_data_never_raises (f : datafile) (w : World) :
  exists t : store,
    load_json_data f w = (Ok t, w) /\
    match read_doc w f with
    | Document parsed => t = parsed
    | Missing | Unreadable => t = ∅
    end.
Proof.
  exists (stored w f). split.
  - apply load_json_data_run.
  - unfold stored. destruct (read_doc w f); reflexivity.
Qed.

(** ** Stripping *)

Lemma rstrip_by_empty (p : ascii -> bool) (s : string) :
  Str.is_empty (Str.rstrip_by p s) = Str.all_chars p s.
Proof.
  induction s as [|c s IH]; [reflexivity|].
  cbn [Str.rstrip_by Str.all_chars]. rewrite <- IH.
  destruct (Str.rstrip_by p s); cbn; destruct (p c); reflexivity.
Qed.

Lemma lstrip_by_all (p : ascii -> bool) (s : string) :
  Str.all_chars p (Str.lstrip_by p s) = Str.all_chars p s.
Proof.
  induction s as [|c s IH]; [reflexivity|].
  cbn [Str.lstrip_by Str.all_chars].
  destruct (p c) eqn:E; [exact IH|].
  cbn [Str.all_chars]. rewrite E. reflexivity.
Qed.

(** [s.strip()] is empty exactly when [s] is empty or all white space. *)
Lemma strip_empty (s : string) :
  Str.is_empty (Str.strip s) = Str.all_chars Str.isspace s.
Proof.
  unfold Str.strip, Str.strip_by. rewrite rstrip_by_empty. apply lstrip_by_all.
Qed.

(** ** Project management endpoints *)

Arguments dict : simpl never.

(** The record that [create_project] builds. *)
Lemma create_project_run (uuid4 now_1 now_2 : string) (data : record)
    (name description : string) (w : World) :
  get_or data "name" (JStr "") = JStr name ->
  get_or data "description" (JStr "") = JStr description ->
  create_project uuid4 now_1 now_2 data w =
    if Str.all_chars Str.isspace name
    then (mkResponse 400 (Error "Project name is required"), w)
    else
      let project := dict [
        ("id", JStr uuid4); ("name", JStr (Str.strip name));
        ("description", JStr (Str.strip description)); ("status", JStr "setup");
        ("created_at", JStr now_1); ("updated_at", JStr now_2);
        ("documents_count", JInt 0); ("goals_count", JInt 0);
        ("insights_count", JInt 0); ("research_progress", JInt 0)] in
      (mkResponse 201 (Item "project" project),
       write_doc w PROJECTS_FILE (Document (<[uuid4 := project]> (stored w PROJECTS_FILE)))).
Proof.
  intros Hname Hdescription.
  unfold create_project, handler. rewrite Hname, Hdescription.
  cbn [strip]. rewrite !bind_lift_ok.
  unfold Str.truthy. rewrite negb_involutive, strip_empty.
  destruct (Str.all_chars Str.isspace name); [reflexivity|].
  rewrite bind_load, bind_save. reflexivity.
Qed.

(** C3 (as amended): for a body whose name and description are strings
    when present, [create_project] answers 400 and changes nothing when the
    name is absent, empty or all white space; otherwise it answers 201 and
    stores, under the generated id, a record with that id, the name with
    the white space around it stripped, status "setup", the three counts 0
    and research_progress 0; when the id is fresh every earlier project
    stays and the store has one project more. *)
Theorem create_project_spec (uuid4 now_1 now_2 : string) (data : record)
    (name description : string) (w : World) :
  get_or data "name" (JStr "") = JStr name ->
  get_or data "description" (JStr "") = JStr description ->
  (Str.all_chars Str.isspace name = true ->
     create_project uuid4 now_1 now_2 data w =
       (mkResponse 400 (Error "Project name is required"), w)) /\
  (Str.all_chars Str.isspace name = false ->
     exists project : record,
       create_project uuid4 now_1 now_2 data w =
         (mkResponse 201 (Item "project" project),
          write_doc w PROJECTS_FILE
            (Document (<[uuid4 := project]> (stored w PROJECTS_FILE)))) /\
       project !! "id" = Some (JStr uuid4) /\
       project !! "name" = Some (JStr (Str.strip name)) /\
       Str.strip name <> "" /\
       project !! "status" = Some (JStr "setup") /\
       project !! "documents_count" = Some (JInt 0) /\
       project !! "goals_count" = Some (JInt 0) /\
       project !! "insights_count" = Some (JInt 0) /\
       project !! "research_progress" = Some (JInt 0) /\
       (stored w PROJECTS_FILE !! uuid4 = None ->
          size (<[uuid4 := project]> (stored w PROJECTS_FILE))
            = S (size (stored w PROJECTS_FILE)) /\
          forall id p, stored w PROJECTS_FILE !! id = Some p ->
                       <[uuid4 := project]> (stored w PROJECTS_FILE) !! id = Some p)).
Proof.
  intros Hname Hdescription.
  pose proof (create_project_run uuid4 now_1 now_2 data name description w
                Hname Hdescription) as Hrun.
  split; intros Hspace; rewrite Hspace in Hrun; [exact Hrun|].
  eexists. split; [exact Hrun|].
  repeat split; try reflexivity.
  - intros Hempty. pose proof (strip_empty name) as E.
    rewrite Hempty, Hspace in E. discriminate.
  - apply map_size_insert_None; assumption.
  - intros id p Hp. rewrite lookup_insert_ne; [assumption|]. congruence.
Qed.

Lemma create_project_spec_witness :
  let data : record := dict [("name", JStr "  Alpha "); ("description", JStr "first")] in
  Str.all_chars Str.isspace "  Alpha " = false /\
  exists project : record,
    fst (create_project "p-2" "t1" "t2" data Sample.busy) =
      mkResponse 201 (Item "project" project) /\
    project !! "name" = Some (JStr "Alpha").
Proof.
  split; [reflexivity|].
  destruct (create_project_spec "p-2" "t1" "t2"
              (dict [("name", JStr "  Alpha "); ("description", JStr "first")])
              "  Alpha " "first" Sample.busy eq_refl eq_refl) as [_ Hcreated].
  destruct (Hcreated eq_refl) as (project & Hrun & _ & Hname & _).
  exists project. split; [rewrite Hrun; reflexivity | exact Hname].
Defined.

(** C3 (as stated) fails: the stored name is not the given name when the
    given name has white space around it. *)
Lemma create_project_name_not_verbatim :
  exists (project : record) (w' : World),
    create_project "p-2" "t1" "t2" (dict [("name", JStr " x ")]) Sample.fresh =
      (mkResponse 201 (Item "project" project), w') /\
    project !! "name" = Some (JStr "x") /\
    project !! "name" <> Some (JStr " x ").
Proof.
  eexists. eexists. split; [vm_compute; reflexivity|].
  split; [reflexivity | discriminate].
Qed.

Lemma start_research_run (now project_id : string) (w : World) :
  start_research now project_id w =
    match stored w PROJECTS_FILE !! project_id with
    | None => (mkResponse 404 (Error "Project not found"), w)
    | Some project =>
        let project' :=
          <["research_progress" := JInt 0]>
            (<["updated_at" := JStr now]> (<["status" := JStr "researching"]> project)) in
        (match project !! "name" with
         | Some _ => mkResponse 200 (Message "Research started successfully")
         | None => mkResponse 500 (Error "Failed to start research")
         end,
         write_doc w PROJECTS_FILE
           (Document (<[project_id := project']> (stored w PROJECTS_FILE))))
    end.
Proof.
  unfold start_research, handler. rewrite bind_load.
  destruct (stored w PROJECTS_FILE !! project_id) as [project|]; [|reflexivity].
  cbv zeta. rewrite bind_save. unfold getitem.
  rewrite !lookup_insert_ne by discriminate.
  destruct (project !! "name"); reflexivity.
Qed.

(** C8: [start_research] answers 404 and changes nothing when the id is
    unknown; for a known project it stores status "researching",
    research_progress 0 and the new updated_at, keeps every other field of
    the project and every other project, and touches no other file. *)
Theorem start_research_spec (now project_id : string) (w : World) :
  (stored w PROJECTS_FILE !! project_id = None ->
     start_research now project_id w =
       (mkResponse 404 (Error "Project not found"), w)) /\
  (forall project : record,
     stored w PROJECTS_FILE !! project_id = Some project ->
     exists (project' : record) (r : response),
       start_research now project_id w =
         (r, write_doc w PROJECTS_FILE
               (Document (<[project_id := project']> (stored w PROJECTS_FILE)))) /\
       status r <> 404%Z /\
       (is_Some (project !! "name") ->
          r = mkResponse 200 (Message "Research started successfully")) /\
       project' !! "status" = Some (JStr "researching") /\
       project' !! "research_progress" = Some (JInt 0) /\
       project' !! "updated_at" = Some (JStr now) /\
       (forall k : string,
          k <> "status" -> k <> "research_progress" -> k <> "updated_at" ->
          project' !! k = project !! k) /\
       (forall id : string,
          id <> project_id ->
          <[project_id := project']> (stored w PROJECTS_FILE) !! id
            = stored w PROJECTS_FILE !! id)).
Proof.
  rewrite start_research_run. split.
  - intros ->. reflexivity.
  - intros project ->. cbv zeta. eexists. eexists.
    split; [reflexivity|].
    split; [destruct (project !! "name"); discriminate|].
    split; [intros [v ->]; reflexivity|].
    split; [rewrite !lookup_insert_ne by discriminate; apply lookup_insert_eq|].
    split; [apply lookup_insert_eq|].
    split; [rewrite lookup_insert_ne by discriminate; apply lookup_insert_eq|].
    split.
    + intros k K1 K2 K3. rewrite !lookup_insert_ne by congruence. reflexivity.
    + intros id Hid. apply lookup_insert_ne. congruence.
Qed.

Lemma start_research_spec_witness :
  start_research "t9" "nobody" Sample.busy =
    (mkResponse 404 (Error "Project not found"), Sample.busy) /\
  exists project' : record,
    stored (snd (start_research "t9" "p-1" Sample.busy)) PROJECTS_FILE !! "p-1"
      = Some project' /\
    project' !! "status" = Some (JStr "researching") /\
    project' !! "name" = Some (JStr "Alpha").
Proof.
  destruct (start_research_spec "t9" "nobody" Sample.busy) as [Hmissing _].
  destruct (start_research_spec "t9" "p-1" Sample.busy) as [_ Hknown].
  split; [apply Hmissing; reflexivity|].
  destruct (Hknown Sample.project_1 eq_refl)
    as (project' & r & Hrun & _ & _ & Hstatus & _ & _ & Hframe & _).
  exists project'. rewrite Hrun. cbn [snd].
  rewrite stored_write_same, lookup_insert_eq.
  split; [reflexivity|]. split; [exact Hstatus|].
  rewrite Hframe by discriminate. reflexivity.
Defined.

(** ** Goals endpoints *)

(** C2: for an existing goal and a body that is a JSON object,
    [update_goal] stores the shallow merge: every key of the body takes the
    value of the body (the key "id" like any other), updated_at is set to
    the present time, every field the body does not name keeps its value,
    and no other goal changes; with the body [{"status": "done"}] only
    status and updated_at change. *)
Theorem update_goal_merge (now goal_id : string) (data goal : record) (w : World) :
  stored w GOALS_FILE !! goal_id = Some goal ->
  exists (goal' : record) (r : response),
    update_goal now goal_id data w =
      (r, write_doc w GOALS_FILE
            (Document (<[goal_id := goal']> (stored w GOALS_FILE)))) /\
    (forall (k : string) (v : json),
       data !! k = Some v -> k <> "updated_at" -> goal' !! k = Some v) /\
    goal' !! "updated_at" = Some (JStr now) /\
    (forall k : string,
       data !! k = None -> k <> "updated_at" -> goal' !! k = goal !! k) /\
    (forall id : string,
       id <> goal_id ->
       <[goal_id := goal']> (stored w GOALS_FILE) !! id = stored w GOALS_FILE !! id) /\
    (is_Some (goal' !! "title") -> r = mkResponse 200 (Item "goal" goal')) /\
    (data = {[ "status" := JStr "done" ]} ->
       goal' !! "status" = Some (JStr "done") /\
       forall k : string,
         k <> "status" -> k <> "updated_at" -> goal' !! k = goal !! k).
Proof.
  intros Hgoal.
  set (goal' := <["updated_at" := JStr now]> (data ∪ goal)).
  assert (Hkept : forall k : string,
            data !! k = None -> k <> "updated_at" -> goal' !! k = goal !! k).
  { intros k Hk Hne. unfold goal'.
    rewrite lookup_insert_ne by congruence. apply lookup_union_r, Hk. }
  assert (Hset : forall (k : string) (v : json),
            data !! k = Some v -> k <> "updated_at" -> goal' !! k = Some v).
  { intros k v Hk Hne. unfold goal'.
    rewrite lookup_insert_ne by congruence. apply lookup_union_Some_l, Hk. }
  exists goal'.
  exists (match goal' !! "title" with
          | Some _ => mkResponse 200 (Item "goal" goal')
          | None => mkResponse 500 (Error "Failed to update goal")
          end).
  split.
  { unfold update_goal, handler. rewrite bind_load, Hgoal.
    cbn [dict_update]. rewrite bind_lift_ok.
    cbv zeta. fold goal'. rewrite bind_save. unfold getitem.
    destruct (goal' !! "title"); reflexivity. }
  split; [exact Hset|].
  split; [apply lookup_insert_eq|].
  split; [exact Hkept|].
  split; [intros id Hid; apply lookup_insert_ne; congruence|].
  split.
  - intros [v Hv]. rewrite Hv. reflexivity.
  - intros ->. split.
    + apply Hset; [apply lookup_singleton_eq | discriminate].
    + intros k Hk Hne. apply Hkept; [|exact Hne].
      apply lookup_singleton_ne. congruence.
Qed.

Lemma update_goal_merge_witness :
  exists goal' : record,
    stored (snd (update_goal "t9" "g-1" ({[ "status" := JStr "done" ]} : record)
                   Sample.busy))
           GOALS_FILE !! "g-1" = Some goal' /\
    goal' !! "status" = Some (JStr "done") /\
    goal' !! "updated_at" = Some (JStr "t9") /\
    goal' !! "title" = Some (JStr "Read").
Proof.
  destruct (update_goal_merge "t9" "g-1" {[ "status" := JStr "done" ]}
              Sample.goal_1 Sample.busy eq_refl)
    as (goal' & r & Hrun & _ & Hupdated & _ & _ & _ & Hdone).
  destruct (Hdone eq_refl) as [Hstatus Hframe].
  exists goal'. rewrite Hrun. cbn [snd].
  rewrite stored_write_same, lookup_insert_eq.
  split; [reflexivity|]. split; [exact Hstatus|]. split; [exact Hupdated|].
  rewrite Hframe by discriminate. reflexivity.
Defined.

(** Not every JSON body is merged: for the body [null] and the existing
    goal g-1, [goal.update(None)] raises, the answer is 500, nothing is
    written, and updated_at is not refreshed. *)
Lemma update_goal_null_body_not_merged :
  stored Sample.busy GOALS_FILE !! "g-1" = Some Sample.goal_1 /\
  update_goal "t9" "g-1" Null Sample.busy =
    (mkResponse 500 (Error "Failed to update goal"), Sample.busy) /\
  ~ (exists goal' : record,
       stored (snd (update_goal "t9" "g-1" Null Sample.busy)) GOALS_FILE !! "g-1"
         = Some goal' /\
       goal' !! "updated_at" = Some (JStr "t9")).
Proof.
  split; [reflexivity|]. split; [reflexivity|].
  intros (goal' & Hgoal & Hupdated).
  change (Some Sample.goal_1 = Some goal') in Hgoal.
  injection Hgoal as <-. vm_compute in Hupdated. discriminate.
Qed.

(** *** Listings of a store *)

Lemma filter_Permutation_bool {A} (f : A -> bool) (l l' : list A) :
  l ≡ₚ l' -> List.filter f l ≡ₚ List.filter f l'.
Proof.
  induction 1 as [|x l l' _ IH|x y l|l1 l2 l3 _ IH1 _ IH2]; cbn [List.filter].
  - reflexivity.
  - destruct (f x); [constructor|]; exact IH.
  - destruct (f x), (f y); try reflexivity. apply perm_swap.
  - etransitivity; eassumption.
Qed.

Lemma values_delete {A} (m : gmap string A) (i : string) (x : A) :
  m !! i = Some x -> values m ≡ₚ x :: values (delete i m).
Proof.
  intros H. unfold values.
  rewrite <- (map_to_list_delete m i x H). reflexivity.
Qed.

Lemma values_insert_fresh {A} (m : gmap string A) (i : string) (x : A) :
  m !! i = None -> values (<[i := x]> m) ≡ₚ x :: values m.
Proof.
  intros H. unfold values. rewrite (map_to_list_insert m i x H). reflexivity.
Qed.

Lemma of_project_delete (t : store) (id project_id : string) (r : record) :
  t !! id = Some r ->
  of_project t project_id ≡ₚ
    (if Py.equals (get r "project_id") (JStr project_id) then [r] else [])
      ++ of_project (delete id t) project_id.
Proof.
  intros H. unfold of_project.
  rewrite (filter_Permutation_bool _ _ _ (values_delete t id r H)).
  cbn [List.filter]. destruct (Py.equals (get r "project_id") (JStr project_id)); reflexivity.
Qed.

Lemma set_disk_same (w : World) : set_disk w (disk w) = w.
Proof. destruct w; reflexivity. Qed.

Lemma delete_goal_run (goal_id : string) (w : World) :
  delete_goal goal_id w =
    match stored w GOALS_FILE !! goal_id with
    | None => (mkResponse 404 (Error "Goal not found"), w)
    | Some goal =>
        (match goal !! "title" with
         | Some _ => mkResponse 200 (Message "Goal deleted successfully")
         | None => mkResponse 500 (Error "Failed to delete goal")
         end,
         write_doc w GOALS_FILE (Document (delete goal_id (stored w GOALS_FILE))))
    end.
Proof.
  unfold delete_goal, handler. rewrite bind_load.
  destruct (stored w GOALS_FILE !! goal_id) as [goal|]; [|reflexivity].
  cbv zeta. rewrite bind_save. unfold getitem.
  destruct (goal !! "title"); reflexivity.
Qed.

(** *** Paths *)

Lemma contains_app (c : ascii) (a b : string) :
  Str.contains c (a ++ b) = Str.contains c a || Str.contains c b.
Proof.
  induction a as [|d a IH]; [reflexivity|].
  change (String d a ++ b)%string with (String d (a ++ b)).
  cbn [Str.contains]. rewrite IH. apply orb_assoc.
Qed.

Lemma all_chars_contains (p : ascii -> bool) (c : ascii) (s : string) :
  Str.all_chars p s = true -> p c = false -> Str.contains c s = false.
Proof.
  intros Hs Hc. induction s as [|d s IH]; [reflexivity|].
  cbn [Str.all_chars Str.contains] in Hs |- *.
  apply andb_true_iff in Hs as [Hd Hs]. rewrite (IH Hs), orb_false_r.
  destruct (Ascii.eqb_spec d c) as [->|]; [congruence | reflexivity].
Qed.

Lemma after_prefix_Some (p s rest : string) :
  Str.after_prefix p s = Some rest -> s = (p ++ rest)%string.
Proof.
  revert s. induction p as [|a p IH]; intros s H; cbn [Str.after_prefix] in H.
  - injection H as <-. reflexivity.
  - destruct s as [|b s]; [discriminate|].
    destruct (Ascii.eqb_spec a b) as [<-|]; [|discriminate].
    rewrite (IH _ H). reflexivity.
Qed.

Lemma after_prefix_app (p s : string) : Str.after_prefix p (p ++ s) = Some s.
Proof.
  induction p as [|a p IH]; [reflexivity|].
  change (String a p ++ s)%string with (String a (p ++ s)).
  cbn [Str.after_prefix]. rewrite Ascii.eqb_refl. exact IH.
Qed.

Lemma plain_name_inv (name : string) :
  plain_name name = true ->
  name <> "" /\ Str.contains "/" name = false /\ Str.contains NUL name = false /\
  Str.utf8_length name <= NAME_MAX.
Proof.
  unfold plain_name. rewrite !andb_true_iff, !negb_true_iff.
  intros (((((Hne & Hslash) & Hnul) & _) & _) & Hlen).
  split; [intros ->; discriminate|].
  split; [exact Hslash|]. split; [exact Hnul|].
  apply Nat.leb_le, Hlen.
Qed.

Lemma creatable_inv (p : string) :
  creatable p = true ->
  exists name : string, p = ("data/" ++ name)%string /\ plain_name name = true.
Proof.
  unfold creatable, upload_name.
  destruct (Str.after_prefix _ p) as [name|] eqn:E; [|discriminate].
  intros H. exists name. split; [exact (after_prefix_Some _ _ _ E) | exact H].
Qed.

Lemma creatable_data (name : string) :
  creatable ("data/" ++ name) = plain_name name.
Proof.
  unfold creatable, upload_name.
  change (UPLOAD_FOLDER ++ "/")%string with "data/".
  rewrite after_prefix_app. reflexivity.
Qed.

Lemma is_folder_inv (p : string) :
  is_folder p = true ->
  exists rest : string,
    p = ("data" ++ rest)%string /\ Str.all_chars (Ascii.eqb "/") rest = true.
Proof.
  unfold is_folder.
  destruct (Str.after_prefix UPLOAD_FOLDER p) as [rest|] eqn:E; [|discriminate].
  intros H. exists rest. split; [exact (after_prefix_Some _ _ _ E) | exact H].
Qed.

(** A path with a character that is neither in [data] nor a slash does
    not name the upload folder. *)
Lemma is_folder_contains (c : ascii) (p : string) :
  Str.contains c p = true -> Str.contains c "data/" = false -> is_folder p = false.
Proof.
  intros Hp Hc. destruct (is_folder p) eqn:E; [|reflexivity].
  apply is_folder_inv in E as (rest & -> & Hrest).
  change "data/" with ("data" ++ "/")%string in Hc.
  rewrite contains_app in Hp, Hc.
  apply orb_false_iff in Hc as [Hd Hslash].
  rewrite Hd in Hp. cbn [orb] in Hp.
  rewrite (all_chars_contains _ c _ Hrest) in Hp; [discriminate|].
  cbn [Str.contains] in Hslash. rewrite orb_false_r in Hslash. exact Hslash.
Qed.

Lemma datafile_at_underscore (p : string) :
  Str.contains "_" p = true -> datafile_at p = None.
Proof.
  intros Hp. unfold datafile_at.
  repeat match goal with
         | |- context [String.eqb p ?s] =>
             destruct (String.eqb_spec p s) as [->|_]; [discriminate Hp|]
         end.
  reflexivity.
Qed.

Lemma upload_path_inv (p : string) :
  upload_path p = true ->
  Str.truthy p = true /\ Str.contains NUL p = false /\ is_folder p = false /\
  datafile_at p = None.
Proof.
  unfold upload_path. rewrite andb_true_iff, negb_true_iff.
  intros [Hc Hd].
  apply creatable_inv in Hc as (name & -> & Hname).
  apply plain_name_inv in Hname as (Hne & Hslash & Hnul & _).
  split; [reflexivity|].
  split; [rewrite contains_app, Hnul; reflexivity|].
  split.
  - unfold is_folder, UPLOAD_FOLDER.
    change ("data/" ++ name)%string with ("data" ++ String "/" name)%string.
    rewrite after_prefix_app. cbn [Str.all_chars].
    destruct name as [|c name]; [contradiction|].
    cbn [Str.contains Str.all_chars] in Hslash |- *.
    apply orb_false_iff in Hslash as [Hslash _].
    rewrite (Ascii.eqb_sym "/" c), Hslash. apply andb_false_r.
  - destruct (datafile_at _) eqn:E; [|reflexivity].
    rewrite bool_decide_eq_true_2 in Hd by eauto. discriminate.
Qed.
Lemma os_path_join_data (b : string) :
  (forall rest : string, b <> String "/" rest) ->
  os_path_join UPLOAD_FOLDER b = ("data/" ++ b)%string.
Proof.
  intros Hb. unfold os_path_join.
  destruct b as [|c b]; [reflexivity|].
  destruct (Ascii.eqb_spec c "/") as [->|Hc]; [exfalso; exact (Hb b eq_refl)|].
  destruct c as [[] [] [] [] [] [] [] []]; try reflexivity. contradiction.
Qed.

Lemma os_path_join_truthy (b : string) :
  Str.truthy (os_path_join UPLOAD_FOLDER b) = true.
Proof.
  unfold os_path_join. destruct b as [|c b]; [reflexivity|].
  destruct c as [[] [] [] [] [] [] [] []]; reflexivity.
Qed.

Lemma upload_name_not_absolute (uuid4 name : string) :
  Str.contains "/" uuid4 = false ->
  forall rest : string, (uuid4 ++ "_" ++ name)%string <> String "/" rest.
Proof.
  intros Hu rest. destruct uuid4 as [|c u].
  - change ("" ++ "_" ++ name)%string with (String "_" name). discriminate.
  - change (String c u ++ "_" ++ name)%string with (String c (u ++ "_" ++ name)).
    intros [= -> _]. cbn in Hu. discriminate.
Qed.

Lemma os_path_join_plain (b : string) :
  Str.contains "/" b = false -> os_path_join UPLOAD_FOLDER b = ("data/" ++ b)%string.
Proof.
  intros Hb. apply os_path_join_data. intros rest ->.
  cbn in Hb. discriminate.
Qed.

Lemma creatable_join (b : string) :
  plain_name b = true -> creatable (os_path_join UPLOAD_FOLDER b) = true.
Proof.
  intros Hb. destruct (plain_name_inv b Hb) as (_ & Hslash & _).
  rewrite (os_path_join_plain b Hslash), creatable_data. exact Hb.
Qed.

(** The path under which [upload_file] creates a file has an underscore,
    so it is the path of no data storage file. *)
Lemma contains_underscore_join (uuid4 name : string) :
  Str.contains "_" (os_path_join UPLOAD_FOLDER (uuid4 ++ "_" ++ name)) = true.
Proof.
  assert (H : Str.contains "_" (uuid4 ++ "_" ++ name) = true).
  { rewrite !contains_app. cbn [Str.contains]. rewrite Ascii.eqb_refl.
    cbn [orb]. apply orb_true_r. }
  unfold os_path_join.
  destruct (uuid4 ++ "_" ++ name)%string as [|c b] eqn:E; [discriminate H|].
  assert (Hdata : Str.contains "_" ("data" ++ "/" ++ String c b) = true)
    by (rewrite !contains_app, H; rewrite !orb_true_r; reflexivity).
  destruct c as [[] [] [] [] [] [] [] []]; first [exact H | exact Hdata].
Qed.

Lemma upload_path_join (uuid4 name : string) :
  plain_name (uuid4 ++ "_" ++ name) = true ->
  upload_path (os_path_join UPLOAD_FOLDER (uuid4 ++ "_" ++ name)) = true.
Proof.
  intros H. unfold upload_path.
  rewrite (creatable_join _ H), (datafile_at_underscore _ (contains_underscore_join _ _)).
  reflexivity.
Qed.

Lemma path_or_none_no_special (path : json) : path_or_none path -> no_special path.
Proof.
  intros [-> | (p & -> & [-> | Hp])]; [left; reflexivity | right.. ].
  - exists "". split; [reflexivity | left; reflexivity].
  - apply upload_path_inv in Hp as (_ & _ & Hfolder & Hdata).
    exists p. split; [reflexivity | right; split; assumption].
Qed.

(** Removing the file at a recorded path that is neither the upload
    folder nor a data storage file. *)
Lemma remove_recorded_file (path : json) (w : World) :
  no_special path ->
  (if truthy path
   then found <- os_path_exists path ;;
        if found : bool then os_remove path else ret tt
   else ret tt) w = (Ok tt, set_disk w (disk_without path (disk w))).
Proof.
  intros [-> | (p & -> & Hp)].
  { cbn [truthy disk_without]. unfold ret. rewrite set_disk_same. reflexivity. }
  cbn [truthy disk_without]. unfold Str.truthy.
  destruct (Str.is_empty p) eqn:Hempty; cbn [negb andb].
  { unfold ret. rewrite set_disk_same. reflexivity. }
  destruct Hp as [-> | [Hfolder Hdata]]; [discriminate|].
  cbv [bind os_path_exists os_remove ret].
  rewrite Hempty. cbn [orb].
  destruct (Str.contains NUL p); cbn [negb]; [rewrite set_disk_same; reflexivity|].
  rewrite Hfolder, Hdata.
  destruct (disk w !! p) as [content|] eqn:E.
  - rewrite bool_decide_eq_true_2 by eauto. rewrite E. reflexivity.
  - rewrite bool_decide_eq_false_2 by (intros [? ?]; discriminate).
    rewrite delete_id by exact E. rewrite set_disk_same. reflexivity.
Qed.

Lemma delete_file_run (file_id : string) (w : World) :
  (forall file_data : record,
     stored w FILES_FILE !! file_id = Some file_data ->
     no_special (get file_data "path")) ->
  delete_file file_id w =
    match stored w FILES_FILE !! file_id with
    | None => (mkResponse 404 (Error "File not found"), w)
    | Some file_data =>
        (match file_data !! "filename" with
         | Some _ => mkResponse 200 (Message "File deleted successfully")
         | None => mkResponse 500 (Error "Failed to delete file")
         end,
         write_doc (set_disk w (disk_without (get file_data "path") (disk w)))
           FILES_FILE (Document (delete file_id (stored w FILES_FILE))))
    end.
Proof.
  intros Hpath. unfold delete_file, handler. rewrite bind_load.
  destruct (stored w FILES_FILE !! file_id) as [file_data|]; [|reflexivity].
  cbv zeta. unfold bind at 1.
  rewrite (remove_recorded_file _ w (Hpath file_data eq_refl)).
  rewrite bind_save. unfold getitem.
  destruct (file_data !! "filename"); reflexivity.
Qed.

Lemma list_files_run (w : World) :
  list_files w = (mkResponse 200 (Items "files" (values (stored w FILES_FILE))), w).
Proof. unfold list_files, handler. rewrite bind_load. reflexivity. Qed.

Lemma get_project_goals_run (project_id : string) (w : World) :
  get_project_goals project_id w =
    (mkResponse 200 (Items "goals" (of_project (stored w GOALS_FILE) project_id)), w).
Proof. unfold get_project_goals, handler. rewrite bind_load. reflexivity. Qed.

Lemma get_project_insights_run (project_id : string) (w : World) :
  get_project_insights project_id w =
    (mkResponse 200 (Items "insights" (of_project (stored w INSIGHTS_FILE) project_id)), w).
Proof. unfold get_project_insights, handler. rewrite bind_load. reflexivity. Qed.

(** C7: [delete_goal] and [delete_file] answer 404 and change nothing
    when the id is not in their store.  When the id is there, the record
    leaves the store, so the listings that follow are the earlier ones
    without it; [delete_file], for a record whose path is absent, empty
    or the path [data/name] of an uploaded file, also removes the file at
    the recorded path from the disk when there is one, and no other
    file. *)
Theorem delete_spec (id : string) (w : World) :
  (stored w GOALS_FILE !! id = None ->
     delete_goal id w = (mkResponse 404 (Error "Goal not found"), w)) /\
  (forall goal : record,
     stored w GOALS_FILE !! id = Some goal ->
     exists (r : response) (w' : World),
       delete_goal id w = (r, w') /\
       status r <> 404%Z /\
       stored w' GOALS_FILE = delete id (stored w GOALS_FILE) /\
       stored w' GOALS_FILE !! id = None /\
       forall project_id : string,
         fst (get_project_goals project_id w') =
           mkResponse 200 (Items "goals" (of_project (stored w' GOALS_FILE) project_id)) /\
         of_project (stored w GOALS_FILE) project_id ≡ₚ
           (if Py.equals (get goal "project_id") (JStr project_id) then [goal] else [])
             ++ of_project (stored w' GOALS_FILE) project_id) /\
  (stored w FILES_FILE !! id = None ->
     delete_file id w = (mkResponse 404 (Error "File not found"), w)) /\
  (forall file_data : record,
     stored w FILES_FILE !! id = Some file_data ->
     path_or_none (get file_data "path") ->
     exists (r : response) (w' : World),
       delete_file id w = (r, w') /\
       status r <> 404%Z /\
       stored w' FILES_FILE = delete id (stored w FILES_FILE) /\
       stored w' FILES_FILE !! id = None /\
       fst (list_files w') =
         mkResponse 200 (Items "files" (values (stored w' FILES_FILE))) /\
       values (stored w FILES_FILE) ≡ₚ file_data :: values (stored w' FILES_FILE) /\
       (forall p : string,
          get file_data "path" = JStr p -> p <> "" -> disk w' !! p = None) /\
       (forall q : string,
          get file_data "path" <> JStr q -> disk w' !! q = disk w !! q)).
Proof.
  split; [|split; [|split]].
  - intros H. rewrite delete_goal_run, H. reflexivity.
  - intros goal H. eexists. eexists.
    split; [rewrite delete_goal_run, H; reflexivity|].
    rewrite stored_write_same.
    split; [destruct (goal !! "title"); discriminate|].
    split; [reflexivity|]. split; [apply lookup_delete_eq|].
    intros project_id. rewrite get_project_goals_run, stored_write_same.
    split; [reflexivity|]. apply of_project_delete, H.
  - intros H. unfold delete_file, handler. rewrite bind_load, H. reflexivity.
  - intros file_data H Hpath. eexists. eexists.
    split.
    { rewrite delete_file_run, H; [reflexivity|].
      intros fd Hfd. rewrite H in Hfd. injection Hfd as <-.
      exact (path_or_none_no_special _ Hpath). }
    rewrite stored_write_same.
    split; [destruct (file_data !! "filename"); discriminate|].
    split; [reflexivity|]. split; [apply lookup_delete_eq|].
    rewrite list_files_run, stored_write_same.
    split; [reflexivity|]. split; [apply values_delete, H|].
    split.
    + intros p Hp Hne. rewrite Hp in Hpath |- *.
      destruct Hpath as [Hnull | (q & [= <-] & [-> | Hq])];
        [discriminate | contradiction |].
      apply upload_path_inv in Hq as (Htruthy & Hnul & _).
      rewrite disk_write_doc. cbn [disk set_disk disk_without].
      rewrite Htruthy, Hnul. apply lookup_delete_eq.
    + intros q Hq. rewrite disk_write_doc. cbn [disk set_disk].
      destruct (get file_data "path") as [| | | |p| |]; cbn [disk_without];
        try reflexivity.
      destruct (Str.truthy p && negb (Str.contains NUL p)); [|reflexivity].
      apply lookup_delete_ne. congruence.
Qed.

Lemma delete_spec_witness :
  delete_goal "nobody" Sample.busy =
    (mkResponse 404 (Error "Goal not found"), Sample.busy) /\
  delete_file "nobody" Sample.busy =
    (mkResponse 404 (Error "File not found"), Sample.busy) /\
  stored (snd (delete_goal "g-1" Sample.busy)) GOALS_FILE !! "g-1" = None /\
  stored (snd (delete_file "f-1" Sample.busy)) FILES_FILE !! "f-1" = None /\
  disk Sample.busy !! "data/f-1_notes.txt" = Some "hello" /\
  disk (snd (delete_file "f-1" Sample.busy)) !! "data/f-1_notes.txt" = None.
Proof.
  destruct (delete_spec "nobody" Sample.busy) as (Hgoal & _ & Hfile & _).
  destruct (delete_spec "g-1" Sample.busy) as (_ & Hgoal' & _ & _).
  destruct (delete_spec "f-1" Sample.busy) as (_ & _ & _ & Hfile').
  destruct (Hgoal' Sample.goal_1 eq_refl) as (r & w' & Hrun & _ & _ & Hgone & _).
  destruct (Hfile' Sample.file_1 eq_refl
              (or_intror (ex_intro _ "data/f-1_notes.txt"
                            (conj eq_refl (or_intror eq_refl)))))
    as (r2 & w2 & Hrun2 & _ & _ & Hgone2 & _ & _ & Hdisk & _).
  split; [apply Hgoal; reflexivity|].
  split; [apply Hfile; reflexivity|].
  rewrite Hrun, Hrun2. cbn [snd].
  split; [exact Hgone|]. split; [exact Hgone2|].
  split; [reflexivity|].
  apply Hdisk; [reflexivity | discriminate].
Defined.

(** ** File upload endpoints *)

(** [upload_file] without the monad: the four checks, the extension of
    the sanitized name, then the two writes. *)
Lemma upload_file_run (uuid4 now : string) (request : upload_request) (w : World) :
  upload_file uuid4 now request w =
    match request_file request with
    | None => (mkResponse 400 (Error "No file provided"), w)
    | Some file =>
        match form_project_id request with
        | None => (mkResponse 400 (Error "Project ID is required"), w)
        | Some project_id =>
            if negb (Str.truthy project_id)
            then (mkResponse 400 (Error "Project ID is required"), w)
            else if String.eqb (filename file) ""
            then (mkResponse 400 (Error "No file selected"), w)
            else if negb (allowed_file (filename file))
            then (mkResponse 400 (Error "File type not allowed"), w)
            else
              let filename_ := Werkzeug.secure_filename (filename file) in
              match Str.rsplit1 "." filename_ !! 1%nat with
              | None => (mkResponse 500 (Error "Failed to upload file"), w)
              | Some ext =>
                  let file_path :=
                    os_path_join UPLOAD_FOLDER (uuid4 ++ "_" ++ filename_)%string in
                  let file_data := file_record uuid4 now project_id file ext in
                  if creatable file_path
                  then
                    (mkResponse 200 (Item "file" file_data),
                     write_doc (set_disk w (<[file_path := stream file]> (disk w)))
                       FILES_FILE
                       (Document (<[uuid4 := file_data]> (stored w FILES_FILE))))
                  else (mkResponse 500 (Error "Failed to upload file"), w)
              end
        end
    end.
Proof.
  unfold upload_file, handler.
  destruct (request_file request) as [file|]; [|reflexivity].
  destruct (form_project_id request) as [project_id|]; [|reflexivity].
  destruct (negb (Str.truthy project_id)); [reflexivity|].
  destruct (String.eqb (filename file) ""); [reflexivity|].
  destruct (negb (allowed_file (filename file))); [reflexivity|].
  cbv zeta.
  destruct (Str.rsplit1 "." (Werkzeug.secure_filename (filename file)) !! 1%nat)
    as [ext|]; [|reflexivity].
  unfold bind at 1. unfold file_save at 1.
  destruct (creatable _); [|reflexivity].
  rewrite bind_load. rewrite stored_set_disk.
  unfold bind at 1. unfold os_path_getsize at 1.
  cbn [disk set_disk]. rewrite lookup_insert_eq.
  rewrite bind_save. reflexivity.
Qed.

(** The upload of a file that passes the four checks, whose sanitized
    name keeps an extension, and whose name on the disk is one that the
    file system takes. *)
Lemma upload_file_accepted (uuid4 now project_id ext : string) (file : FileStorage)
    (w : World) :
  project_id <> "" ->
  filename file <> "" ->
  allowed_file (filename file) = true ->
  Str.rsplit1 "." (Werkzeug.secure_filename (filename file)) !! 1%nat = Some ext ->
  plain_name (uuid4 ++ "_" ++ Werkzeug.secure_filename (filename file)) = true ->
  upload_file uuid4 now (mkUpload (Some file) (Some project_id)) w =
    (mkResponse 200 (Item "file" (file_record uuid4 now project_id file ext)),
     write_doc
       (set_disk w
          (<[os_path_join UPLOAD_FOLDER
               (uuid4 ++ "_" ++ Werkzeug.secure_filename (filename file))
             := stream file]> (disk w)))
       FILES_FILE
       (Document (<[uuid4 := file_record uuid4 now project_id file ext]>
                    (stored w FILES_FILE)))).
Proof.
  intros Hproject Hname Hallowed Hext Hplain.
  rewrite upload_file_run. cbn [request_file form_project_id].
  assert (Hpid : negb (Str.truthy project_id) = false)
    by (destruct project_id; [contradiction | reflexivity]).
  rewrite Hpid.
  destruct (String.eqb_spec (filename file) ""); [contradiction|].
  rewrite Hallowed. cbn [negb]. cbv zeta. rewrite Hext.
  rewrite (creatable_join _ Hplain). reflexivity.
Qed.

(** C9: the four checks of [upload_file] come before every write: when
    the answer is 400, the disk and the four documents are as before. *)
Theorem upload_file_400_changes_nothing (uuid4 now : string)
    (request : upload_request) (w : World) :
  status (fst (upload_file uuid4 now request w)) = 400%Z ->
  snd (upload_file uuid4 now request w) = w.
Proof.
  rewrite upload_file_run.
  destruct (request_file request) as [file|]; [|reflexivity].
  destruct (form_project_id request) as [project_id|]; [|reflexivity].
  destruct (negb (Str.truthy project_id)); [reflexivity|].
  destruct (String.eqb (filename file) ""); [reflexivity|].
  destruct (negb (allowed_file (filename file))); [reflexivity|].
  cbv zeta.
  destruct (Str.rsplit1 "." (Werkzeug.secure_filename (filename file)) !! 1%nat);
    [|reflexivity].
  destruct (creatable _); cbn [fst status]; [discriminate | reflexivity].
Qed.

Lemma upload_file_400_changes_nothing_witness :
  let request :=
    mkUpload (Some (mkFileStorage "setup.exe" None "MZ")) (Some "p-1") in
  status (fst (upload_file "f-2" "t9" request Sample.busy)) = 400%Z /\
  snd (upload_file "f-2" "t9" request Sample.busy) = Sample.busy.
Proof.
  split; [reflexivity|].
  apply (upload_file_400_changes_nothing "f-2" "t9"
           (mkUpload (Some (mkFileStorage "setup.exe" None "MZ")) (Some "p-1"))
           Sample.busy).
  reflexivity.
Defined.

(** The extension of a file name: what follows its last dot. *)
Lemma rpartition_Some (sep : ascii) (s a b : string) :
  Str.rpartition sep s = Some (a, b) ->
  s = (a ++ String sep b)%string /\ Str.contains sep b = false.
Proof.
  revert a b. induction s as [|c s IH]; intros a b; cbn [Str.rpartition]; [discriminate|].
  destruct (Str.rpartition sep s) as [[a' b']|] eqn:E.
  - intros [= <- <-]. destruct (IH a' b' eq_refl) as [-> Hb].
    split; [reflexivity | exact Hb].
  - destruct (Ascii.eqb c sep) eqn:Ec; [|discriminate].
    intros [= <- <-]. apply Ascii.eqb_eq in Ec as ->.
    split; [reflexivity|].
    clear IH. induction s as [|d s IHs]; [reflexivity|].
    cbn [Str.rpartition] in E. cbn [Str.contains].
    destruct (Str.rpartition sep s) as [[? ?]|]; [discriminate|].
    destruct (Ascii.eqb d sep); [discriminate|]. apply IHs. reflexivity.
Qed.

Lemma rpartition_None (sep : ascii) (s : string) :
  Str.rpartition sep s = None -> Str.contains sep s = false.
Proof.
  induction s as [|c s IH]; [reflexivity|].
  cbn [Str.rpartition Str.contains].
  destruct (Str.rpartition sep s) as [[? ?]|]; [discriminate|].
  destruct (Ascii.eqb c sep); [discriminate|]. intros _. apply IH. reflexivity.
Qed.

(** X2: [allowed_file] accepts exactly the names [stem.ext] whose
    extension, the text after the last dot, is in the allow-list once in
    lower case; a name without a dot is refused. *)
Lemma allowed_file_iff (name : string) :
  allowed_file name = true <->
  exists stem ext : string,
    name = (stem ++ String "." ext)%string /\
    Str.contains "." ext = false /\
    Str.lower ext ∈ ALLOWED_EXTENSIONS.
Proof.
  unfold allowed_file, Str.rsplit1. split.
  - intros H. apply andb_true_iff in H as [_ H].
    destruct (Str.rpartition "." name) as [[stem ext]|] eqn:E; [|discriminate].
    cbn in H. apply bool_decide_eq_true in H.
    destruct (rpartition_Some _ _ _ _ E) as [-> Hext]. eauto.
  - intros (stem & ext & -> & Hext & Hin).
    assert (E : Str.rpartition "." (stem ++ String "." ext) = Some (stem, ext)).
    { induction stem as [|c stem IH].
      2:{ change (String c stem ++ String "." ext)%string
            with (String c (stem ++ String "." ext)).
          cbn [Str.rpartition]. rewrite IH. reflexivity. }
      change ("" ++ String "." ext)%string with (String "." ext).
      cbn [Str.rpartition].
      - destruct (Str.rpartition "." ext) as [[a b]|] eqn:E.
        + destruct (rpartition_Some _ _ _ _ E) as [-> _].
          rewrite contains_app in Hext. cbn in Hext.
          rewrite orb_true_r in Hext. discriminate.
        + reflexivity. }
    rewrite E, contains_app. cbn. rewrite orb_true_r. cbn.
    apply bool_decide_eq_true. exact Hin.
Qed.

(** Each of the four checks of [upload_file] answers 400. *)
Lemma upload_file_rejects (uuid4 now : string) (request : upload_request) (w : World) :
  request_file request = None \/
  form_project_id request = None \/
  form_project_id request = Some "" \/
  (exists file : FileStorage,
     request_file request = Some file /\
     (filename file = "" \/ allowed_file (filename file) = false)) ->
  status (fst (upload_file uuid4 now request w)) = 400%Z.
Proof.
  rewrite upload_file_run.
  intros [H | [H | [H | (file & H & Hname)]]].
  - rewrite H. reflexivity.
  - destruct (request_file request); rewrite ?H; reflexivity.
  - destruct (request_file request); rewrite ?H; reflexivity.
  - rewrite H. destruct (form_project_id request) as [project_id|]; [|reflexivity].
    destruct (negb (Str.truthy project_id)); [reflexivity|].
    destruct Hname as [-> | Hname]; [reflexivity|].
    destruct (String.eqb (filename file) ""); [reflexivity|].
    rewrite Hname. reflexivity.
Qed.

(** An upload that passes the checks, whose sanitized name still has an
    extension and, with the generated id before it, is a name that the
    file system takes, is stored and listed with its original name and
    its project id. *)
Lemma upload_file_stores (uuid4 now project_id ext : string) (file : FileStorage)
    (w : World) :
  project_id <> "" ->
  filename file <> "" ->
  allowed_file (filename file) = true ->
  Str.rsplit1 "." (Werkzeug.secure_filename (filename file)) !! 1%nat = Some ext ->
  plain_name (uuid4 ++ "_" ++ Werkzeug.secure_filename (filename file)) = true ->
  exists (file_data : record) (w' : World),
    upload_file uuid4 now (mkUpload (Some file) (Some project_id)) w =
      (mkResponse 200 (Item "file" file_data), w') /\
    stored w' FILES_FILE !! uuid4 = Some file_data /\
    file_data !! "original_name" = Some (JStr (filename file)) /\
    file_data !! "project_id" = Some (JStr project_id) /\
    exists l : list record,
      fst (list_files w') = mkResponse 200 (Items "files" l) /\ file_data ∈ l.
Proof.
  intros Hproject Hname Hallowed Hext Hplain.
  eexists. eexists. split.
  { apply (upload_file_accepted _ _ _ ext); assumption. }
  rewrite stored_write_same, lookup_insert_eq.
  split; [reflexivity|]. split; [reflexivity|]. split; [reflexivity|].
  eexists. rewrite list_files_run, stored_write_same.
  split; [reflexivity|].
  unfold values. apply list_elem_of_fmap.
  exists (uuid4, file_record uuid4 now project_id file ext).
  split; [reflexivity|].
  apply elem_of_map_to_list, lookup_insert_eq.
Qed.

(** C4: the names ".txt" and "!!!.pdf" pass [allowed_file], their
    sanitized forms "txt" and "pdf" have no dot left, and [upload_file]
    answers 500 and stores nothing: uploads with an allowed extension that
    are neither stored nor listed. *)
Theorem upload_file_allowed_but_not_stored :
  allowed_file ".txt" = true /\
  allowed_file "!!!.pdf" = true /\
  Werkzeug.secure_filename ".txt" = "txt" /\
  Werkzeug.secure_filename "!!!.pdf" = "pdf" /\
  forall (uuid4 now : string) (type : option string) (content : string) (w : World),
    upload_file uuid4 now
      (mkUpload (Some (mkFileStorage ".txt" type content)) (Some "p-1")) w =
      (mkResponse 500 (Error "Failed to upload file"), w) /\
    upload_file uuid4 now
      (mkUpload (Some (mkFileStorage "!!!.pdf" type content)) (Some "p-1")) w =
      (mkResponse 500 (Error "Failed to upload file"), w).
Proof.
  do 4 (split; [reflexivity|]).
  intros uuid4 now type content w. rewrite !upload_file_run. split; reflexivity.
Qed.

(** ** Insights endpoints *)

(** The three records of the sample: their ids, their project and their
    fixed content. *)
Lemma sample_insights_fields (project_id uuid_1 now_1 uuid_2 now_2 uuid_3 now_3 : string) :
  exists i1 i2 i3 : record,
    sample_insights project_id uuid_1 now_1 uuid_2 now_2 uuid_3 now_3 = [i1; i2; i3] /\
    (i1 !! "id" = Some (JStr uuid_1) /\
     i2 !! "id" = Some (JStr uuid_2) /\
     i3 !! "id" = Some (JStr uuid_3)) /\
    fixed_insight project_id i1 "finding"
      "Based on the uploaded documents, there appears to be a strong correlation between market trends and consumer behavior patterns."
      0.85 0.92 /\
    fixed_insight project_id i2 "recommendation"
      "The data suggests implementing a phased approach to the proposed strategy would minimize risk while maximizing potential returns."
      0.78 0.88 /\
    fixed_insight project_id i3 "question"
      "Further investigation is needed to understand the underlying factors driving these observed patterns."
      0.65 0.75.
Proof.
  eexists. eexists. eexists. split; [reflexivity|].
  unfold fixed_insight. repeat split; vm_compute; reflexivity.
Qed.

Lemma add_insights_sample (project_id uuid_1 now_1 uuid_2 now_2 uuid_3 now_3 : string)
    (i1 i2 i3 : record) (insights : store) (w : World) :
  sample_insights project_id uuid_1 now_1 uuid_2 now_2 uuid_3 now_3 = [i1; i2; i3] ->
  add_insights [i1; i2; i3] insights w =
    (Ok (<[uuid_3 := i3]> (<[uuid_2 := i2]> (<[uuid_1 := i1]> insights))), w).
Proof.
  intros Hsample.
  destruct (sample_insights_fields project_id uuid_1 now_1 uuid_2 now_2 uuid_3 now_3)
    as (j1 & j2 & j3 & Hj & (H1 & H2 & H3) & _).
  rewrite Hsample in Hj. injection Hj as <- <- <-.
  cbn [add_insights]. unfold getitem. rewrite H1, H2, H3. reflexivity.
Qed.

(** [generate_insights] without the monad. *)
Lemma generate_insights_run
    (uuid_1 now_1 uuid_2 now_2 uuid_3 now_3 now_4 project_id : string)
    (i1 i2 i3 : record) (w : World) :
  sample_insights project_id uuid_1 now_1 uuid_2 now_2 uuid_3 now_3 = [i1; i2; i3] ->
  let w1 :=
    write_doc w INSIGHTS_FILE
      (Document (<[uuid_3 := i3]> (<[uuid_2 := i2]> (<[uuid_1 := i1]>
         (stored w INSIGHTS_FILE))))) in
  generate_insights uuid_1 now_1 uuid_2 now_2 uuid_3 now_3 now_4 project_id w =
    match stored w PROJECTS_FILE !! project_id with
    | None => (mkResponse 200 (Message "Insights generated successfully"), w1)
    | Some project =>
        match add_25 (get_or project "research_progress" (JInt 0)) with
        | Ok progress =>
            (mkResponse 200 (Message "Insights generated successfully"),
             write_doc w1 PROJECTS_FILE
               (Document (<[project_id :=
                              <["updated_at" := JStr now_4]>
                                (<["research_progress" := of_num (min_100 progress)]>
                                   project)]>
                            (stored w PROJECTS_FILE))))
        | Raised _ => (mkResponse 500 (Error "Failed to generate insights"), w1)
        end
    end.
Proof.
  intros Hsample w1. subst w1.
  unfold generate_insights, handler. rewrite bind_load. cbv zeta.
  rewrite Hsample. unfold bind at 1.
  rewrite (add_insights_sample _ _ _ _ _ _ _ _ _ _ _ _ Hsample).
  rewrite bind_save. rewrite bind_load.
  rewrite (stored_write_other w INSIGHTS_FILE PROJECTS_FILE) by discriminate.
  destruct (stored w PROJECTS_FILE !! project_id) as [project|]; [|reflexivity].
  unfold bind at 1. unfold bind at 1. unfold lift at 1.
  destruct (add_25 (get_or project "research_progress" (JInt 0))); reflexivity.
Qed.

Lemma min_100_int (m : Z) : of_num (min_100 (NInt m)) = JInt (Z.min 100 m).
Proof.
  unfold min_100. destruct (Z.ltb_spec m 100); cbn [of_num]; f_equal; lia.
Qed.

Lemma eq_str_refl (s : string) : Py.equals (JStr s) (JStr s) = true.
Proof. cbn. apply String.eqb_refl. Qed.

(** Three records under fresh, distinct ids are listed for their project
    next to the earlier ones. *)
Lemma of_project_insert_3 (t : store) (u1 u2 u3 project_id : string) (i1 i2 i3 : record) :
  t !! u1 = None -> t !! u2 = None -> t !! u3 = None ->
  u1 <> u2 -> u1 <> u3 -> u2 <> u3 ->
  get i1 "project_id" = JStr project_id ->
  get i2 "project_id" = JStr project_id ->
  get i3 "project_id" = JStr project_id ->
  of_project (<[u3 := i3]> (<[u2 := i2]> (<[u1 := i1]> t))) project_id
    ≡ₚ i3 :: i2 :: i1 :: of_project t project_id.
Proof.
  intros F1 F2 F3 N12 N13 N23 P1 P2 P3. unfold of_project.
  assert (V : values (<[u3 := i3]> (<[u2 := i2]> (<[u1 := i1]> t)))
              ≡ₚ i3 :: i2 :: i1 :: values t).
  { rewrite values_insert_fresh
      by (rewrite !lookup_insert_ne by congruence; exact F3).
    rewrite values_insert_fresh
      by (rewrite lookup_insert_ne by congruence; exact F2).
    rewrite values_insert_fresh by exact F1. reflexivity. }
  rewrite (filter_Permutation_bool _ _ _ V). cbn [List.filter].
  rewrite P1, P2, P3, eq_str_refl. reflexivity.
Qed.

(** C1: whatever the insights store holds, [generate_insights] adds
    exactly three records, under the three generated ids (fresh and
    distinct), each with the given project_id and the fixed content, types
    finding / recommendation / question and fixed scores; every earlier
    insight stays.  For a project whose research_progress is the integer
    [n] (0 when absent) the answer is 200 and the stored progress becomes
    [min 100 (n + 25)]; only research_progress and updated_at change. *)
Theorem generate_insights_spec
    (uuid_1 now_1 uuid_2 now_2 uuid_3 now_3 now_4 project_id : string) (w : World) :
  stored w INSIGHTS_FILE !! uuid_1 = None ->
  stored w INSIGHTS_FILE !! uuid_2 = None ->
  stored w INSIGHTS_FILE !! uuid_3 = None ->
  uuid_1 <> uuid_2 -> uuid_1 <> uuid_3 -> uuid_2 <> uuid_3 ->
  exists (i1 i2 i3 : record) (r : response) (w' : World),
    generate_insights uuid_1 now_1 uuid_2 now_2 uuid_3 now_3 now_4 project_id w = (r, w') /\
    fixed_insight project_id i1 "finding"
      "Based on the uploaded documents, there appears to be a strong correlation between market trends and consumer behavior patterns."
      0.85 0.92 /\
    fixed_insight project_id i2 "recommendation"
      "The data suggests implementing a phased approach to the proposed strategy would minimize risk while maximizing potential returns."
      0.78 0.88 /\
    fixed_insight project_id i3 "question"
      "Further investigation is needed to understand the underlying factors driving these observed patterns."
      0.65 0.75 /\
    stored w' INSIGHTS_FILE =
      <[uuid_3 := i3]> (<[uuid_2 := i2]> (<[uuid_1 := i1]> (stored w INSIGHTS_FILE))) /\
    size (stored w' INSIGHTS_FILE) = (3 + size (stored w INSIGHTS_FILE))%nat /\
    (forall (id : string) (old : record),
       stored w INSIGHTS_FILE !! id = Some old ->
       stored w' INSIGHTS_FILE !! id = Some old) /\
    of_project (stored w' INSIGHTS_FILE) project_id
      ≡ₚ i3 :: i2 :: i1 :: of_project (stored w INSIGHTS_FILE) project_id /\
    (forall (project : record) (n : Z),
       stored w PROJECTS_FILE !! project_id = Some project ->
       get_or project "research_progress" (JInt 0) = JInt n ->
       r = mkResponse 200 (Message "Insights generated successfully") /\
       exists project' : record,
         stored w' PROJECTS_FILE = <[project_id := project']> (stored w PROJECTS_FILE) /\
         project' !! "research_progress" = Some (JInt (Z.min 100 (n + 25))) /\
         forall k : string,
           k <> "research_progress" -> k <> "updated_at" ->
           project' !! k = project !! k).
Proof.
  intros F1 F2 F3 N12 N13 N23.
  destruct (sample_insights_fields project_id uuid_1 now_1 uuid_2 now_2 uuid_3 now_3)
    as (i1 & i2 & i3 & Hsample & _ & T1 & T2 & T3).
  pose proof (generate_insights_run uuid_1 now_1 uuid_2 now_2 uuid_3 now_3 now_4
                project_id i1 i2 i3 w Hsample) as Hrun.
  cbv zeta in Hrun.
  set (insights' := <[uuid_3 := i3]> (<[uuid_2 := i2]> (<[uuid_1 := i1]>
                      (stored w INSIGHTS_FILE)))) in *.
  set (w1 := write_doc w INSIGHTS_FILE (Document insights')) in *.
  assert (Hsize : size insights' = (3 + size (stored w INSIGHTS_FILE))%nat).
  { unfold insights'.
    rewrite map_size_insert_None
      by (rewrite !lookup_insert_ne by congruence; exact F3).
    rewrite map_size_insert_None
      by (rewrite lookup_insert_ne by congruence; exact F2).
    rewrite map_size_insert_None by exact F1. reflexivity. }
  assert (Hold : forall (id : string) (old : record),
            stored w INSIGHTS_FILE !! id = Some old -> insights' !! id = Some old).
  { intros id old Hid. unfold insights'.
    rewrite !lookup_insert_ne by congruence. exact Hid. }
  assert (Hlist : of_project insights' project_id
                    ≡ₚ i3 :: i2 :: i1 :: of_project (stored w INSIGHTS_FILE) project_id).
  { apply of_project_insert_3; try assumption; [apply T1 | apply T2 | apply T3]. }
  assert (Hafter : forall w' : World,
            stored w' INSIGHTS_FILE = insights' ->
            stored w' INSIGHTS_FILE = insights' /\
            size (stored w' INSIGHTS_FILE) = (3 + size (stored w INSIGHTS_FILE))%nat /\
            (forall (id : string) (old : record),
               stored w INSIGHTS_FILE !! id = Some old ->
               stored w' INSIGHTS_FILE !! id = Some old) /\
            of_project (stored w' INSIGHTS_FILE) project_id
              ≡ₚ i3 :: i2 :: i1 :: of_project (stored w INSIGHTS_FILE) project_id).
  { intros w' ->. auto. }
  exists i1, i2, i3.
  destruct (stored w PROJECTS_FILE !! project_id) as [project|] eqn:Eproject.
  - destruct (add_25 (get_or project "research_progress" (JInt 0)))
      as [progress|e] eqn:Eadd.
    + eexists. eexists. split; [exact Hrun|].
      split; [exact T1|]. split; [exact T2|]. split; [exact T3|].
      destruct (Hafter (write_doc w1 PROJECTS_FILE
                  (Document (<[project_id :=
                     <["updated_at" := JStr now_4]>
                       (<["research_progress" := of_num (min_100 progress)]> project)]>
                     (stored w PROJECTS_FILE)))))
        as (A1 & A2 & A3 & A4).
      { rewrite stored_write_other by discriminate. apply stored_write_same. }
      split; [exact A1|]. split; [exact A2|]. split; [exact A3|]. split; [exact A4|].
      intros project0 n [= <-] Hn. split; [reflexivity|].
      rewrite Hn in Eadd. injection Eadd as <-.
      eexists. split; [apply stored_write_same|].
      split.
      * rewrite lookup_insert_ne by discriminate.
        rewrite lookup_insert_eq, min_100_int. reflexivity.
      * intros k K1 K2. rewrite !lookup_insert_ne by congruence. reflexivity.
    + eexists. eexists. split; [exact Hrun|].
      split; [exact T1|]. split; [exact T2|]. split; [exact T3|].
      destruct (Hafter w1 (stored_write_same _ _ _)) as (A1 & A2 & A3 & A4).
      split; [exact A1|]. split; [exact A2|]. split; [exact A3|]. split; [exact A4|].
      intros project0 n [= <-] Hn. rewrite Hn in Eadd. discriminate.
  - eexists. eexists. split; [exact Hrun|].
    split; [exact T1|]. split; [exact T2|]. split; [exact T3|].
    destruct (Hafter w1 (stored_write_same _ _ _)) as (A1 & A2 & A3 & A4).
    split; [exact A1|]. split; [exact A2|]. split; [exact A3|]. split; [exact A4|].
    intros project0 n [=].
Qed.

Lemma generate_insights_spec_witness :
  let w' :=
    snd (generate_insights "i-1" "t1" "i-2" "t2" "i-3" "t3" "t4" "p-1" Sample.busy) in
  Sample.project_1 !! "research_progress" = Some (JInt 90) /\
  size (stored w' INSIGHTS_FILE) = 3%nat /\
  exists project' : record,
    stored w' PROJECTS_FILE !! "p-1" = Some project' /\
    project' !! "research_progress" = Some (JInt 100) /\
    project' !! "name" = Some (JStr "Alpha").
Proof.
  destruct (generate_insights_spec "i-1" "t1" "i-2" "t2" "i-3" "t3" "t4" "p-1"
              Sample.busy)
    as (i1 & i2 & i3 & r & w' & Hrun & _ & _ & _ & _ & Hsize & _ & _ & Hprogress);
    try reflexivity; try discriminate.
  destruct (Hprogress Sample.project_1 90%Z eq_refl eq_refl)
    as (_ & project' & Hstored & Hvalue & Hframe).
  rewrite Hrun. cbn [snd].
  split; [reflexivity|]. split; [exact Hsize|].
  exists project'. rewrite Hstored, lookup_insert_eq.
  split; [reflexivity|]. split; [exact Hvalue|].
  rewrite Hframe by discriminate. reflexivity.
Defined.

(** C10: for a project_id that is not in the projects store,
    [generate_insights] still stores the three records with that
    project_id, leaves the projects document as it is, and gives the answer
    it gives for an existing project; no call of it answers 404. *)
Theorem generate_insights_unknown_project
    (uuid_1 now_1 uuid_2 now_2 uuid_3 now_3 now_4 project_id : string) (w : World) :
  stored w PROJECTS_FILE !! project_id = None ->
  (exists i1 i2 i3 : record,
     generate_insights uuid_1 now_1 uuid_2 now_2 uuid_3 now_3 now_4 project_id w =
       (mkResponse 200 (Message "Insights generated successfully"),
        write_doc w INSIGHTS_FILE
          (Document (<[uuid_3 := i3]> (<[uuid_2 := i2]> (<[uuid_1 := i1]>
             (stored w INSIGHTS_FILE)))))) /\
     get i1 "project_id" = JStr project_id /\
     get i2 "project_id" = JStr project_id /\
     get i3 "project_id" = JStr project_id) /\
  read_doc
    (snd (generate_insights uuid_1 now_1 uuid_2 now_2 uuid_3 now_3 now_4 project_id w))
    PROJECTS_FILE = read_doc w PROJECTS_FILE /\
  (forall (w2 : World) (project : record) (n : Z),
     stored w2 PROJECTS_FILE !! project_id = Some project ->
     get_or project "research_progress" (JInt 0) = JInt n ->
     fst (generate_insights uuid_1 now_1 uuid_2 now_2 uuid_3 now_3 now_4 project_id w2) =
     fst (generate_insights uuid_1 now_1 uuid_2 now_2 uuid_3 now_3 now_4 project_id w)) /\
  (forall (u1 t1 u2 t2 u3 t3 t4 p : string) (w3 : World),
     status (fst (generate_insights u1 t1 u2 t2 u3 t3 t4 p w3)) <> 404%Z).
Proof.
  intros Hunknown.
  destruct (sample_insights_fields project_id uuid_1 now_1 uuid_2 now_2 uuid_3 now_3)
    as (i1 & i2 & i3 & Hsample & _ & T1 & T2 & T3).
  pose proof (generate_insights_run uuid_1 now_1 uuid_2 now_2 uuid_3 now_3 now_4
                project_id i1 i2 i3 w Hsample) as Hrun.
  cbv zeta in Hrun. rewrite Hunknown in Hrun.
  split; [|split; [|split]].
  - exists i1, i2, i3. split; [exact Hrun|].
    split; [apply T1|]. split; [apply T2 | apply T3].
  - rewrite Hrun. reflexivity.
  - intros w2 project n Hproject Hn. rewrite Hrun.
    rewrite (generate_insights_run _ _ _ _ _ _ now_4 _ _ _ _ w2 Hsample).
    cbv zeta. rewrite Hproject, Hn. reflexivity.
  - intros u1 t1 u2 t2 u3 t3 t4 p w3.
    destruct (sample_insights_fields p u1 t1 u2 t2 u3 t3)
      as (j1 & j2 & j3 & Hj & _).
    rewrite (generate_insights_run _ _ _ _ _ _ t4 _ _ _ _ w3 Hj). cbv zeta.
    destruct (stored w3 PROJECTS_FILE !! p) as [project|]; [|discriminate].
    destruct (add_25 (get_or project "research_progress" (JInt 0))); discriminate.
Qed.

Lemma generate_insights_unknown_project_witness :
  stored Sample.busy PROJECTS_FILE !! "p-404" = None /\
  fst (generate_insights "i-1" "t1" "i-2" "t2" "i-3" "t3" "t4" "p-404" Sample.busy) =
    mkResponse 200 (Message "Insights generated successfully") /\
  length (of_project
            (stored
               (snd (generate_insights "i-1" "t1" "i-2" "t2" "i-3" "t3" "t4" "p-404"
                       Sample.busy))
               INSIGHTS_FILE) "p-404") = 3%nat.
Proof.
  destruct (generate_insights_unknown_project
              "i-1" "t1" "i-2" "t2" "i-3" "t3" "t4" "p-404" Sample.busy eq_refl)
    as ((i1 & i2 & i3 & Hrun & P1 & P2 & P3) & _).
  split; [reflexivity|]. rewrite Hrun. cbn [fst snd].
  split; [reflexivity|].
  rewrite stored_write_same.
  rewrite (Permutation_length
             (of_project_insert_3 (stored Sample.busy INSIGHTS_FILE)
                "i-1" "i-2" "i-3" "p-404" i1 i2 i3
                eq_refl eq_refl eq_refl
                ltac:(discriminate) ltac:(discriminate) ltac:(discriminate)
                P1 P2 P3)).
  reflexivity.
Defined.

(** ** Listing the projects *)

Lemma with_counts_run (files goals insights : store) (project : record) (w : World) :
  with_counts files goals insights project w =
    match project !! "id" with
    | Some project_id => (Ok (counted files goals insights project_id project), w)
    | None => (Raised KeyError, w)
    end.
Proof.
  unfold with_counts, getitem.
  destruct (project !! "id") as [project_id|]; [|reflexivity].
  rewrite bind_lift_ok. cbv zeta. unfold counted, get_or, ret.
  rewrite !lookup_insert_ne by discriminate. reflexivity.
Qed.

Lemma counted_erase (files goals insights : store) (project_id : json) (project : record) :
  counted files goals insights project_id (erase_counts project)
    = counted files goals insights project_id project.
Proof.
  unfold counted, erase_counts, get_or.
  rewrite !lookup_delete_ne by discriminate.
  apply map_eq. intros k.
  destruct (decide (k = "research_progress")) as [->|];
    [rewrite !lookup_insert_eq; reflexivity | rewrite (lookup_insert_ne _ "research_progress") by congruence].
  symmetry.
  rewrite (lookup_insert_ne _ "research_progress") by congruence.
  destruct (decide (k = "insights_count")) as [->|];
    [rewrite !lookup_insert_eq; reflexivity | rewrite !(lookup_insert_ne _ "insights_count") by congruence].
  destruct (decide (k = "goals_count")) as [->|];
    [rewrite !lookup_insert_eq; reflexivity | rewrite !(lookup_insert_ne _ "goals_count") by congruence].
  destruct (decide (k = "documents_count")) as [->|];
    [rewrite !lookup_insert_eq; reflexivity | rewrite !(lookup_insert_ne _ "documents_count") by congruence].
  rewrite !lookup_delete_ne by congruence. reflexivity.
Qed.

Lemma with_counts_erase (files goals insights : store) (project : record) (w : World) :
  with_counts files goals insights (erase_counts project) w
    = with_counts files goals insights project w.
Proof.
  rewrite !with_counts_run.
  replace (erase_counts project !! "id") with (project !! "id")
    by (unfold erase_counts; rewrite !lookup_delete_ne by discriminate; reflexivity).
  destruct (project !! "id"); [|reflexivity].
  rewrite counted_erase. reflexivity.
Qed.

Lemma for_each_erase (files goals insights : store) (l : list record) (w : World) :
  for_each (with_counts files goals insights) (erase_counts <$> l) w
    = for_each (with_counts files goals insights) l w.
Proof.
  induction l as [|project l IH]; [reflexivity|].
  cbn [fmap list_fmap for_each]. unfold bind at 1 3.
  rewrite with_counts_erase.
  destruct (with_counts files goals insights project w) as [[shown|e] w'] eqn:E;
    [|reflexivity].
  rewrite with_counts_run in E.
  destruct (project !! "id"); [|discriminate]. injection E as _ <-.
  unfold bind. rewrite IH. reflexivity.
Qed.

Lemma for_each_with_counts (files goals insights : store) (l : list record) (w : World) :
  Forall (fun project => is_Some (project !! "id")) l ->
  for_each (with_counts files goals insights) l w =
    (Ok ((fun project => counted files goals insights (get project "id") project) <$> l),
     w).
Proof.
  induction 1 as [|project l [project_id Hid] _ IH]; [reflexivity|].
  cbn [fmap list_fmap for_each]. unfold bind at 1.
  rewrite with_counts_run, Hid. unfold bind at 1. rewrite IH.
  unfold get. rewrite Hid. reflexivity.
Qed.

Lemma values_fmap {A B} (f : A -> B) (m : gmap string A) :
  values (f <$> m) = f <$> values m.
Proof.
  unfold values. rewrite map_to_list_fmap, <- !list_fmap_compose.
  apply list_fmap_ext. intros _ [k x] _. reflexivity.
Qed.

Lemma get_projects_run (w : World) :
  get_projects w =
    match for_each (with_counts (stored w FILES_FILE) (stored w GOALS_FILE)
                      (stored w INSIGHTS_FILE))
            (values (stored w PROJECTS_FILE)) w with
    | (Ok l, w') => (mkResponse 200 (Items "projects" l), w')
    | (Raised _, w') => (mkResponse 500 (Error "Failed to get projects"), w')
    end.
Proof.
  unfold get_projects, handler. rewrite !bind_load. cbv zeta.
  unfold bind, respond, ret.
  destruct (for_each _ _ w) as [[l|e] w']; reflexivity.
Qed.

(** Python's [==] against a string holds for that string only. *)
Lemma eq_str_iff (v : json) (s : string) : Py.equals v (JStr s) = true <-> v = JStr s.
Proof.
  destruct v as [| b | n | f | t | l | o]; cbn; try (split; [discriminate|discriminate]).
  rewrite String.eqb_eq. split; [intros ->; reflexivity | intros [= ->]; reflexivity].
Qed.

(** A count follows the store: a new record adds one to the count of its
    project, a deleted record takes one away. *)
Lemma count_for_insert_fresh (t : store) (id : string) (r : record) (project_id : json) :
  t !! id = None ->
  count_for (<[id := r]> t) project_id =
    (count_for t project_id
     + if Py.equals (get r "project_id") project_id then 1 else 0)%Z.
Proof.
  intros H. unfold count_for.
  rewrite (Permutation_length
             (filter_Permutation_bool _ _ _ (values_insert_fresh t id r H))).
  cbn [List.filter]. destruct (Py.equals (get r "project_id") project_id); cbn [length]; lia.
Qed.

Lemma count_for_delete (t : store) (id : string) (r : record) (project_id : json) :
  t !! id = Some r ->
  count_for (delete id t) project_id =
    (count_for t project_id
     - if Py.equals (get r "project_id") project_id then 1 else 0)%Z.
Proof.
  intros H. unfold count_for.
  rewrite (Permutation_length
             (filter_Permutation_bool _ _ _ (values_delete t id r H))).
  cbn [List.filter]. destruct (Py.equals (get r "project_id") project_id); cbn [length]; lia.
Qed.

Lemma create_goal_run (uuid4 now_1 now_2 project_id : string) (data : record)
    (title description : string) (w : World) :
  get_or data "title" (JStr "") = JStr title ->
  get_or data "description" (JStr "") = JStr description ->
  create_goal uuid4 now_1 now_2 project_id data w =
    if Str.all_chars Str.isspace title
    then (mkResponse 400 (Error "Goal title is required"), w)
    else
      let goal := dict [
        ("id", JStr uuid4); ("title", JStr (Str.strip title));
        ("description", JStr (Str.strip description));
        ("priority", get_or data "priority" (JStr "medium"));
        ("status", JStr "active"); ("project_id", JStr project_id);
        ("created_at", JStr now_1); ("updated_at", JStr now_2);
        ("progress", JInt 0)] in
      (mkResponse 201 (Item "goal" goal),
       write_doc w GOALS_FILE (Document (<[uuid4 := goal]> (stored w GOALS_FILE)))).
Proof.
  intros Htitle Hdescription.
  unfold create_goal, handler. rewrite Htitle, Hdescription.
  cbn [strip]. rewrite !bind_lift_ok. cbv zeta.
  unfold Str.truthy. rewrite negb_involutive, strip_empty.
  destruct (Str.all_chars Str.isspace title); [reflexivity|].
  rewrite bind_load, bind_save. reflexivity.
Qed.

(** The goals count that [get_projects] shows for a project after a goal
    of the project was created, and after a goal was deleted. *)
Lemma goals_count_after_create (uuid4 now_1 now_2 project_id : string) (data : record)
    (title description : string) (w : World) :
  get_or data "title" (JStr "") = JStr title ->
  get_or data "description" (JStr "") = JStr description ->
  Str.all_chars Str.isspace title = false ->
  stored w GOALS_FILE !! uuid4 = None ->
  count_for
    (stored (snd (create_goal uuid4 now_1 now_2 project_id data w)) GOALS_FILE)
    (JStr project_id)
  = (count_for (stored w GOALS_FILE) (JStr project_id) + 1)%Z.
Proof.
  intros Htitle Hdescription Hspace Hfresh.
  rewrite (create_goal_run _ _ _ _ _ _ _ _ Htitle Hdescription), Hspace.
  cbv zeta. cbn [snd]. rewrite stored_write_same.
  rewrite count_for_insert_fresh by exact Hfresh.
  replace (get (dict _) "project_id") with (JStr project_id) by reflexivity.
  rewrite eq_str_refl. reflexivity.
Qed.

Lemma goals_count_after_delete (id : string) (goal : record) (project_id : json)
    (w : World) :
  stored w GOALS_FILE !! id = Some goal ->
  count_for (stored (snd (delete_goal id w)) GOALS_FILE) project_id
  = (count_for (stored w GOALS_FILE) project_id
     - if Py.equals (get goal "project_id") project_id then 1 else 0)%Z.
Proof.
  intros H. rewrite delete_goal_run, H. cbn [snd].
  rewrite stored_write_same. apply count_for_delete, H.
Qed.

(** The count of the list comprehension is the number of entries of the
    store that belong to the project. *)
Lemma count_for_records_of (t : store) (project_id : json) :
  count_for t project_id = Z.of_nat (size (records_of t project_id)).
Proof.
  induction t as [|id r t Hfresh IH] using map_ind.
  - unfold records_of. rewrite map_filter_empty, map_size_empty. reflexivity.
  - rewrite (count_for_insert_fresh t id r project_id Hfresh), IH.
    unfold records_of.
    destruct (Py.equals (get r "project_id") project_id) eqn:E.
    + rewrite map_filter_insert_True by exact E.
      rewrite map_size_insert_None; [lia|].
      apply map_lookup_filter_None. left. exact Hfresh.
    + rewrite map_filter_insert_not'; [lia | cbn; congruence |].
      intros y Hy. congruence.
Qed.

Lemma records_of_str (t : store) (project_id id : string) (r : record) :
  records_of t (JStr project_id) !! id = Some r <->
  t !! id = Some r /\ r !! "project_id" = Some (JStr project_id).
Proof.
  unfold records_of. rewrite map_lookup_filter_Some. cbn [snd].
  rewrite eq_str_iff. unfold get.
  split; intros [Hr Hp]; (split; [exact Hr|]).
  - destruct (r !! "project_id") as [v|]; cbn in Hp; [congruence | discriminate].
  - rewrite Hp. reflexivity.
Qed.

(** C5: whatever the four stores hold (every project having its id),
    [get_projects] answers 200, changes nothing and lists every project
    with documents_count, goals_count and insights_count equal to the
    numbers of entries of the files, goals and insights stores, as they
    are now, whose project_id is equal to the id of the project (for a
    string id: the entries whose field project_id is that string); the
    other fields are those of the project.  The answer does not depend on
    the counts kept in the project records. *)
Theorem get_projects_counts (w : World) :
  (forall (id : string) (project : record),
     stored w PROJECTS_FILE !! id = Some project -> is_Some (project !! "id")) ->
  (exists listed : list record,
     get_projects w = (mkResponse 200 (Items "projects" listed), w) /\
     Forall2
       (fun project shown : record =>
          exists project_id : json,
            project !! "id" = Some project_id /\
            shown !! "documents_count"
              = Some (JInt (Z.of_nat (size (records_of (stored w FILES_FILE) project_id)))) /\
            shown !! "goals_count"
              = Some (JInt (Z.of_nat (size (records_of (stored w GOALS_FILE) project_id)))) /\
            shown !! "insights_count"
              = Some (JInt (Z.of_nat (size (records_of (stored w INSIGHTS_FILE) project_id)))) /\
            forall k : string,
              k <> "documents_count" -> k <> "goals_count" ->
              k <> "insights_count" -> k <> "research_progress" ->
              shown !! k = project !! k)
       (values (stored w PROJECTS_FILE)) listed) /\
  (forall (t : store) (project_id id : string) (r : record),
     records_of t (JStr project_id) !! id = Some r <->
     t !! id = Some r /\ r !! "project_id" = Some (JStr project_id)) /\
  (forall projects2 : store,
     erase_counts <$> projects2 = erase_counts <$> stored w PROJECTS_FILE ->
     fst (get_projects (write_doc w PROJECTS_FILE (Document projects2)))
       = fst (get_projects w)).
Proof.
  intros Hid. split; [|split; [exact records_of_str|]].
  - assert (Hall : Forall (fun project : record => is_Some (project !! "id"))
                     (values (stored w PROJECTS_FILE))).
    { apply Forall_forall. intros project Hin.
      apply list_elem_of_fmap in Hin as [[id p] [-> Hin]].
      apply elem_of_map_to_list in Hin. exact (Hid id p Hin). }
    eexists. split.
    { rewrite get_projects_run, for_each_with_counts by exact Hall. reflexivity. }
    apply Forall2_fmap_r, Forall_Forall2_diag.
    eapply Forall_impl; [exact Hall|].
    intros project [project_id Hp]. exists project_id.
    unfold get. rewrite Hp. cbn [default]. unfold counted.
    rewrite <- !count_for_records_of.
    split; [reflexivity|].
    split; [rewrite !lookup_insert_ne by discriminate; apply lookup_insert_eq|].
    split; [rewrite !lookup_insert_ne by discriminate; apply lookup_insert_eq|].
    split; [rewrite !lookup_insert_ne by discriminate; apply lookup_insert_eq|].
    intros k K1 K2 K3 K4. rewrite !lookup_insert_ne by congruence. reflexivity.
  - intros projects2 Herase.
    rewrite !get_projects_run.
    rewrite stored_write_same.
    rewrite !(stored_write_other w PROJECTS_FILE) by discriminate.
    set (f := with_counts (stored w FILES_FILE) (stored w GOALS_FILE)
                (stored w INSIGHTS_FILE)).
    assert (Hsame : forall (l : list record) (w1 w2 : World),
              fst (for_each f l w1) = fst (for_each f l w2)).
    { induction l as [|project l IH]; intros w1 w2; [reflexivity|].
      cbn [for_each]. unfold bind at 1 3. unfold f at 1 3.
      rewrite !with_counts_run.
      destruct (project !! "id"); [|reflexivity].
      unfold bind. specialize (IH w1 w2).
      destruct (for_each f l w1) as [[l1|e1] w1'],
               (for_each f l w2) as [[l2|e2] w2']; unfold ret; cbn [fst] in IH |- *;
        congruence. }
    unfold f at 1.
    rewrite <- (for_each_erase _ _ _ (values projects2)).
    rewrite <- values_fmap, Herase, values_fmap, for_each_erase. fold f.
    specialize (Hsame (values (stored w PROJECTS_FILE))
                  (write_doc w PROJECTS_FILE (Document projects2)) w).
    destruct (for_each f _ (write_doc _ _ _)) as [[l1|e1] w1'],
             (for_each f _ w) as [[l2|e2] w2']; cbn [fst] in Hsame |- *;
      congruence.
Qed.

Lemma get_projects_counts_witness :
  Sample.project_1 !! "documents_count" = Some (JInt 7) /\
  exists shown : record,
    get_projects Sample.busy =
      (mkResponse 200 (Items "projects" [shown]), Sample.busy) /\
    shown !! "documents_count" = Some (JInt 1) /\
    shown !! "goals_count" = Some (JInt 1) /\
    shown !! "insights_count" = Some (JInt 0) /\
    shown !! "name" = Some (JStr "Alpha").
Proof.
  split; [reflexivity|].
  destruct (get_projects_counts Sample.busy) as [(listed & Hrun & Hlisted) _].
  { intros id project Hp.
    change (stored Sample.busy PROJECTS_FILE) with ({[ "p-1" := Sample.project_1 ]} : store) in Hp.
    apply lookup_singleton_Some in Hp as [_ <-]. eexists. reflexivity. }
  change (values (stored Sample.busy PROJECTS_FILE)) with [Sample.project_1] in Hlisted.
  inversion Hlisted as [|project shown l listed' Hshown Hrest E1 E2]; subst.
  inversion Hrest; subst.
  exists shown. split; [exact Hrun|].
  destruct Hshown as (project_id & Hid & Hdocs & Hgoals & Hinsights & Hframe).
  injection Hid as <-.
  split; [exact Hdocs|]. split; [exact Hgoals|]. split; [exact Hinsights|].
  rewrite Hframe by discriminate. reflexivity.
Defined.

(** * Further properties of the handlers *)

(** ** The extension check *)

Lemma lower_char_dot (c : ascii) :
  Ascii.eqb (Str.lower_char c) "." = Ascii.eqb c ".".
Proof. destruct c as [[] [] [] [] [] [] [] []]; reflexivity. Qed.

Lemma lower_char_idempotent (c : ascii) :
  Str.lower_char (Str.lower_char c) = Str.lower_char c.
Proof. destruct c as [[] [] [] [] [] [] [] []]; reflexivity. Qed.

Lemma lower_idempotent (s : string) : Str.lower (Str.lower s) = Str.lower s.
Proof.
  induction s as [|c s IH]; [reflexivity|].
  cbn [Str.lower]. rewrite lower_char_idempotent, IH. reflexivity.
Qed.

Lemma contains_dot_lower (s : string) :
  Str.contains "." (Str.lower s) = Str.contains "." s.
Proof.
  induction s as [|c s IH]; [reflexivity|].
  cbn [Str.lower Str.contains]. rewrite lower_char_dot, IH. reflexivity.
Qed.

Lemma rpartition_dot_lower (s : string) :
  Str.rpartition "." (Str.lower s) =
    match Str.rpartition "." s with
    | Some (a, b) => Some (Str.lower a, Str.lower b)
    | None => None
    end.
Proof.
  induction s as [|c s IH]; [reflexivity|].
  cbn [Str.lower Str.rpartition]. rewrite IH, lower_char_dot.
  destruct (Str.rpartition "." s) as [[a b]|]; [reflexivity|].
  destruct (Ascii.eqb c "."); reflexivity.
Qed.

(** X3: the extension check does not look at the case of the name: a
    name and its lower-case form are allowed together. *)
Theorem allowed_file_ignores_case (name : string) :
  allowed_file (Str.lower name) = allowed_file name.
Proof.
  unfold allowed_file, Str.rsplit1.
  rewrite contains_dot_lower, rpartition_dot_lower.
  destruct (Str.rpartition "." name) as [[stem ext]|]; [|reflexivity].
  cbn. rewrite lower_idempotent. reflexivity.
Qed.

(** ** Uploads *)

Lemma all_chars_filter (p : ascii -> bool) (s : string) :
  Str.all_chars p (Str.filter_chars p s) = true.
Proof.
  induction s as [|c s IH]; [reflexivity|].
  cbn [Str.filter_chars]. destruct (p c) eqn:E; [|exact IH].
  cbn [Str.all_chars]. rewrite E. exact IH.
Qed.

Lemma all_chars_lstrip (p q : ascii -> bool) (s : string) :
  Str.all_chars p s = true -> Str.all_chars p (Str.lstrip_by q s) = true.
Proof.
  induction s as [|c s IH]; [reflexivity|].
  cbn [Str.lstrip_by Str.all_chars]. intros H.
  apply andb_true_iff in H as [Hc Hs].
  destruct (q c); [apply IH, Hs|].
  cbn [Str.all_chars]. rewrite Hc. exact Hs.
Qed.

Lemma all_chars_rstrip (p q : ascii -> bool) (s : string) :
  Str.all_chars p s = true -> Str.all_chars p (Str.rstrip_by q s) = true.
Proof.
  induction s as [|c s IH]; [reflexivity|].
  cbn [Str.rstrip_by Str.all_chars]. intros H.
  apply andb_true_iff in H as [Hc Hs]. specialize (IH Hs).
  destruct (Str.rstrip_by q s) as [|d r].
  - destruct (q c); [reflexivity|]. cbn [Str.all_chars]. rewrite Hc. reflexivity.
  - cbn [Str.all_chars] in IH |- *. rewrite Hc. exact IH.
Qed.

Lemma secure_filename_chars (name : string) :
  Str.all_chars Werkzeug.filename_char (Werkzeug.secure_filename name) = true.
Proof.
  unfold Werkzeug.secure_filename, Str.strip_by.
  apply all_chars_rstrip, all_chars_lstrip, all_chars_filter.
Qed.

Lemma rsplit1_Some_contains (s ext : string) :
  Str.rsplit1 "." s !! 1%nat = Some ext -> Str.contains "." s = true.
Proof.
  unfold Str.rsplit1.
  destruct (Str.rpartition "." s) as [[a b]|] eqn:E; [|discriminate].
  intros _. destruct (rpartition_Some _ _ _ _ E) as [-> _].
  rewrite contains_app. cbn. apply orb_true_r.
Qed.

(** X4: an upload that passes the four checks, whose sanitized name
    keeps an extension, and whose name on the disk (the generated id, an
    underscore and the sanitized name) is one that the file system takes
    (no slash, no NUL, at most [NAME_MAX] bytes: a sanitized name of up to
    218 characters after a UUID), answers 200 with the metadata record;
    the content
    is on the disk at the recorded path, the recorded size is the length of
    the content, the recorded type is the content type of the part or,
    without one, "application/" and the lower-case extension; the record is
    in the files store under the generated id, and the three other data
    storage files are as before. *)
Theorem upload_file_success (uuid4 now project_id ext : string) (file : FileStorage)
    (w : World) :
  project_id <> "" ->
  filename file <> "" ->
  allowed_file (filename file) = true ->
  Str.rsplit1 "." (Werkzeug.secure_filename (filename file)) !! 1%nat = Some ext ->
  plain_name (uuid4 ++ "_" ++ Werkzeug.secure_filename (filename file)) = true ->
  exists (file_data : record) (path : string) (w' : World),
    upload_file uuid4 now (mkUpload (Some file) (Some project_id)) w =
      (mkResponse 200 (Item "file" file_data), w') /\
    path = os_path_join UPLOAD_FOLDER
             (uuid4 ++ "_" ++ Werkzeug.secure_filename (filename file)) /\
    disk w' = <[path := stream file]> (disk w) /\
    stored w' FILES_FILE = <[uuid4 := file_data]> (stored w FILES_FILE) /\
    read_doc w' PROJECTS_FILE = read_doc w PROJECTS_FILE /\
    read_doc w' GOALS_FILE = read_doc w GOALS_FILE /\
    read_doc w' INSIGHTS_FILE = read_doc w INSIGHTS_FILE /\
    file_data !! "id" = Some (JStr uuid4) /\
    file_data !! "filename" = Some (JStr (Werkzeug.secure_filename (filename file))) /\
    file_data !! "original_name" = Some (JStr (filename file)) /\
    file_data !! "project_id" = Some (JStr project_id) /\
    file_data !! "path" = Some (JStr path) /\
    file_data !! "size" = Some (JInt (Z.of_nat (String.length (stream file)))) /\
    file_data !! "status" = Some (JStr "completed") /\
    file_data !! "upload_date" = Some (JStr now) /\
    file_data !! "type" =
      Some (JStr (match content_type file with
                  | Some t => if Str.truthy t then t
                              else "application/" ++ Str.lower ext
                  | None => "application/" ++ Str.lower ext
                  end)%string).
Proof.
  intros Hproject Hname Hallowed Hext Hplain.
  eexists. eexists. eexists.
  split; [apply (upload_file_accepted _ _ _ ext); assumption|].
  split; [reflexivity|].
  split; [reflexivity|].
  split; [apply stored_write_same|].
  repeat split; reflexivity.
Qed.

Lemma upload_file_success_witness :
  let file := mkFileStorage "My Notes.TXT" None "hello" in
  exists (file_data : record) (w' : World),
    upload_file "f-2" "t9" (mkUpload (Some file) (Some "p-1")) Sample.busy =
      (mkResponse 200 (Item "file" file_data), w') /\
    file_data !! "filename" = Some (JStr "My_Notes.TXT") /\
    file_data !! "path" = Some (JStr "data/f-2_My_Notes.TXT") /\
    file_data !! "size" = Some (JInt 5) /\
    file_data !! "type" = Some (JStr "application/txt") /\
    disk w' !! "data/f-2_My_Notes.TXT" = Some "hello".
Proof.
  destruct (upload_file_success "f-2" "t9" "p-1" "TXT"
              (mkFileStorage "My Notes.TXT" None "hello") Sample.busy)
    as (file_data & path & w' & Hrun & Hpath & Hdisk & _ & _ & _ & _ & _ & Hname & _ & _
        & Hrecorded & Hsize & _ & _ & Htype);
    try discriminate; try reflexivity.
  exists file_data, w'. split; [exact Hrun|].
  split; [exact Hname|]. subst path.
  split; [exact Hrecorded|]. split; [exact Hsize|]. split; [exact Htype|].
  rewrite Hdisk. apply lookup_insert_eq.
Defined.

(** X5: when an upload is answered 200 and the generated id has no
    slash, the stored name has only the characters A-Z a-z 0-9 _ . - and
    a dot, and the file is written directly into [data], at
    "data/<id>_<name>": whatever the submitted name, no slash follows the
    folder. *)
Theorem upload_file_stays_in_folder (uuid4 now : string) (request : upload_request)
    (w : World) :
  Str.contains "/" uuid4 = false ->
  status (fst (upload_file uuid4 now request w)) = 200%Z ->
  exists (file : FileStorage) (name : string) (file_data : record),
    request_file request = Some file /\
    stored (snd (upload_file uuid4 now request w)) FILES_FILE !! uuid4
      = Some file_data /\
    file_data !! "filename" = Some (JStr name) /\
    Str.all_chars Werkzeug.filename_char name = true /\
    Str.contains "." name = true /\
    Str.contains "/" (uuid4 ++ "_" ++ name) = false /\
    file_data !! "path" = Some (JStr ("data/" ++ uuid4 ++ "_" ++ name)) /\
    disk (snd (upload_file uuid4 now request w)) !! ("data/" ++ uuid4 ++ "_" ++ name)%string
      = Some (stream file).
Proof.
  intros Huuid. rewrite upload_file_run.
  destruct (request_file request) as [file|]; [|discriminate].
  destruct (form_project_id request) as [project_id|]; [|discriminate].
  destruct (negb (Str.truthy project_id)); [discriminate|].
  destruct (String.eqb (filename file) ""); [discriminate|].
  destruct (negb (allowed_file (filename file))); [discriminate|].
  cbv zeta.
  destruct (Str.rsplit1 "." (Werkzeug.secure_filename (filename file)) !! 1%nat)
    as [ext|] eqn:Eext; [|discriminate].
  destruct (creatable _); [|discriminate].
  intros _. cbn [snd].
  set (name := Werkzeug.secure_filename (filename file)).
  assert (Hjoin : os_path_join UPLOAD_FOLDER (uuid4 ++ "_" ++ name)
                  = ("data/" ++ uuid4 ++ "_" ++ name)%string)
    by (apply os_path_join_data, upload_name_not_absolute, Huuid).
  exists file, name, (file_record uuid4 now project_id file ext).
  split; [reflexivity|].
  split; [rewrite stored_write_same; apply lookup_insert_eq|].
  split; [reflexivity|].
  split; [apply secure_filename_chars|].
  split; [exact (rsplit1_Some_contains _ _ Eext)|].
  split.
  { rewrite !contains_app, Huuid.
    rewrite (all_chars_contains _ "/" name (secure_filename_chars _) eq_refl).
    reflexivity. }
  split.
  { unfold file_record. cbv zeta. fold name in Hjoin |- *. rewrite Hjoin. reflexivity. }
  fold name. rewrite Hjoin. destruct w; cbn. apply lookup_insert_eq.
Qed.

Lemma upload_file_stays_in_folder_witness :
  let request :=
    mkUpload (Some (mkFileStorage "../../etc/passwd.txt" None "x")) (Some "p-1") in
  status (fst (upload_file "f-2" "t9" request Sample.busy)) = 200%Z /\
  exists file_data : record,
    stored (snd (upload_file "f-2" "t9" request Sample.busy)) FILES_FILE !! "f-2"
      = Some file_data /\
    file_data !! "path" = Some (JStr "data/f-2_etc_passwd.txt").
Proof.
  split; [reflexivity|].
  destruct (upload_file_stays_in_folder "f-2" "t9"
              (mkUpload (Some (mkFileStorage "../../etc/passwd.txt" None "x"))
                 (Some "p-1"))
              Sample.busy eq_refl eq_refl)
    as (file & name & file_data & Hfile & Hstored & Hname & _ & _ & _ & Hpath & _).
  exists file_data. split; [exact Hstored|].
  injection Hfile as <-. rewrite Hpath. do 2 f_equal.
  assert (E : Some (JStr name) = Some (JStr "etc_passwd.txt")).
  { rewrite <- Hname.
    change (stored _ FILES_FILE !! "f-2") with
      (Some (file_record "f-2" "t9" "p-1"
               (mkFileStorage "../../etc/passwd.txt" None "x") "txt")) in Hstored.
    injection Hstored as <-. reflexivity. }
  injection E as ->. reflexivity.
Defined.

(** X6: [upload_file] answers 200, 400 or 500, and unless it answers 200
    it has written nothing: neither a file nor a record. *)
Theorem upload_file_outcomes (uuid4 now : string) (request : upload_request) (w : World) :
  status (fst (upload_file uuid4 now request w)) = 200%Z \/
  ((status (fst (upload_file uuid4 now request w)) = 400%Z \/
    status (fst (upload_file uuid4 now request w)) = 500%Z) /\
   snd (upload_file uuid4 now request w) = w).
Proof.
  rewrite upload_file_run.
  destruct (request_file request) as [file|]; [|right; split; [left|]; reflexivity].
  destruct (form_project_id request) as [project_id|];
    [|right; split; [left|]; reflexivity].
  destruct (negb (Str.truthy project_id)); [right; split; [left|]; reflexivity|].
  destruct (String.eqb (filename file) ""); [right; split; [left|]; reflexivity|].
  destruct (negb (allowed_file (filename file)));
    [right; split; [left|]; reflexivity|].
  cbv zeta.
  destruct (Str.rsplit1 "." (Werkzeug.secure_filename (filename file)) !! 1%nat);
    [|right; split; [right|]; reflexivity].
  destruct (creatable _); [left; reflexivity | right; split; [right|]; reflexivity].
Qed.

(** X7: deleting a file right after its upload undoes the upload: when
    the upload is one that succeeds (the four checks pass, the sanitized
    name keeps an extension, and the name on the disk is one that the
    file system takes), the generated id was free and nothing was at the
    path, the files store and the disk are what they were before the
    upload, and the answer is 200. *)
Theorem upload_then_delete (uuid4 now project_id ext : string) (file : FileStorage)
    (w : World) :
  project_id <> "" ->
  filename file <> "" ->
  allowed_file (filename file) = true ->
  Str.rsplit1 "." (Werkzeug.secure_filename (filename file)) !! 1%nat = Some ext ->
  plain_name (uuid4 ++ "_" ++ Werkzeug.secure_filename (filename file)) = true ->
  stored w FILES_FILE !! uuid4 = None ->
  disk w !! os_path_join UPLOAD_FOLDER
              (uuid4 ++ "_" ++ Werkzeug.secure_filename (filename file)) = None ->
  exists w2 : World,
    delete_file uuid4
      (snd (upload_file uuid4 now (mkUpload (Some file) (Some project_id)) w)) =
      (mkResponse 200 (Message "File deleted successfully"), w2) /\
    stored w2 FILES_FILE = stored w FILES_FILE /\
    disk w2 = disk w /\
    read_doc w2 PROJECTS_FILE = read_doc w PROJECTS_FILE /\
    read_doc w2 GOALS_FILE = read_doc w GOALS_FILE /\
    read_doc w2 INSIGHTS_FILE = read_doc w INSIGHTS_FILE.
Proof.
  intros Hproject Hname Hallowed Hext Hplain Hfree Hnofile.
  rewrite (upload_file_accepted _ _ _ ext) by assumption. cbn [snd].
  set (path := os_path_join UPLOAD_FOLDER
                 (uuid4 ++ "_" ++ Werkzeug.secure_filename (filename file))) in *.
  set (file_data := file_record uuid4 now project_id file ext).
  assert (Hpath : get file_data "path" = JStr path) by reflexivity.
  assert (Htruthy : Str.truthy path = true) by apply os_path_join_truthy.
  eexists. split.
  { rewrite delete_file_run.
    - rewrite stored_write_same, lookup_insert_eq.
      change (file_data !! "filename")
        with (Some (JStr (Werkzeug.secure_filename (filename file)))).
      reflexivity.
    - intros fd. rewrite stored_write_same, lookup_insert_eq. intros [= <-].
      apply path_or_none_no_special.
      right. exists path. split; [exact Hpath|].
      right. apply upload_path_join, Hplain. }
  destruct (upload_path_inv path (upload_path_join _ _ Hplain)) as (_ & Hnul & _).
  rewrite stored_write_same, Hpath. cbn [disk_without]. rewrite Htruthy, Hnul.
  cbn [andb negb].
  split; [apply delete_insert_id, Hfree|].
  rewrite !disk_write_doc. cbn [disk set_disk].
  split; [apply delete_insert_id, Hnofile|].
  destruct w; repeat split; reflexivity.
Qed.

Lemma upload_then_delete_witness :
  let file := mkFileStorage "report.pdf" (Some "application/pdf") "%PDF" in
  let w1 := snd (upload_file "f-2" "t9" (mkUpload (Some file) (Some "p-1")) Sample.busy) in
  stored w1 FILES_FILE !! "f-2" <> None /\
  exists w2 : World,
    delete_file "f-2" w1 = (mkResponse 200 (Message "File deleted successfully"), w2) /\
    stored w2 FILES_FILE = stored Sample.busy FILES_FILE /\
    disk w2 = disk Sample.busy.
Proof.
  split; [discriminate|].
  destruct (upload_then_delete "f-2" "t9" "p-1" "pdf"
              (mkFileStorage "report.pdf" (Some "application/pdf") "%PDF")
              Sample.busy)
    as (w2 & Hrun & Hstore & Hdisk & _);
    try discriminate; try reflexivity.
  exists w2. split; [exact Hrun|]. split; [exact Hstore | exact Hdisk].
Defined.

(** ** Deleting twice *)

(** X8: a second [delete_goal] of the same id answers 404 and changes
    nothing, whether the first one found the goal or not. *)
Theorem delete_goal_twice (goal_id : string) (w : World) :
  delete_goal goal_id (snd (delete_goal goal_id w)) =
    (mkResponse 404 (Error "Goal not found"), snd (delete_goal goal_id w)).
Proof.
  rewrite (delete_goal_run goal_id w).
  destruct (stored w GOALS_FILE !! goal_id) as [goal|] eqn:E; cbn [snd].
  - rewrite delete_goal_run, stored_write_same, lookup_delete_eq. reflexivity.
  - rewrite delete_goal_run, E. reflexivity.
Qed.

(** X9: the same for [delete_file], for a record whose path is absent,
    empty or the path [data/name] of an uploaded file: after the first
    call the second one answers 404 and changes nothing. *)
Theorem delete_file_twice (file_id : string) (w : World) :
  (forall file_data : record,
     stored w FILES_FILE !! file_id = Some file_data ->
     path_or_none (get file_data "path")) ->
  delete_file file_id (snd (delete_file file_id w)) =
    (mkResponse 404 (Error "File not found"), snd (delete_file file_id w)).
Proof.
  intros Hpath.
  rewrite (delete_file_run file_id w
             (fun fd Hfd => path_or_none_no_special _ (Hpath fd Hfd))).
  destruct (stored w FILES_FILE !! file_id) as [file_data|] eqn:E; cbn [snd].
  - rewrite delete_file_run; rewrite stored_write_same, lookup_delete_eq;
      [reflexivity | discriminate].
  - rewrite delete_file_run, E; [reflexivity|].
    intros fd Hfd. rewrite E in Hfd. discriminate.
Qed.

Lemma delete_file_twice_witness :
  fst (delete_file "f-1" Sample.busy) =
    mkResponse 200 (Message "File deleted successfully") /\
  fst (delete_file "f-1" (snd (delete_file "f-1" Sample.busy))) =
    mkResponse 404 (Error "File not found").
Proof.
  split; [reflexivity|].
  rewrite (delete_file_twice "f-1" Sample.busy); [reflexivity|].
  intros file_data Hfile.
  change (stored Sample.busy FILES_FILE) with ({[ "f-1" := Sample.file_1 ]} : store)
    in Hfile.
  rewrite lookup_singleton_eq in Hfile. injection Hfile as <-.
  right. exists "data/f-1_notes.txt". split; [reflexivity | right; reflexivity].
Defined.

(** ** Goals *)

(** X10: for a body whose title and description are strings when
    present, [create_goal] answers 400 and changes nothing when the title
    is absent, empty or all white space; otherwise it answers 201 and
    stores, under the generated id, a goal with the stripped title and
    description, the priority of the body as it is ("medium" when the body
    has none), status "active", progress 0 and the project_id of the URL,
    which is not looked up in the projects store. *)
Theorem create_goal_spec (uuid4 now_1 now_2 project_id : string) (data : record)
    (title description : string) (w : World) :
  get_or data "title" (JStr "") = JStr title ->
  get_or data "description" (JStr "") = JStr description ->
  (Str.all_chars Str.isspace title = true ->
     create_goal uuid4 now_1 now_2 project_id data w =
       (mkResponse 400 (Error "Goal title is required"), w)) /\
  (Str.all_chars Str.isspace title = false ->
     exists goal : record,
       create_goal uuid4 now_1 now_2 project_id data w =
         (mkResponse 201 (Item "goal" goal),
          write_doc w GOALS_FILE (Document (<[uuid4 := goal]> (stored w GOALS_FILE)))) /\
       goal !! "id" = Some (JStr uuid4) /\
       goal !! "title" = Some (JStr (Str.strip title)) /\
       goal !! "description" = Some (JStr (Str.strip description)) /\
       goal !! "priority" = Some (default (JStr "medium") (data !! "priority")) /\
       goal !! "status" = Some (JStr "active") /\
       goal !! "project_id" = Some (JStr project_id) /\
       goal !! "progress" = Some (JInt 0) /\
       goal !! "created_at" = Some (JStr now_1) /\
       goal !! "updated_at" = Some (JStr now_2)).
Proof.
  intros Htitle Hdescription.
  pose proof (create_goal_run uuid4 now_1 now_2 project_id data title description w
                Htitle Hdescription) as Hrun.
  split; intros Hspace; rewrite Hspace in Hrun; [exact Hrun|].
  eexists. split; [exact Hrun|]. repeat split; reflexivity.
Qed.

Lemma create_goal_spec_witness :
  let data : record := dict [("title", JStr " Read papers "); ("priority", JInt 3)] in
  create_goal "g-2" "t1" "t2" "p-404" (dict [("title", JStr "   ")]) Sample.busy =
    (mkResponse 400 (Error "Goal title is required"), Sample.busy) /\
  exists goal : record,
    fst (create_goal "g-2" "t1" "t2" "p-404" data Sample.busy) =
      mkResponse 201 (Item "goal" goal) /\
    goal !! "title" = Some (JStr "Read papers") /\
    goal !! "priority" = Some (JInt 3) /\
    goal !! "project_id" = Some (JStr "p-404").
Proof.
  destruct (create_goal_spec "g-2" "t1" "t2" "p-404" (dict [("title", JStr "   ")])
              "   " "" Sample.busy eq_refl eq_refl) as [Hblank _].
  destruct (create_goal_spec "g-2" "t1" "t2" "p-404"
              (dict [("title", JStr " Read papers "); ("priority", JInt 3)])
              " Read papers " "" Sample.busy eq_refl eq_refl) as [_ Hcreated].
  split; [apply Hblank; reflexivity|].
  destruct (Hcreated eq_refl) as (goal & Hrun & _ & Htitle & _ & Hpriority & _ & Hproject & _).
  exists goal. rewrite Hrun.
  split; [reflexivity|]. split; [exact Htitle|].
  split; [exact Hpriority | exact Hproject].
Defined.

Lemma of_project_insert_fresh (t : store) (id project_id : string) (r : record) :
  t !! id = None ->
  of_project (<[id := r]> t) project_id ≡ₚ
    (if Py.equals (get r "project_id") (JStr project_id) then [r] else [])
      ++ of_project t project_id.
Proof.
  intros H. unfold of_project.
  rewrite (filter_Permutation_bool _ _ _ (values_insert_fresh t id r H)).
  cbn [List.filter].
  destruct (Py.equals (get r "project_id") (JStr project_id)); reflexivity.
Qed.

Lemma equals_str_ne (s t : string) : s <> t -> Py.equals (JStr s) (JStr t) = false.
Proof. intros H. cbn. apply String.eqb_neq, H. Qed.

(** X11: after a goal was created under a fresh id, the goals listed for
    its project are the earlier ones and the new goal, and the goals
    listed for any other project are as before. *)
Theorem create_goal_then_list (uuid4 now_1 now_2 project_id : string) (data : record)
    (title description : string) (w : World) :
  get_or data "title" (JStr "") = JStr title ->
  get_or data "description" (JStr "") = JStr description ->
  Str.all_chars Str.isspace title = false ->
  stored w GOALS_FILE !! uuid4 = None ->
  exists (goal : record) (w' : World) (listed : list record),
    create_goal uuid4 now_1 now_2 project_id data w =
      (mkResponse 201 (Item "goal" goal), w') /\
    get_project_goals project_id w' = (mkResponse 200 (Items "goals" listed), w') /\
    listed ≡ₚ goal :: of_project (stored w GOALS_FILE) project_id /\
    forall other : string,
      other <> project_id ->
      exists listed' : list record,
        get_project_goals other w' = (mkResponse 200 (Items "goals" listed'), w') /\
        listed' ≡ₚ of_project (stored w GOALS_FILE) other.
Proof.
  intros Htitle Hdescription Hspace Hfresh.
  pose proof (create_goal_run uuid4 now_1 now_2 project_id data title description w
                Htitle Hdescription) as Hrun.
  rewrite Hspace in Hrun. cbv zeta in Hrun.
  eexists. eexists. eexists. split; [exact Hrun|].
  rewrite get_project_goals_run, stored_write_same. split; [reflexivity|].
  split.
  - rewrite of_project_insert_fresh by exact Hfresh.
    replace (get (dict _) "project_id") with (JStr project_id) by reflexivity.
    rewrite eq_str_refl. reflexivity.
  - intros other Hother. eexists.
    rewrite get_project_goals_run, stored_write_same. split; [reflexivity|].
    rewrite of_project_insert_fresh by exact Hfresh.
    replace (get (dict _) "project_id") with (JStr project_id) by reflexivity.
    rewrite equals_str_ne by congruence. reflexivity.
Qed.

Lemma create_goal_then_list_witness :
  let data : record := dict [("title", JStr "Write")] in
  exists listed : list record,
    fst (get_project_goals "p-1"
           (snd (create_goal "g-2" "t1" "t2" "p-1" data Sample.busy))) =
      mkResponse 200 (Items "goals" listed) /\
    length listed = 2%nat.
Proof.
  destruct (create_goal_then_list "g-2" "t1" "t2" "p-1" (dict [("title", JStr "Write")])
              "Write" "" Sample.busy eq_refl eq_refl eq_refl eq_refl)
    as (goal & w' & listed & Hrun & Hlist & Hperm & _).
  exists listed. rewrite Hrun. cbn [snd]. rewrite Hlist.
  split; [reflexivity|].
  rewrite (Permutation_length Hperm). reflexivity.
Defined.

Lemma elem_of_values {A} (m : gmap string A) (x : A) :
  x ∈ values m <-> exists id : string, m !! id = Some x.
Proof.
  unfold values. rewrite list_elem_of_fmap. split.
  - intros [[id y] [-> H]]. exists id. apply elem_of_map_to_list, H.
  - intros [id H]. exists (id, x). split; [reflexivity|].
    apply elem_of_map_to_list, H.
Qed.

Lemma elem_of_of_project (t : store) (project_id : string) (r : record) :
  r ∈ of_project t project_id <->
  exists id : string, t !! id = Some r /\ r !! "project_id" = Some (JStr project_id).
Proof.
  unfold of_project.
  rewrite list_elem_of_In, filter_In, <- list_elem_of_In, elem_of_values, eq_str_iff.
  unfold get. split.
  - intros [[id Hid] Hp]. exists id. split; [exact Hid|].
    destruct (r !! "project_id"); cbn in Hp; [congruence | discriminate].
  - intros [id [Hid Hp]]. split; [eauto|]. rewrite Hp. reflexivity.
Qed.

(** X12: [get_project_goals] and [get_project_insights] answer 200,
    change nothing, and list exactly the records of their store whose
    project_id field is the string of the URL: a record without the field,
    or with another value in it, is not listed. *)
Theorem project_listings (project_id : string) (w : World) :
  exists goals insights : list record,
    get_project_goals project_id w = (mkResponse 200 (Items "goals" goals), w) /\
    get_project_insights project_id w =
      (mkResponse 200 (Items "insights" insights), w) /\
    (forall goal : record,
       goal ∈ goals <->
       exists id : string,
         stored w GOALS_FILE !! id = Some goal /\
         goal !! "project_id" = Some (JStr project_id)) /\
    (forall insight : record,
       insight ∈ insights <->
       exists id : string,
         stored w INSIGHTS_FILE !! id = Some insight /\
         insight !! "project_id" = Some (JStr project_id)).
Proof.
  eexists. eexists.
  split; [apply get_project_goals_run|].
  split; [apply get_project_insights_run|].
  split; intros r; apply elem_of_of_project.
Qed.

Lemma update_goal_run (now goal_id : string) (data : record) (w : World) :
  update_goal now goal_id data w =
    match stored w GOALS_FILE !! goal_id with
    | None => (mkResponse 404 (Error "Goal not found"), w)
    | Some goal =>
        let goal' := <["updated_at" := JStr now]> (data ∪ goal) in
        (match goal' !! "title" with
         | Some _ => mkResponse 200 (Item "goal" goal')
         | None => mkResponse 500 (Error "Failed to update goal")
         end,
         write_doc w GOALS_FILE (Document (<[goal_id := goal']> (stored w GOALS_FILE))))
    end.
Proof.
  unfold update_goal, handler. rewrite bind_load.
  destruct (stored w GOALS_FILE !! goal_id) as [goal|]; [|reflexivity].
  cbn [dict_update]. rewrite bind_lift_ok.
  cbv zeta. rewrite bind_save. unfold getitem.
  destruct (_ !! "title"); reflexivity.
Qed.

(** A body that [dict.update] refuses is answered 500 for a known goal,
    404 for an unknown one, and nothing is written; the empty string is
    an empty sequence of pairs and updates like the empty object. *)
Lemma update_goal_no_object (now goal_id : string) (data : put_body) (w : World) :
  (forall d : record, data <> Object d) ->
  data = Text "" /\ update_goal now goal_id data w = update_goal now goal_id (∅ : record) w \/
  data <> Text "" /\
  update_goal now goal_id data w =
    (match stored w GOALS_FILE !! goal_id with
     | None => mkResponse 404 (Error "Goal not found")
     | Some _ => mkResponse 500 (Error "Failed to update goal")
     end, w).
Proof.
  intros Hdata. unfold update_goal, handler. rewrite !bind_load.
  destruct data as [d| | b | n | f | [|c s]]; try (exfalso; exact (Hdata d eq_refl)).
  1-4, 6: right; (split; [discriminate|]);
    destruct (stored w GOALS_FILE !! goal_id); reflexivity.
  left. split; [reflexivity|].
  destruct (stored w GOALS_FILE !! goal_id) as [goal|]; [|reflexivity].
  cbn [dict_update Str.is_empty]. rewrite (left_id_L ∅ (∪) goal). reflexivity.
Qed.

(** X13: [update_goal] answers 404 and changes nothing for an unknown
    id, whatever the body; for a known id it neither adds nor removes a
    goal (the ids of the store stay the same, even when the body gives the
    goal another "id"), takes no field away from the goal, and touches no
    other file. *)
Theorem update_goal_keeps_ids (now goal_id : string) (data : record) (w : World) :
  (stored w GOALS_FILE !! goal_id = None ->
     update_goal now goal_id data w =
       (mkResponse 404 (Error "Goal not found"), w)) /\
  (forall goal : record,
     stored w GOALS_FILE !! goal_id = Some goal ->
     exists (goal' : record) (r : response) (w' : World),
       update_goal now goal_id data w = (r, w') /\
       stored w' GOALS_FILE !! goal_id = Some goal' /\
       dom (stored w' GOALS_FILE) = dom (stored w GOALS_FILE) /\
       dom goal ⊆ dom goal' /\
       disk w' = disk w /\
       read_doc w' PROJECTS_FILE = read_doc w PROJECTS_FILE /\
       read_doc w' INSIGHTS_FILE = read_doc w INSIGHTS_FILE /\
       read_doc w' FILES_FILE = read_doc w FILES_FILE).
Proof.
  rewrite update_goal_run. split.
  - intros ->. reflexivity.
  - intros goal Hgoal. rewrite Hgoal. cbv zeta.
    eexists. eexists. eexists. split; [reflexivity|].
    rewrite stored_write_same.
    split; [apply lookup_insert_eq|].
    split.
    { apply dom_insert_lookup_L. eauto. }
    split.
    { rewrite dom_insert_L, dom_union_L. intros k Hk.
      apply elem_of_union_r, elem_of_union_r, Hk. }
    destruct w; repeat split; reflexivity.
Qed.

Lemma update_goal_keeps_ids_witness :
  update_goal "t9" "nobody" ({[ "status" := JStr "done" ]} : record) Sample.busy =
    (mkResponse 404 (Error "Goal not found"), Sample.busy) /\
  exists w' : World,
    snd (update_goal "t9" "g-1" ({[ "id" := JStr "other" ]} : record) Sample.busy) = w' /\
    is_Some (stored w' GOALS_FILE !! "g-1") /\
    stored w' GOALS_FILE !! "other" = None /\
    dom (stored w' GOALS_FILE) = dom (stored Sample.busy GOALS_FILE).
Proof.
  destruct (update_goal_keeps_ids "t9" "nobody" {[ "status" := JStr "done" ]}
              Sample.busy) as [Hunknown _].
  destruct (update_goal_keeps_ids "t9" "g-1" {[ "id" := JStr "other" ]} Sample.busy)
    as [_ Hknown].
  split; [apply Hunknown; reflexivity|].
  destruct (Hknown Sample.goal_1 eq_refl) as (goal' & r & w' & Hrun & Hstored & Hdom & _).
  exists w'. rewrite Hrun. split; [reflexivity|].
  split; [eauto|]. split; [|exact Hdom].
  apply not_elem_of_dom. rewrite Hdom.
  apply not_elem_of_dom. reflexivity.
Defined.

(** X14: a body with a string project_id moves the goal: after
    [update_goal] the goal is listed for the project of the body, with the
    goals that project had, and for no other project. *)
Theorem update_goal_moves_goal (now goal_id target : string) (data goal : record)
    (w : World) :
  stored w GOALS_FILE !! goal_id = Some goal ->
  data !! "project_id" = Some (JStr target) ->
  exists (goal' : record) (w' : World),
    snd (update_goal now goal_id data w) = w' /\
    stored w' GOALS_FILE !! goal_id = Some goal' /\
    of_project (stored w' GOALS_FILE) target
      ≡ₚ goal' :: of_project (delete goal_id (stored w GOALS_FILE)) target /\
    forall other : string,
      other <> target ->
      of_project (stored w' GOALS_FILE) other
        ≡ₚ of_project (delete goal_id (stored w GOALS_FILE)) other.
Proof.
  intros Hgoal Hdata. rewrite update_goal_run, Hgoal. cbv zeta. cbn [snd].
  set (goal' := <["updated_at" := JStr now]> (data ∪ goal)).
  assert (Hproject : get goal' "project_id" = JStr target).
  { unfold get, goal'. rewrite lookup_insert_ne by discriminate.
    rewrite (lookup_union_Some_l _ _ _ _ Hdata). reflexivity. }
  exists goal'. eexists. split; [reflexivity|].
  rewrite stored_write_same. split; [apply lookup_insert_eq|].
  rewrite <- insert_delete_eq. split.
  - rewrite of_project_insert_fresh by apply lookup_delete_eq.
    rewrite Hproject, eq_str_refl. reflexivity.
  - intros other Hother.
    rewrite of_project_insert_fresh by apply lookup_delete_eq.
    rewrite Hproject, equals_str_ne by congruence. reflexivity.
Qed.

Lemma update_goal_moves_goal_witness :
  let w' :=
    snd (update_goal "t9" "g-1" ({[ "project_id" := JStr "p-2" ]} : record) Sample.busy) in
  length (of_project (stored Sample.busy GOALS_FILE) "p-1") = 1%nat /\
  length (of_project (stored w' GOALS_FILE) "p-1") = 0%nat /\
  length (of_project (stored w' GOALS_FILE) "p-2") = 1%nat.
Proof.
  destruct (update_goal_moves_goal "t9" "g-1" "p-2" {[ "project_id" := JStr "p-2" ]}
              Sample.goal_1 Sample.busy eq_refl ltac:(apply lookup_singleton_eq))
    as (goal' & w' & Hrun & _ & Htarget & Hother).
  rewrite Hrun. cbv zeta.
  split; [reflexivity|]. split.
  - rewrite (Permutation_length (Hother "p-1" ltac:(discriminate))). reflexivity.
  - rewrite (Permutation_length Htarget). reflexivity.
Defined.

(** X15: deleting a goal right after its creation undoes the creation:
    when the generated id was free, the goals store is what it was, the
    answer is 200, and no other file was touched. *)
Theorem create_then_delete_goal (uuid4 now_1 now_2 project_id : string) (data : record)
    (title description : string) (w : World) :
  get_or data "title" (JStr "") = JStr title ->
  get_or data "description" (JStr "") = JStr description ->
  Str.all_chars Str.isspace title = false ->
  stored w GOALS_FILE !! uuid4 = None ->
  exists w2 : World,
    delete_goal uuid4 (snd (create_goal uuid4 now_1 now_2 project_id data w)) =
      (mkResponse 200 (Message "Goal deleted successfully"), w2) /\
    stored w2 GOALS_FILE = stored w GOALS_FILE /\
    disk w2 = disk w /\
    read_doc w2 PROJECTS_FILE = read_doc w PROJECTS_FILE /\
    read_doc w2 INSIGHTS_FILE = read_doc w INSIGHTS_FILE /\
    read_doc w2 FILES_FILE = read_doc w FILES_FILE.
Proof.
  intros Htitle Hdescription Hspace Hfresh.
  rewrite (create_goal_run _ _ _ _ _ _ _ _ Htitle Hdescription), Hspace.
  cbv zeta. cbn [snd].
  eexists. split.
  { rewrite delete_goal_run, stored_write_same, lookup_insert_eq.
    replace (dict _ !! "title") with (Some (JStr (Str.strip title))) by reflexivity.
    reflexivity. }
  rewrite stored_write_same.
  split; [apply delete_insert_id, Hfresh|].
  destruct w; repeat split; reflexivity.
Qed.

Lemma create_then_delete_goal_witness :
  let data : record := dict [("title", JStr "Write")] in
  exists w2 : World,
    delete_goal "g-2" (snd (create_goal "g-2" "t1" "t2" "p-1" data Sample.busy)) =
      (mkResponse 200 (Message "Goal deleted successfully"), w2) /\
    stored w2 GOALS_FILE = stored Sample.busy GOALS_FILE.
Proof.
  destruct (create_then_delete_goal "g-2" "t1" "t2" "p-1" (dict [("title", JStr "Write")])
              "Write" "" Sample.busy eq_refl eq_refl eq_refl eq_refl)
    as (w2 & Hrun & Hstore & _).
  exists w2. split; [exact Hrun | exact Hstore].
Defined.

(** ** Research progress *)

Lemma generate_with_run (e : generate_env) (project_id : string) (w : World) :
  exists i1 i2 i3 : record,
    sample_insights project_id (env_uuid_1 e) (env_now_1 e) (env_uuid_2 e) (env_now_2 e)
      (env_uuid_3 e) (env_now_3 e) = [i1; i2; i3] /\
    let w1 :=
      write_doc w INSIGHTS_FILE
        (Document (<[env_uuid_3 e := i3]> (<[env_uuid_2 e := i2]> (<[env_uuid_1 e := i1]>
           (stored w INSIGHTS_FILE))))) in
    generate_with e project_id w =
      match stored w PROJECTS_FILE !! project_id with
      | None => (mkResponse 200 (Message "Insights generated successfully"), w1)
      | Some project =>
          match add_25 (get_or project "research_progress" (JInt 0)) with
          | Ok progress =>
              (mkResponse 200 (Message "Insights generated successfully"),
               write_doc w1 PROJECTS_FILE
                 (Document (<[project_id :=
                                <["updated_at" := JStr (env_now_4 e)]>
                                  (<["research_progress" := of_num (min_100 progress)]>
                                     project)]>
                              (stored w PROJECTS_FILE))))
          | Raised _ => (mkResponse 500 (Error "Failed to generate insights"), w1)
          end
      end.
Proof.
  destruct (sample_insights_fields project_id (env_uuid_1 e) (env_now_1 e)
              (env_uuid_2 e) (env_now_2 e) (env_uuid_3 e) (env_now_3 e))
    as (i1 & i2 & i3 & Hsample & _).
  exists i1, i2, i3. split; [exact Hsample|].
  unfold generate_with.
  exact (generate_insights_run (env_uuid_1 e) (env_now_1 e) (env_uuid_2 e) (env_now_2 e)
           (env_uuid_3 e) (env_now_3 e) (env_now_4 e) project_id i1 i2 i3 w Hsample).
Qed.

Lemma generate_with_progress (e : generate_env) (project_id : string) (project : record)
    (n : Z) (w : World) :
  stored w PROJECTS_FILE !! project_id = Some project ->
  get_or project "research_progress" (JInt 0) = JInt n ->
  exists project' : record,
    stored (snd (generate_with e project_id w)) PROJECTS_FILE !! project_id
      = Some project' /\
    project' !! "research_progress" = Some (JInt (Z.min 100 (n + 25))).
Proof.
  intros Hproject Hn.
  destruct (generate_with_run e project_id w) as (i1 & i2 & i3 & _ & Hrun).
  cbv zeta in Hrun. rewrite Hrun, Hproject, Hn. cbn [add_25 as_num snd].
  eexists. rewrite stored_write_same, lookup_insert_eq. split; [reflexivity|].
  rewrite lookup_insert_ne by discriminate.
  rewrite lookup_insert_eq, min_100_int. reflexivity.
Qed.

Lemma generate_each_progress_from (envs : list generate_env) (project_id : string) :
  forall (project : record) (n : Z) (w : World),
    stored w PROJECTS_FILE !! project_id = Some project ->
    project !! "research_progress" = Some (JInt n) ->
    exists project' : record,
      stored (generate_each envs project_id w) PROJECTS_FILE !! project_id
        = Some project' /\
      project' !! "research_progress" =
        Some (JInt (match envs with
                    | [] => n
                    | _ => Z.min 100 (n + 25 * Z.of_nat (length envs))
                    end)).
Proof.
  induction envs as [|e envs IH]; intros project n w Hproject Hn.
  - exists project. split; assumption.
  - cbn [generate_each].
    destruct (generate_with_progress e project_id project n w Hproject) as (p1 & H1 & N1).
    { unfold get_or. rewrite Hn. reflexivity. }
    destruct (IH p1 _ _ H1 N1) as (p2 & H2 & N2).
    exists p2. split; [exact H2|]. rewrite N2. do 2 f_equal.
    destruct envs as [|e' envs]; [cbn; lia|].
    cbn [length]. lia.
Qed.

(** X16: after one or more requests to generate insights for an existing
    project whose research_progress is the integer [n], the stored
    progress is [min 100 (n + 25 k)], [k] the number of requests: every
    request adds 25 until the cap of 100, and the cap holds from then on. *)
Theorem generate_each_progress (envs : list generate_env) (project_id : string)
    (project : record) (n : Z) (w : World) :
  stored w PROJECTS_FILE !! project_id = Some project ->
  project !! "research_progress" = Some (JInt n) ->
  envs <> [] ->
  exists project' : record,
    stored (generate_each envs project_id w) PROJECTS_FILE !! project_id
      = Some project' /\
    project' !! "research_progress" =
      Some (JInt (Z.min 100 (n + 25 * Z.of_nat (length envs)))).
Proof.
  intros Hproject Hn Henvs.
  destruct (generate_each_progress_from envs project_id project n w Hproject Hn)
    as (project' & H & N).
  exists project'. split; [exact H|].
  destruct envs; [contradiction | exact N].
Qed.

Lemma generate_each_progress_witness :
  let e := mkGenerateEnv "i-1" "t1" "i-2" "t2" "i-3" "t3" "t4" in
  let w0 := snd (start_research "t0" "p-1" Sample.busy) in
  exists project' : record,
    stored (generate_each [e; e; e; e; e] "p-1" w0) PROJECTS_FILE !! "p-1"
      = Some project' /\
    project' !! "research_progress" = Some (JInt 100).
Proof.
  destruct (generate_each_progress
              (let e := mkGenerateEnv "i-1" "t1" "i-2" "t2" "i-3" "t3" "t4" in
               [e; e; e; e; e])
              "p-1"
              (<["research_progress" := JInt 0]>
                 (<["updated_at" := JStr "t0"]>
                    (<["status" := JStr "researching"]> Sample.project_1)))
              0%Z (snd (start_research "t0" "p-1" Sample.busy)))
    as (project' & H & N); [reflexivity | reflexivity | discriminate |].
  exists project'. split; [exact H | exact N].
Defined.

Lemma start_live_research_run (now project_id : string) (w : World) :
  start_live_research now project_id w =
    match stored w PROJECTS_FILE !! project_id with
    | None => (mkResponse 404 (Error "Project not found"), w)
    | Some project =>
        let project' :=
          <["live_research_started" := JBool true]>
            (<["research_progress" := JInt 0]>
               (<["updated_at" := JStr now]> (<["status" := JStr "researching"]> project))) in
        (match project !! "name" with
         | Some _ => mkResponse 200 (Message "Live research started successfully")
         | None => mkResponse 500 (Error "Failed to start live research")
         end,
         write_doc w PROJECTS_FILE
           (Document (<[project_id := project']> (stored w PROJECTS_FILE))))
    end.
Proof.
  unfold start_live_research, handler. rewrite bind_load.
  destruct (stored w PROJECTS_FILE !! project_id) as [project|]; [|reflexivity].
  cbv zeta. rewrite bind_save. unfold getitem.
  rewrite !lookup_insert_ne by discriminate.
  destruct (project !! "name"); reflexivity.
Qed.

(** X17: [start_live_research] answers 404 and changes nothing when the
    id is unknown; for a known project it stores status "researching",
    research_progress 0, the new updated_at and live_research_started
    true, and keeps every other field of the project and every other
    project. *)
Theorem start_live_research_spec (now project_id : string) (w : World) :
  (stored w PROJECTS_FILE !! project_id = None ->
     start_live_research now project_id w =
       (mkResponse 404 (Error "Project not found"), w)) /\
  (forall project : record,
     stored w PROJECTS_FILE !! project_id = Some project ->
     exists (project' : record) (r : response),
       start_live_research now project_id w =
         (r, write_doc w PROJECTS_FILE
               (Document (<[project_id := project']> (stored w PROJECTS_FILE)))) /\
       status r <> 404%Z /\
       (is_Some (project !! "name") ->
          r = mkResponse 200 (Message "Live research started successfully")) /\
       project' !! "status" = Some (JStr "researching") /\
       project' !! "research_progress" = Some (JInt 0) /\
       project' !! "updated_at" = Some (JStr now) /\
       project' !! "live_research_started" = Some (JBool true) /\
       (forall k : string,
          k <> "status" -> k <> "research_progress" -> k <> "updated_at" ->
          k <> "live_research_started" ->
          project' !! k = project !! k) /\
       (forall id : string,
          id <> project_id ->
          <[project_id := project']> (stored w PROJECTS_FILE) !! id
            = stored w PROJECTS_FILE !! id)).
Proof.
  rewrite start_live_research_run. split.
  - intros ->. reflexivity.
  - intros project ->. cbv zeta. eexists. eexists.
    split; [reflexivity|].
    split; [destruct (project !! "name"); discriminate|].
    split; [intros [v ->]; reflexivity|].
    split; [rewrite !lookup_insert_ne by discriminate; apply lookup_insert_eq|].
    split; [rewrite lookup_insert_ne by discriminate; apply lookup_insert_eq|].
    split; [rewrite !lookup_insert_ne by discriminate; apply lookup_insert_eq|].
    split; [apply lookup_insert_eq|].
    split.
    + intros k K1 K2 K3 K4. rewrite !lookup_insert_ne by congruence. reflexivity.
    + intros id Hid. apply lookup_insert_ne. congruence.
Qed.

Lemma start_live_research_spec_witness :
  start_live_research "t9" "nobody" Sample.busy =
    (mkResponse 404 (Error "Project not found"), Sample.busy) /\
  exists project' : record,
    stored (snd (start_live_research "t9" "p-1" Sample.busy)) PROJECTS_FILE !! "p-1"
      = Some project' /\
    project' !! "live_research_started" = Some (JBool true) /\
    project' !! "research_progress" = Some (JInt 0) /\
    project' !! "name" = Some (JStr "Alpha").
Proof.
  destruct (start_live_research_spec "t9" "nobody" Sample.busy) as [Hmissing _].
  destruct (start_live_research_spec "t9" "p-1" Sample.busy) as [_ Hknown].
  split; [apply Hmissing; reflexivity|].
  destruct (Hknown Sample.project_1 eq_refl)
    as (project' & r & Hrun & _ & _ & _ & Hprogress & _ & Hflag & Hframe & _).
  exists project'. rewrite Hrun. cbn [snd].
  rewrite stored_write_same, lookup_insert_eq.
  split; [reflexivity|]. split; [exact Hflag|]. split; [exact Hprogress|].
  rewrite Hframe by discriminate. reflexivity.
Defined.

(** ** Server errors *)

(** X21: a body whose name, or whose description, is present and not a
    string is answered 500 by [create_project] and nothing is created;
    the description is read before the name is checked, so this holds for
    an empty name too, which is then not answered 400. *)
Theorem create_project_bad_body (uuid4 now_1 now_2 : string) (data : record) (w : World) :
  (forall s : string, get_or data "name" (JStr "") <> JStr s) \/
  (forall s : string, get_or data "description" (JStr "") <> JStr s) ->
  create_project uuid4 now_1 now_2 data w =
    (mkResponse 500 (Error "Failed to create project"), w).
Proof.
  intros Hbad. unfold create_project, handler.
  destruct (get_or data "name" (JStr "")) as [| | | |name| |] eqn:Ename;
    try reflexivity.
  destruct (get_or data "description" (JStr "")) as [| | | |description| |] eqn:Edescription;
    try reflexivity.
  destruct Hbad as [Hbad | Hbad]; [exfalso; exact (Hbad name eq_refl)|].
  exfalso. exact (Hbad description eq_refl).
Qed.

Lemma create_project_bad_body_witness :
  create_project "p-2" "t1" "t2"
    (dict [("name", JStr ""); ("description", JInt 5)]) Sample.busy =
    (mkResponse 500 (Error "Failed to create project"), Sample.busy) /\
  create_project "p-2" "t1" "t2" (dict [("name", JNull)]) Sample.busy =
    (mkResponse 500 (Error "Failed to create project"), Sample.busy).
Proof.
  split; apply create_project_bad_body.
  - right. intros s. discriminate.
  - left. intros s. discriminate.
Defined.

Lemma for_each_with_counts_raises (files goals insights : store) (l : list record)
    (project : record) (w : World) :
  project ∈ l ->
  project !! "id" = None ->
  exists e : exn, for_each (with_counts files goals insights) l w = (Raised e, w).
Proof.
  intros Hin Hid. induction l as [|p l IH]; [inversion Hin|].
  cbn [for_each]. unfold bind at 1. rewrite with_counts_run.
  destruct (p !! "id") as [project_id|] eqn:Ep; [|exists KeyError; reflexivity].
  apply elem_of_cons in Hin as [-> | Hin]; [congruence|].
  destruct (IH Hin) as [e He]. exists e. unfold bind. rewrite He. reflexivity.
Qed.

(** X22: one project record without the field "id" is enough for
    [get_projects] to answer 500 instead of the list; nothing is changed. *)
Theorem get_projects_missing_id (id : string) (project : record) (w : World) :
  stored w PROJECTS_FILE !! id = Some project ->
  project !! "id" = None ->
  get_projects w = (mkResponse 500 (Error "Failed to get projects"), w).
Proof.
  intros Hproject Hid. rewrite get_projects_run.
  destruct (for_each_with_counts_raises (stored w FILES_FILE) (stored w GOALS_FILE)
              (stored w INSIGHTS_FILE) (values (stored w PROJECTS_FILE)) project w)
    as [e He]; [apply elem_of_values; eauto | exact Hid |].
  rewrite He. reflexivity.
Qed.

Lemma get_projects_missing_id_witness :
  let w :=
    write_doc Sample.busy PROJECTS_FILE
      (Document (<["p-9" := dict [("name", JStr "Beta")]]> (stored Sample.busy PROJECTS_FILE))) in
  get_projects w = (mkResponse 500 (Error "Failed to get projects"), w).
Proof.
  apply (get_projects_missing_id "p-9" (dict [("name", JStr "Beta")])); reflexivity.
Defined.

(** X23: [generate_insights] is not all or nothing: for an existing
    project whose research_progress is no number the answer is 500, the
    projects file is as before, and yet the three insight records have
    been written. *)
Theorem generate_insights_not_atomic
    (uuid_1 now_1 uuid_2 now_2 uuid_3 now_3 now_4 project_id : string)
    (project : record) (w : World) :
  stored w PROJECTS_FILE !! project_id = Some project ->
  as_num (get_or project "research_progress" (JInt 0)) = None ->
  exists (i1 i2 i3 : record) (w' : World),
    generate_insights uuid_1 now_1 uuid_2 now_2 uuid_3 now_3 now_4 project_id w =
      (mkResponse 500 (Error "Failed to generate insights"), w') /\
    read_doc w' PROJECTS_FILE = read_doc w PROJECTS_FILE /\
    stored w' INSIGHTS_FILE =
      <[uuid_3 := i3]> (<[uuid_2 := i2]> (<[uuid_1 := i1]> (stored w INSIGHTS_FILE))) /\
    i1 !! "id" = Some (JStr uuid_1) /\
    i2 !! "id" = Some (JStr uuid_2) /\
    i3 !! "id" = Some (JStr uuid_3) /\
    stored w' INSIGHTS_FILE !! uuid_3 = Some i3.
Proof.
  intros Hproject Hprogress.
  destruct (sample_insights_fields project_id uuid_1 now_1 uuid_2 now_2 uuid_3 now_3)
    as (i1 & i2 & i3 & Hsample & (I1 & I2 & I3) & _).
  exists i1, i2, i3. eexists. split.
  { rewrite (generate_insights_run _ _ _ _ _ _ now_4 _ _ _ _ w Hsample).
    cbv zeta. rewrite Hproject. unfold add_25. rewrite Hprogress. reflexivity. }
  rewrite stored_write_same.
  split; [reflexivity|]. split; [reflexivity|].
  split; [exact I1|]. split; [exact I2|]. split; [exact I3|].
  apply lookup_insert_eq.
Qed.

Lemma generate_insights_not_atomic_witness :
  let w :=
    write_doc Sample.busy PROJECTS_FILE
      (Document {[ "p-1" := <["research_progress" := JStr "half"]> Sample.project_1 ]}) in
  fst (generate_insights "i-1" "t1" "i-2" "t2" "i-3" "t3" "t4" "p-1" w) =
    mkResponse 500 (Error "Failed to generate insights") /\
  stored w INSIGHTS_FILE !! "i-3" = None /\
  is_Some (stored (snd (generate_insights "i-1" "t1" "i-2" "t2" "i-3" "t3" "t4" "p-1" w))
             INSIGHTS_FILE !! "i-3").
Proof.
  destruct (generate_insights_not_atomic "i-1" "t1" "i-2" "t2" "i-3" "t3" "t4" "p-1"
              (<["research_progress" := JStr "half"]> Sample.project_1)
              (write_doc Sample.busy PROJECTS_FILE
                 (Document {[ "p-1" :=
                    <["research_progress" := JStr "half"]> Sample.project_1 ]})))
    as (i1 & i2 & i3 & w' & Hrun & _ & _ & _ & _ & _ & Hstored);
    [reflexivity | reflexivity |].
  cbv zeta. rewrite Hrun. cbn [fst snd].
  split; [reflexivity|]. split; [reflexivity|]. eauto.
Defined.

(** ** Creating a project, then listing *)

Lemma count_for_none (t : store) (project_id : string) :
  (forall r : record, r ∈ values t -> r !! "project_id" <> Some (JStr project_id)) ->
  count_for t (JStr project_id) = 0%Z.
Proof.
  unfold count_for. intros H.
  induction (values t) as [|r l IH]; [reflexivity|].
  cbn [List.filter].
  destruct (Py.equals (get r "project_id") (JStr project_id)) eqn:E.
  - exfalso. apply eq_str_iff in E. apply (H r); [left|].
    unfold get in E. destruct (r !! "project_id"); cbn in E; congruence.
  - apply IH. intros r' Hr'. apply H. right. exact Hr'.
Qed.

(** X24: a project created under a fresh id is in the next listing
    ([get_projects] answers 200 with one project more) with its id, its
    stripped name, status "setup" and research_progress 0; its three
    counts are those of the records that carry its id at that time, so
    they are 0 unless a file, goal or insight was stored for that id
    before the project existed. *)
Theorem create_project_then_list (uuid4 now_1 now_2 : string) (data : record)
    (name description : string) (w : World) :
  get_or data "name" (JStr "") = JStr name ->
  get_or data "description" (JStr "") = JStr description ->
  Str.all_chars Str.isspace name = false ->
  stored w PROJECTS_FILE !! uuid4 = None ->
  (forall (id : string) (project : record),
     stored w PROJECTS_FILE !! id = Some project -> is_Some (project !! "id")) ->
  exists (w' : World) (listed : list record) (shown : record),
    snd (create_project uuid4 now_1 now_2 data w) = w' /\
    get_projects w' = (mkResponse 200 (Items "projects" listed), w') /\
    length listed = S (size (stored w PROJECTS_FILE)) /\
    shown ∈ listed /\
    shown !! "id" = Some (JStr uuid4) /\
    shown !! "name" = Some (JStr (Str.strip name)) /\
    shown !! "status" = Some (JStr "setup") /\
    shown !! "research_progress" = Some (JInt 0) /\
    shown !! "documents_count"
      = Some (JInt (count_for (stored w FILES_FILE) (JStr uuid4))) /\
    shown !! "goals_count"
      = Some (JInt (count_for (stored w GOALS_FILE) (JStr uuid4))) /\
    shown !! "insights_count"
      = Some (JInt (count_for (stored w INSIGHTS_FILE) (JStr uuid4))) /\
    ((forall r : record,
        r ∈ values (stored w FILES_FILE) ++ values (stored w GOALS_FILE)
              ++ values (stored w INSIGHTS_FILE) ->
        r !! "project_id" <> Some (JStr uuid4)) ->
     shown !! "documents_count" = Some (JInt 0) /\
     shown !! "goals_count" = Some (JInt 0) /\
     shown !! "insights_count" = Some (JInt 0)).
Proof.
  intros Hname Hdescription Hspace Hfresh Hids.
  rewrite (create_project_run _ _ _ _ _ _ _ Hname Hdescription), Hspace.
  cbv zeta. cbn [snd].
  set (project := dict _).
  set (projects' := <[uuid4 := project]> (stored w PROJECTS_FILE)).
  set (w' := write_doc w PROJECTS_FILE (Document projects')).
  assert (Hall : Forall (fun p : record => is_Some (p !! "id")) (values projects')).
  { apply Forall_forall. intros p Hp. apply elem_of_values in Hp as [id Hp].
    unfold projects' in Hp. apply lookup_insert_Some in Hp as [[_ <-] | [_ Hp]].
    - exists (JStr uuid4). reflexivity.
    - exact (Hids id p Hp). }
  set (shown := counted (stored w FILES_FILE) (stored w GOALS_FILE)
                  (stored w INSIGHTS_FILE) (JStr uuid4) project).
  exists w'. eexists. exists shown. split; [reflexivity|].
  split.
  { rewrite get_projects_run. unfold w'.
    rewrite stored_write_same, !(stored_write_other w PROJECTS_FILE) by discriminate.
    fold projects'. rewrite for_each_with_counts by exact Hall. reflexivity. }
  split.
  { rewrite length_fmap. unfold values. rewrite length_fmap, length_map_to_list.
    apply map_size_insert_None, Hfresh. }
  split.
  { apply list_elem_of_fmap. exists project. split; [reflexivity|].
    apply elem_of_values. exists uuid4. apply lookup_insert_eq. }
  assert (Hd : shown !! "documents_count"
               = Some (JInt (count_for (stored w FILES_FILE) (JStr uuid4))))
    by (unfold shown, counted; rewrite !lookup_insert_ne by discriminate;
        apply lookup_insert_eq).
  assert (Hg : shown !! "goals_count"
               = Some (JInt (count_for (stored w GOALS_FILE) (JStr uuid4))))
    by (unfold shown, counted; rewrite !lookup_insert_ne by discriminate;
        apply lookup_insert_eq).
  assert (Hi : shown !! "insights_count"
               = Some (JInt (count_for (stored w INSIGHTS_FILE) (JStr uuid4))))
    by (unfold shown, counted; rewrite !lookup_insert_ne by discriminate;
        apply lookup_insert_eq).
  split; [unfold shown, counted; rewrite !lookup_insert_ne by discriminate; reflexivity|].
  split; [unfold shown, counted; rewrite !lookup_insert_ne by discriminate; reflexivity|].
  split; [unfold shown, counted; rewrite !lookup_insert_ne by discriminate; reflexivity|].
  split; [unfold shown, counted; rewrite lookup_insert_eq; reflexivity|].
  split; [exact Hd|]. split; [exact Hg|]. split; [exact Hi|].
  intros Hnone.
  rewrite Hd, Hg, Hi, !count_for_none; [repeat split | | |];
    intros r Hr; apply Hnone; rewrite !elem_of_app; auto.
Qed.

Lemma create_project_then_list_witness :
  let data : record := dict [("name", JStr " Beta ")] in
  exists (listed : list record) (shown : record),
    fst (get_projects (snd (create_project "p-2" "t1" "t2" data Sample.busy))) =
      mkResponse 200 (Items "projects" listed) /\
    length listed = 2%nat /\
    shown ∈ listed /\
    shown !! "name" = Some (JStr "Beta") /\
    shown !! "goals_count" = Some (JInt 0).
Proof.
  destruct (create_project_then_list "p-2" "t1" "t2" (dict [("name", JStr " Beta ")])
              " Beta " "" Sample.busy eq_refl eq_refl eq_refl eq_refl)
    as (w' & listed & shown & Hw & Hrun & Hlength & Hin & _ & Hname & _ & _ & _ & Hgoals & _).
  { intros id project Hp.
    change (stored Sample.busy PROJECTS_FILE) with ({[ "p-1" := Sample.project_1 ]} : store)
      in Hp.
    apply lookup_singleton_Some in Hp as [_ <-]. eexists. reflexivity. }
  exists listed, shown. rewrite Hw, Hrun.
  split; [reflexivity|]. split; [exact Hlength|]. split; [exact Hin|].
  split; [exact Hname | exact Hgoals].
Defined.

(** ** The states the routes can produce *)

Lemma rstrip_by_idempotent (p : ascii -> bool) (s : string) :
  Str.rstrip_by p (Str.rstrip_by p s) = Str.rstrip_by p s.
Proof.
  induction s as [|c s IH]; [reflexivity|].
  cbn [Str.rstrip_by].
  destruct (Str.rstrip_by p s) as [|d r] eqn:E.
  - destruct (p c) eqn:Ec; [reflexivity|].
    cbn [Str.rstrip_by]. rewrite Ec. reflexivity.
  - change (Str.rstrip_by p (String c (String d r)))
      with (match Str.rstrip_by p (String d r) with
            | EmptyString => if p c then EmptyString else String c EmptyString
            | String d' r' => String c (String d' r')
            end).
    rewrite IH. reflexivity.
Qed.

Lemma lstrip_by_head (p : ascii -> bool) (s : string) :
  Str.lstrip_by p s = EmptyString \/
  exists (c : ascii) (t : string), Str.lstrip_by p s = String c t /\ p c = false.
Proof.
  induction s as [|c s IH]; [left; reflexivity|].
  cbn [Str.lstrip_by]. destruct (p c) eqn:E; [exact IH|].
  right. exists c, s. split; [reflexivity | exact E].
Qed.

Lemma rstrip_by_head (p : ascii -> bool) (c : ascii) (t : string) :
  p c = false -> exists u : string, Str.rstrip_by p (String c t) = String c u.
Proof.
  intros Hc. cbn [Str.rstrip_by].
  destruct (Str.rstrip_by p t) as [|d r]; [rewrite Hc|]; eauto.
Qed.

Lemma strip_by_idempotent (p : ascii -> bool) (s : string) :
  Str.strip_by p (Str.strip_by p s) = Str.strip_by p s.
Proof.
  unfold Str.strip_by.
  destruct (lstrip_by_head p s) as [-> | (c & t & -> & Hc)]; [reflexivity|].
  destruct (rstrip_by_head p c t Hc) as [u Hu].
  rewrite Hu. cbn [Str.lstrip_by]. rewrite Hc, <- Hu.
  apply rstrip_by_idempotent.
Qed.

Lemma well_formed_set_disk (w : World) (d : gmap string string) :
  well_formed w -> well_formed (set_disk w d).
Proof. unfold well_formed. rewrite !stored_set_disk. trivial. Qed.

Lemma well_formed_write (w : World) (f : datafile) (t : store) :
  well_formed w ->
  match f with
  | PROJECTS_FILE => map_Forall project_ok t
  | GOALS_FILE => map_Forall (fun _ => goal_ok) t
  | FILES_FILE => map_Forall file_ok t
  | INSIGHTS_FILE => map_Forall insight_ok t
  end ->
  well_formed (write_doc w f (Document t)).
Proof.
  intros (Hp & Hg & Hf & Hi) Ht. unfold well_formed.
  destruct f; rewrite stored_write_same, !stored_write_other by discriminate;
    (split; [|split; [|split]]); assumption.
Qed.

Lemma well_formed_fresh : well_formed Sample.fresh.
Proof. unfold well_formed. (split; [|split; [|split]]); apply map_Forall_empty. Qed.

Lemma strip_not_empty (s : string) :
  Str.all_chars Str.isspace s = false -> Str.strip s <> "".
Proof.
  intros Hspace Hempty. pose proof (strip_empty s) as E.
  rewrite Hempty, Hspace in E. discriminate.
Qed.

Lemma well_formed_create_project (uuid4 now_1 now_2 : string) (data : record) (w : World) :
  well_formed w -> well_formed (snd (create_project uuid4 now_1 now_2 data w)).
Proof.
  intros Hw.
  destruct (get_or data "name" (JStr "")) as [| | | |name| |] eqn:Ename;
    try (unfold create_project, handler; rewrite Ename; exact Hw).
  destruct (get_or data "description" (JStr "")) as [| | | |description| |] eqn:Edescription;
    try (unfold create_project, handler; rewrite Ename, Edescription; exact Hw).
  rewrite (create_project_run _ _ _ _ _ _ _ Ename Edescription).
  destruct (Str.all_chars Str.isspace name) eqn:Hspace; [exact Hw|].
  cbv zeta. cbn [snd]. apply well_formed_write; [exact Hw|].
  apply map_Forall_insert_2; [|apply Hw].
  split; [reflexivity|]. split.
  { exists (Str.strip name). split; [reflexivity|].
    split; [apply strip_not_empty, Hspace | apply strip_by_idempotent]. }
  split; [left; reflexivity|].
  exists 0%Z. split; [reflexivity | lia].
Qed.

Lemma project_ok_started (id now : string) (project : record) :
  project_ok id project ->
  project_ok id
    (<["research_progress" := JInt 0]>
       (<["updated_at" := JStr now]> (<["status" := JStr "researching"]> project))).
Proof.
  intros (Hid & (name & Hname & Hne & Hstrip) & _ & _).
  split; [rewrite !lookup_insert_ne by discriminate; exact Hid|].
  split; [exists name; rewrite !lookup_insert_ne by discriminate; auto|].
  split; [right; rewrite !lookup_insert_ne by discriminate; apply lookup_insert_eq|].
  exists 0%Z. split; [apply lookup_insert_eq | lia].
Qed.

Lemma project_ok_marked (id : string) (v : json) (project : record) :
  project_ok id project -> project_ok id (<["live_research_started" := v]> project).
Proof.
  intros (Hid & (name & Hname & Hne & Hstrip) & Hstatus & (n & Hn & Hrange)).
  split; [rewrite lookup_insert_ne by discriminate; exact Hid|].
  split; [exists name; rewrite lookup_insert_ne by discriminate; auto|].
  split; [rewrite lookup_insert_ne by discriminate; exact Hstatus|].
  exists n. rewrite lookup_insert_ne by discriminate. auto.
Qed.

Lemma well_formed_start_research (now project_id : string) (w : World) :
  well_formed w -> well_formed (snd (start_research now project_id w)).
Proof.
  intros Hw. rewrite start_research_run.
  destruct (stored w PROJECTS_FILE !! project_id) as [project|] eqn:E; [|exact Hw].
  cbv zeta. cbn [snd]. apply well_formed_write; [exact Hw|].
  apply map_Forall_insert_2; [|apply Hw].
  apply project_ok_started. destruct Hw as [Hp _]. exact (Hp _ _ E).
Qed.

Lemma well_formed_start_live_research (now project_id : string) (w : World) :
  well_formed w -> well_formed (snd (start_live_research now project_id w)).
Proof.
  intros Hw. rewrite start_live_research_run.
  destruct (stored w PROJECTS_FILE !! project_id) as [project|] eqn:E; [|exact Hw].
  cbv zeta. cbn [snd]. apply well_formed_write; [exact Hw|].
  apply map_Forall_insert_2; [|apply Hw].
  apply project_ok_marked, project_ok_started. destruct Hw as [Hp _]. exact (Hp _ _ E).
Qed.

Lemma well_formed_upload_file (uuid4 now : string) (request : upload_request) (w : World) :
  well_formed w -> well_formed (snd (upload_file uuid4 now request w)).
Proof.
  intros Hw. rewrite upload_file_run.
  destruct (request_file request) as [file|]; [|exact Hw].
  destruct (form_project_id request) as [project_id|]; [|exact Hw].
  destruct (negb (Str.truthy project_id)) eqn:Hpid; [exact Hw|].
  destruct (String.eqb (filename file) ""); [exact Hw|].
  destruct (negb (allowed_file (filename file))) eqn:Hallowed; [exact Hw|].
  cbv zeta.
  destruct (Str.rsplit1 "." (Werkzeug.secure_filename (filename file)) !! 1%nat)
    as [ext|]; [|exact Hw].
  destruct (creatable _); [|exact Hw].
  cbn [snd]. apply well_formed_write; [apply well_formed_set_disk, Hw|].
  apply map_Forall_insert_2; [|apply Hw].
  split; [reflexivity|].
  split.
  { eexists. split; [reflexivity|].
    split; [apply secure_filename_chars | reflexivity]. }
  split.
  { eexists. split; [reflexivity|]. apply negb_false_iff, Hallowed. }
  exists project_id. split; [reflexivity|].
  intros ->. discriminate.
Qed.

Lemma file_ok_path (id : string) (file_data : record) :
  file_ok id file_data -> no_special (get file_data "path").
Proof.
  intros (_ & (name & _ & _ & Hpath) & _).
  right. eexists. unfold get. rewrite Hpath. split; [reflexivity|].
  right. split.
  - apply (is_folder_contains "_"); [apply contains_underscore_join | reflexivity].
  - apply datafile_at_underscore, contains_underscore_join.
Qed.

Lemma well_formed_delete_file (file_id : string) (w : World) :
  well_formed w -> well_formed (snd (delete_file file_id w)).
Proof.
  intros Hw. rewrite delete_file_run.
  - destruct (stored w FILES_FILE !! file_id) as [file_data|]; [|exact Hw].
    cbn [snd]. apply well_formed_write; [apply well_formed_set_disk, Hw|].
    apply map_Forall_delete. apply Hw.
  - intros file_data Hfile. destruct Hw as (_ & _ & Hf & _).
    exact (file_ok_path _ _ (Hf _ _ Hfile)).
Qed.

Lemma create_goal_bad_body (uuid4 now_1 now_2 project_id : string) (data : record)
    (w : World) :
  (forall s : string, get_or data "title" (JStr "") <> JStr s) \/
  (forall s : string, get_or data "description" (JStr "") <> JStr s) ->
  create_goal uuid4 now_1 now_2 project_id data w =
    (mkResponse 500 (Error "Failed to create goal"), w).
Proof.
  intros Hbad. unfold create_goal, handler.
  destruct (get_or data "title" (JStr "")) as [| | | |title| |] eqn:Etitle;
    try reflexivity.
  destruct (get_or data "description" (JStr "")) as [| | | |description| |] eqn:Edescription;
    try reflexivity.
  destruct Hbad as [Hbad | Hbad]; [exfalso; exact (Hbad title eq_refl)|].
  exfalso. exact (Hbad description eq_refl).
Qed.

Lemma well_formed_create_goal (uuid4 now_1 now_2 project_id : string) (data : record)
    (w : World) :
  well_formed w -> well_formed (snd (create_goal uuid4 now_1 now_2 project_id data w)).
Proof.
  intros Hw.
  destruct (get_or data "title" (JStr "")) as [| | | |title| |] eqn:Etitle;
    try (rewrite create_goal_bad_body;
         [exact Hw | left; intros s; rewrite Etitle; discriminate]).
  destruct (get_or data "description" (JStr "")) as [| | | |description| |] eqn:Edescription;
    try (rewrite create_goal_bad_body;
         [exact Hw | right; intros s; rewrite Edescription; discriminate]).
  rewrite (create_goal_run _ _ _ _ _ _ _ _ Etitle Edescription).
  destruct (Str.all_chars Str.isspace title); [exact Hw|].
  cbv zeta. cbn [snd]. apply well_formed_write; [exact Hw|].
  apply map_Forall_insert_2; [|apply Hw].
  split; [|exists now_2; reflexivity].
  repeat (apply Forall_cons; split; [eexists; reflexivity|]). apply Forall_nil. trivial.
Qed.

Lemma goal_ok_updated (now : string) (data goal : record) :
  goal_ok goal -> goal_ok (<["updated_at" := JStr now]> (data ∪ goal)).
Proof.
  intros [Hkeys _]. split; [|exists now; apply lookup_insert_eq].
  eapply Forall_impl; [exact Hkeys|].
  intros k [v Hv]. cbn beta.
  destruct (decide (k = "updated_at")) as [->|Hk];
    [rewrite lookup_insert_eq; eauto|].
  rewrite lookup_insert_ne by congruence.
  apply lookup_union_is_Some. right. eauto.
Qed.

Lemma well_formed_update_goal (now goal_id : string) (data : put_body) (w : World) :
  well_formed w -> well_formed (snd (update_goal now goal_id data w)).
Proof.
  intros Hw.
  assert (Hobject : forall d : record,
            well_formed (snd (update_goal now goal_id d w))).
  2:{ destruct data as [d| | b | n | f | s]; [apply Hobject|..].
      all: match goal with
           | |- well_formed (snd (update_goal _ _ ?body _)) =>
               destruct (update_goal_no_object now goal_id body w) as [[_ ->] | [_ ->]];
                 [discriminate | apply Hobject | exact Hw]
           end. }
  intros data0. clear data. rename data0 into data. rewrite update_goal_run.
  destruct (stored w GOALS_FILE !! goal_id) as [goal|] eqn:E; [|exact Hw].
  cbv zeta. cbn [snd]. apply well_formed_write; [exact Hw|].
  apply map_Forall_insert_2; [|apply Hw].
  apply goal_ok_updated. destruct Hw as (_ & Hg & _). exact (Hg _ _ E).
Qed.

Lemma well_formed_delete_goal (goal_id : string) (w : World) :
  well_formed w -> well_formed (snd (delete_goal goal_id w)).
Proof.
  intros Hw. rewrite delete_goal_run.
  destruct (stored w GOALS_FILE !! goal_id) as [goal|]; [|exact Hw].
  cbn [snd]. apply well_formed_write; [exact Hw|].
  apply map_Forall_delete. apply Hw.
Qed.

Lemma insights_ok_sample (project_id uuid_1 now_1 uuid_2 now_2 uuid_3 now_3 : string)
    (i1 i2 i3 : record) (insights : store) :
  sample_insights project_id uuid_1 now_1 uuid_2 now_2 uuid_3 now_3 = [i1; i2; i3] ->
  map_Forall insight_ok insights ->
  map_Forall insight_ok
    (<[uuid_3 := i3]> (<[uuid_2 := i2]> (<[uuid_1 := i1]> insights))).
Proof.
  intros Hsample Hok.
  destruct (sample_insights_fields project_id uuid_1 now_1 uuid_2 now_2 uuid_3 now_3)
    as (j1 & j2 & j3 & Hj & (I1 & I2 & I3) & T1 & T2 & T3).
  rewrite Hsample in Hj. injection Hj as <- <- <-.
  assert (Hfield : forall (i : record) (k : string) (v : json),
            get i k = v -> v <> JNull -> i !! k = Some v).
  { intros i k v Hget Hv. unfold get in Hget.
    destruct (i !! k); cbn in Hget; congruence. }
  repeat apply map_Forall_insert_2; try exact Hok.
  - split; [exact I3|]. split.
    + exists project_id. apply Hfield; [apply T3 | discriminate].
    + right. right. apply Hfield; [apply T3 | discriminate].
  - split; [exact I2|]. split.
    + exists project_id. apply Hfield; [apply T2 | discriminate].
    + right. left. apply Hfield; [apply T2 | discriminate].
  - split; [exact I1|]. split.
    + exists project_id. apply Hfield; [apply T1 | discriminate].
    + left. apply Hfield; [apply T1 | discriminate].
Qed.

Lemma project_ok_progress (id now : string) (project : record) (n : Z) :
  project_ok id project ->
  project !! "research_progress" = Some (JInt n) ->
  project_ok id
    (<["updated_at" := JStr now]>
       (<["research_progress" := of_num (min_100 (NInt (n + 25)))]> project)).
Proof.
  intros (Hid & (name & Hname & Hne & Hstrip) & Hstatus & (m & Hm & Hrange)) Hn.
  rewrite Hn in Hm. injection Hm as <-.
  split; [rewrite !lookup_insert_ne by discriminate; exact Hid|].
  split; [exists name; rewrite !lookup_insert_ne by discriminate; auto|].
  split; [rewrite !lookup_insert_ne by discriminate; exact Hstatus|].
  exists (Z.min 100 (n + 25)).
  rewrite lookup_insert_ne by discriminate.
  rewrite lookup_insert_eq, min_100_int. split; [reflexivity | lia].
Qed.

Lemma well_formed_generate_insights
    (uuid_1 now_1 uuid_2 now_2 uuid_3 now_3 now_4 project_id : string) (w : World) :
  well_formed w ->
  well_formed
    (snd (generate_insights uuid_1 now_1 uuid_2 now_2 uuid_3 now_3 now_4 project_id w)).
Proof.
  intros Hw.
  destruct (sample_insights_fields project_id uuid_1 now_1 uuid_2 now_2 uuid_3 now_3)
    as (i1 & i2 & i3 & Hsample & _).
  rewrite (generate_insights_run _ _ _ _ _ _ now_4 _ _ _ _ w Hsample). cbv zeta.
  assert (Hw1 : well_formed
                  (write_doc w INSIGHTS_FILE
                     (Document (<[uuid_3 := i3]> (<[uuid_2 := i2]> (<[uuid_1 := i1]>
                        (stored w INSIGHTS_FILE))))))).
  { apply well_formed_write; [exact Hw|].
    apply (insights_ok_sample _ _ _ _ _ _ _ _ _ _ _ Hsample). apply Hw. }
  destruct (stored w PROJECTS_FILE !! project_id) as [project|] eqn:E; [|exact Hw1].
  destruct Hw as [Hp _]. pose proof (Hp _ _ E) as Hok.
  destruct Hok as (Hid & Hname & Hstatus & (n & Hn & Hrange)).
  unfold get_or. rewrite Hn. cbn [default add_25 as_num snd].
  apply well_formed_write; [exact Hw1|].
  apply map_Forall_insert_2; [|exact Hp].
  apply project_ok_progress; [|exact Hn].
  split; [exact Hid|]. split; [exact Hname|]. split; [exact Hstatus|]. eauto.
Qed.

Lemma well_formed_step (w w' : World) : well_formed w -> step w w' -> well_formed w'.
Proof.
  intros Hw Hstep. destruct Hstep.
  - apply well_formed_create_project, Hw.
  - apply well_formed_start_research, Hw.
  - apply well_formed_start_live_research, Hw.
  - apply well_formed_upload_file, Hw.
  - apply well_formed_delete_file, Hw.
  - apply well_formed_create_goal, Hw.
  - apply well_formed_update_goal, Hw.
  - apply well_formed_delete_goal, Hw.
  - apply well_formed_generate_insights, Hw.
Qed.

(** X19: in every state that requests produce from a fresh installation,
    every project record carries its key as id, a non-empty name without
    white space around it, status "setup" or "researching" and an integer
    research_progress between 0 and 100; every goal has its nine fields
    and a string updated_at; every file record carries its key as id, a
    sanitized name, as path the upload folder joined with the id, an
    underscore and that name, an original name with an allowed extension
    and a non-empty project_id; every insight carries its key as id, a
    string project_id and one of the three types. *)
Theorem reachable_well_formed (w : World) : reachable w -> well_formed w.
Proof.
  unfold reachable. revert w. apply rtc_ind_r.
  - apply well_formed_fresh.
  - intros w1 w2 _ Hstep IH. exact (well_formed_step _ _ IH Hstep).
Qed.

Lemma reachable_well_formed_witness :
  let w1 := snd (create_project "p-1" "t1" "t2" (dict [("name", JStr " Alpha ")])
                   Sample.fresh) in
  let w2 := snd (generate_insights "i-1" "t3" "i-2" "t4" "i-3" "t5" "t6" "p-1" w1) in
  reachable w2 /\ well_formed w2.
Proof.
  intros w1 w2.
  assert (Hreach : reachable w2).
  { eapply rtc_r; [apply rtc_once, step_create_project | apply step_generate_insights]. }
  exact (conj Hreach (reachable_well_formed w2 Hreach)).
Defined.

(** X20: in a well-formed state (X19: in every state that requests
    produce) the routes without a body do not answer 500:
    [get_projects], [list_files] and [generate_insights] answer 200;
    [start_research], [start_live_research], [delete_goal] and, with any
    JSON object as body, [update_goal] answer 200 or 404, and so does
    [delete_file] for a record whose path is the path [data/name] of an
    uploaded file. *)
Theorem well_formed_no_server_error (w : World) :
  well_formed w ->
  status (fst (get_projects w)) = 200%Z /\
  status (fst (list_files w)) = 200%Z /\
  (forall u1 t1 u2 t2 u3 t3 t4 project_id : string,
     status (fst (generate_insights u1 t1 u2 t2 u3 t3 t4 project_id w)) = 200%Z) /\
  (forall now project_id : string,
     status (fst (start_research now project_id w)) = 200%Z \/
     status (fst (start_research now project_id w)) = 404%Z) /\
  (forall now project_id : string,
     status (fst (start_live_research now project_id w)) = 200%Z \/
     status (fst (start_live_research now project_id w)) = 404%Z) /\
  (forall file_id : string,
     (forall file_data : record,
        stored w FILES_FILE !! file_id = Some file_data ->
        path_or_none (get file_data "path")) ->
     status (fst (delete_file file_id w)) = 200%Z \/
     status (fst (delete_file file_id w)) = 404%Z) /\
  (forall goal_id : string,
     status (fst (delete_goal goal_id w)) = 200%Z \/
     status (fst (delete_goal goal_id w)) = 404%Z) /\
  (forall (now goal_id : string) (data : record),
     status (fst (update_goal now goal_id data w)) = 200%Z \/
     status (fst (update_goal now goal_id data w)) = 404%Z).
Proof.
  intros (Hp & Hg & Hf & Hi).
  split.
  { rewrite get_projects_run, for_each_with_counts; [reflexivity|].
    apply Forall_forall. intros project Hin.
    apply elem_of_values in Hin as [id Hin].
    destruct (Hp _ _ Hin) as [Hid _]. eauto. }
  split; [rewrite list_files_run; reflexivity|].
  split.
  { intros u1 t1 u2 t2 u3 t3 t4 project_id.
    destruct (sample_insights_fields project_id u1 t1 u2 t2 u3 t3)
      as (i1 & i2 & i3 & Hsample & _).
    rewrite (generate_insights_run _ _ _ _ _ _ t4 _ _ _ _ w Hsample). cbv zeta.
    destruct (stored w PROJECTS_FILE !! project_id) as [project|] eqn:E; [|reflexivity].
    destruct (Hp _ _ E) as (_ & _ & _ & (n & Hn & _)).
    unfold get_or. rewrite Hn. reflexivity. }
  split.
  { intros now project_id. rewrite start_research_run.
    destruct (stored w PROJECTS_FILE !! project_id) as [project|] eqn:E;
      [|right; reflexivity].
    destruct (Hp _ _ E) as (_ & (name & Hname & _) & _).
    cbv zeta. rewrite Hname. left. reflexivity. }
  split.
  { intros now project_id. rewrite start_live_research_run.
    destruct (stored w PROJECTS_FILE !! project_id) as [project|] eqn:E;
      [|right; reflexivity].
    destruct (Hp _ _ E) as (_ & (name & Hname & _) & _).
    cbv zeta. rewrite Hname. left. reflexivity. }
  split.
  { intros file_id Hpath. rewrite delete_file_run.
    - destruct (stored w FILES_FILE !! file_id) as [file_data|] eqn:E;
        [|right; reflexivity].
      destruct (Hf _ _ E) as (_ & (name & Hname & _) & _).
      rewrite Hname. left. reflexivity.
    - intros file_data Hfile.
      exact (path_or_none_no_special _ (Hpath _ Hfile)). }
  split.
  { intros goal_id. rewrite delete_goal_run.
    destruct (stored w GOALS_FILE !! goal_id) as [goal|] eqn:E;
      [|right; reflexivity].
    destruct (Hg _ _ E) as [Hkeys _].
    apply Forall_cons in Hkeys as [_ Hkeys].
    apply Forall_cons in Hkeys as [[v Htitle] _].
    rewrite Htitle. left. reflexivity. }
  intros now goal_id data. rewrite update_goal_run.
  destruct (stored w GOALS_FILE !! goal_id) as [goal|] eqn:E;
    [|right; reflexivity].
  destruct (goal_ok_updated now data goal (Hg _ _ E)) as [Hkeys _].
  apply Forall_cons in Hkeys as [_ Hkeys].
  apply Forall_cons in Hkeys as [[v Htitle] _].
  cbv zeta. rewrite Htitle. left. reflexivity.
Qed.

Lemma well_formed_no_server_error_witness :
  let w1 := snd (create_project "p-1" "t1" "t2" (dict [("name", JStr "Alpha")])
                   Sample.fresh) in
  stored w1 PROJECTS_FILE !! "p-1" <> None /\
  status (fst (get_projects w1)) = 200%Z /\
  status (fst (start_research "t3" "p-1" w1)) = 200%Z /\
  status (fst (delete_goal "g-1" w1)) = 404%Z.
Proof.
  destruct (well_formed_no_server_error
              (snd (create_project "p-1" "t1" "t2" (dict [("name", JStr "Alpha")])
                      Sample.fresh))
              (well_formed_create_project _ _ _ _ _ well_formed_fresh))
    as (Hlist & _).
  split; [discriminate|]. split; [exact Hlist|].
  split; reflexivity.
Defined.

(** ** The mark of live research *)

Lemma step_serve (w w' : World) : step w w' <-> exists r : request, w' = snd (serve r w).
Proof.
  split.
  - intros []; eexists;
      [ exact (eq_refl (snd (serve (CreateProject _ _ _ _) _)))
      | exact (eq_refl (snd (serve (StartResearch _ _) _)))
      | exact (eq_refl (snd (serve (StartLiveResearch _ _) _)))
      | exact (eq_refl (snd (serve (UploadFile _ _ _) _)))
      | exact (eq_refl (snd (serve (DeleteFile _) _)))
      | exact (eq_refl (snd (serve (CreateGoal _ _ _ _ _) _)))
      | exact (eq_refl (snd (serve (UpdateGoal _ _ _) _)))
      | exact (eq_refl (snd (serve (DeleteGoal _) _)))
      | exact (eq_refl (snd (serve (GenerateInsights _ _ _ _ _ _ _ _) _))) ].
  - intros [r ->]. destruct r; constructor.
Qed.

Lemma marked_write_other (project_id : string) (w : World) (f : datafile) (t : store) :
  f <> PROJECTS_FILE -> marked project_id w ->
  marked project_id (write_doc w f (Document t)).
Proof.
  intros Hf. unfold marked. rewrite stored_write_other by exact Hf. trivial.
Qed.

Lemma marked_set_disk (project_id : string) (w : World) (d : gmap string string) :
  marked project_id w -> marked project_id (set_disk w d).
Proof. unfold marked. rewrite stored_set_disk. trivial. Qed.

Lemma marked_insert_other (project_id id : string) (project : record) (w : World) :
  id <> project_id -> marked project_id w ->
  marked project_id
    (write_doc w PROJECTS_FILE (Document (<[id := project]> (stored w PROJECTS_FILE)))).
Proof.
  intros Hid. unfold marked.
  rewrite stored_write_same, lookup_insert_ne by exact Hid. trivial.
Qed.

Lemma marked_update (project_id id : string) (project project' : record) (w : World) :
  stored w PROJECTS_FILE !! id = Some project ->
  (project !! "live_research_started" = Some (JBool true) ->
   project' !! "live_research_started" = Some (JBool true)) ->
  marked project_id w ->
  marked project_id
    (write_doc w PROJECTS_FILE (Document (<[id := project']> (stored w PROJECTS_FILE)))).
Proof.
  intros Hid Hkeep (p & Hp & Hmark). unfold marked. rewrite stored_write_same.
  destruct (decide (id = project_id)) as [->|Hne].
  - rewrite Hid in Hp. injection Hp as <-.
    exists project'. split; [apply lookup_insert_eq | exact (Hkeep Hmark)].
  - rewrite lookup_insert_ne by exact Hne. eauto.
Qed.

Lemma marked_serve (project_id : string) (r : request) (w : World) :
  well_formed w -> marked project_id w -> creates project_id r = false ->
  marked project_id (snd (serve r w)).
Proof.
  intros Hw Hm Hr.
  destruct r as [uuid4 now_1 now_2 data | now id | now id | uuid4 now upload | file_id
                | uuid4 now_1 now_2 id data | now goal_id data | goal_id
                | u1 t1 u2 t2 u3 t3 t4 id]; cbn [serve].
  - cbn [creates] in Hr. apply String.eqb_neq in Hr.
    destruct (get_or data "name" (JStr "")) as [| | | |name| |] eqn:Ename;
      try (unfold create_project, handler; rewrite Ename; exact Hm).
    destruct (get_or data "description" (JStr "")) as [| | | |description| |]
      eqn:Edescription;
      try (unfold create_project, handler; rewrite Ename, Edescription; exact Hm).
    rewrite (create_project_run _ _ _ _ _ _ _ Ename Edescription).
    destruct (Str.all_chars Str.isspace name); [exact Hm|].
    cbv zeta. cbn [snd]. apply marked_insert_other; assumption.
  - rewrite start_research_run.
    destruct (stored w PROJECTS_FILE !! id) as [project|] eqn:E; [|exact Hm].
    cbv zeta. cbn [snd]. apply (marked_update _ _ project); [exact E | | exact Hm].
    intros Hmark. rewrite !lookup_insert_ne by discriminate. exact Hmark.
  - rewrite start_live_research_run.
    destruct (stored w PROJECTS_FILE !! id) as [project|] eqn:E; [|exact Hm].
    cbv zeta. cbn [snd]. apply (marked_update _ _ project); [exact E | | exact Hm].
    intros _. apply lookup_insert_eq.
  - rewrite upload_file_run.
    destruct (request_file upload) as [file|]; [|exact Hm].
    destruct (form_project_id upload) as [pid|]; [|exact Hm].
    destruct (negb (Str.truthy pid)); [exact Hm|].
    destruct (String.eqb (filename file) ""); [exact Hm|].
    destruct (negb (allowed_file (filename file))); [exact Hm|].
    cbv zeta.
    destruct (Str.rsplit1 "." (Werkzeug.secure_filename (filename file)) !! 1%nat);
      [|exact Hm].
    destruct (creatable _); [|exact Hm].
    cbn [snd]. apply marked_write_other; [discriminate|].
    apply marked_set_disk, Hm.
  - rewrite delete_file_run.
    + destruct (stored w FILES_FILE !! file_id) as [file_data|]; [|exact Hm].
      cbn [snd]. apply marked_write_other; [discriminate|].
      apply marked_set_disk, Hm.
    + intros file_data Hfile. destruct Hw as (_ & _ & Hf & _).
      exact (file_ok_path _ _ (Hf _ _ Hfile)).
  - destruct (get_or data "title" (JStr "")) as [| | | |title| |] eqn:Etitle;
      try (rewrite create_goal_bad_body;
           [exact Hm | left; intros s; rewrite Etitle; discriminate]).
    destruct (get_or data "description" (JStr "")) as [| | | |description| |]
      eqn:Edescription;
      try (rewrite create_goal_bad_body;
           [exact Hm | right; intros s; rewrite Edescription; discriminate]).
    rewrite (create_goal_run _ _ _ _ _ _ _ _ Etitle Edescription).
    destruct (Str.all_chars Str.isspace title); [exact Hm|].
    cbv zeta. cbn [snd]. apply marked_write_other; [discriminate | exact Hm].
  - assert (Hobject : forall d : record,
              marked project_id (snd (update_goal now goal_id d w))).
    { intros d. rewrite update_goal_run.
      destruct (stored w GOALS_FILE !! goal_id); [|exact Hm].
      cbv zeta. cbn [snd]. apply marked_write_other; [discriminate | exact Hm]. }
    destruct data as [d| | b | n | f | s]; [apply Hobject|..].
    all: match goal with
         | |- marked _ (snd (update_goal _ _ ?body _)) =>
             destruct (update_goal_no_object now goal_id body w) as [[_ ->] | [_ ->]];
               [discriminate | apply Hobject | exact Hm]
         end.
  - rewrite delete_goal_run.
    destruct (stored w GOALS_FILE !! goal_id); [|exact Hm].
    cbn [snd]. apply marked_write_other; [discriminate | exact Hm].
  - destruct (sample_insights_fields id u1 t1 u2 t2 u3 t3)
      as (i1 & i2 & i3 & Hsample & _).
    rewrite (generate_insights_run _ _ _ _ _ _ t4 _ _ _ _ w Hsample). cbv zeta.
    assert (Hm1 : forall t : store,
              marked project_id (write_doc w INSIGHTS_FILE (Document t)))
      by (intros t; apply marked_write_other; [discriminate | exact Hm]).
    destruct (stored w PROJECTS_FILE !! id) as [project|] eqn:E; [|apply Hm1].
    destruct (add_25 _) as [progress|e]; [|apply Hm1].
    cbn [snd].
    destruct Hm as (p & Hp & Hmark). unfold marked.
    rewrite stored_write_same.
    destruct (decide (id = project_id)) as [->|Hne].
    + rewrite E in Hp. injection Hp as <-.
      eexists. split; [apply lookup_insert_eq|].
      rewrite !lookup_insert_ne by discriminate. exact Hmark.
    + rewrite lookup_insert_ne by exact Hne. eauto.
Qed.

Lemma well_formed_serve (r : request) (w : World) :
  well_formed w -> well_formed (snd (serve r w)).
Proof.
  intros Hw. apply (well_formed_step w); [exact Hw|].
  apply step_serve. eauto.
Qed.

(** X18: nothing but a new project under the same id takes the mark of
    live research away: when a stored project has live_research_started
    true in a well-formed state (after [start_live_research], X17), it
    still has it after any sequence of requests to the nine routes that
    write, as long as none of them is a [create_project] to which
    [uuid4] gives the id of that project again. *)
Theorem live_research_mark_stays (project_id : string) (requests : list request)
    (w : World) :
  well_formed w ->
  marked project_id w ->
  Forall (fun r => creates project_id r = false) requests ->
  marked project_id (serve_all requests w).
Proof.
  intros Hw Hm Hrequests. revert w Hw Hm.
  induction Hrequests as [|r rest Hr _ IH]; intros w Hw Hm; [exact Hm|].
  cbn [serve_all]. apply IH.
  - apply well_formed_serve, Hw.
  - apply marked_serve; assumption.
Qed.

Lemma live_research_mark_stays_witness :
  let w1 := snd (create_project "p-1" "t1" "t2" (dict [("name", JStr "Alpha")])
                   Sample.fresh) in
  let w2 := snd (start_live_research "t3" "p-1" w1) in
  marked "p-1" w2 /\
  marked "p-1"
    (serve_all [StartResearch "t4" "p-1";
                GenerateInsights "i-1" "t5" "i-2" "t6" "i-3" "t7" "t8" "p-1";
                CreateProject "p-2" "t9" "t10" (dict [("name", JStr "Beta")]);
                DeleteFile "p-1"] w2).
Proof.
  intros w1 w2.
  assert (Hm : marked "p-1" w2) by (eexists; split; reflexivity).
  split; [exact Hm|].
  apply live_research_mark_stays.
  - apply well_formed_start_live_research, well_formed_create_project, well_formed_fresh.
  - exact Hm.
  - repeat constructor.
Defined.

(** ** More edge cases *)

(** X25: [get_projects] lists as many records as the projects store has,
    and shows for each project its stored research_progress, or 0 when
    the record has none. *)
Theorem get_projects_progress_default (w : World) :
  (forall (id : string) (project : record),
     stored w PROJECTS_FILE !! id = Some project -> is_Some (project !! "id")) ->
  exists listed : list record,
    get_projects w = (mkResponse 200 (Items "projects" listed), w) /\
    length listed = size (stored w PROJECTS_FILE) /\
    Forall2
      (fun project shown : record =>
         shown !! "research_progress"
           = Some (default (JInt 0) (project !! "research_progress")))
      (values (stored w PROJECTS_FILE)) listed.
Proof.
  intros Hid.
  assert (Hall : Forall (fun project : record => is_Some (project !! "id"))
                   (values (stored w PROJECTS_FILE))).
  { apply Forall_forall. intros project Hin.
    apply elem_of_values in Hin as [id Hin]. exact (Hid id project Hin). }
  eexists. split.
  { rewrite get_projects_run, for_each_with_counts by exact Hall. reflexivity. }
  split.
  { rewrite length_fmap. unfold values. rewrite length_fmap.
    apply length_map_to_list. }
  apply Forall2_fmap_r, Forall_Forall2_diag, Forall_forall.
  intros project _. unfold compose, counted. cbv beta. rewrite lookup_insert_eq. reflexivity.
Qed.

Lemma get_projects_progress_default_witness :
  let w :=
    write_doc Sample.fresh PROJECTS_FILE
      (Document {[ "p-9" := dict [("id", JStr "p-9"); ("name", JStr "Old")] ]}) in
  exists shown : record,
    fst (get_projects w) = mkResponse 200 (Items "projects" [shown]) /\
    shown !! "research_progress" = Some (JInt 0).
Proof.
  destruct (get_projects_progress_default
              (write_doc Sample.fresh PROJECTS_FILE
                 (Document {[ "p-9" := dict [("id", JStr "p-9"); ("name", JStr "Old")] ]})))
    as (listed & Hrun & Hlength & Hshown).
  { intros id project Hp.
    change (stored _ PROJECTS_FILE)
      with ({[ "p-9" := dict [("id", JStr "p-9"); ("name", JStr "Old")] ]} : store) in Hp.
    apply lookup_singleton_Some in Hp as [_ <-]. eexists. reflexivity. }
  change (values (stored _ PROJECTS_FILE))
    with [dict [("id", JStr "p-9"); ("name", JStr "Old")]] in Hshown.
  inversion Hshown as [|project shown l listed' Hprogress Hrest E1 E2]; subst.
  inversion Hrest; subst.
  exists shown. rewrite Hrun. split; [reflexivity | exact Hprogress].
Defined.

(** X26: [delete_file] does not need the uploaded file: when the
    recorded path is the path [data/name] of an upload and nothing is on
    the disk there, the record is still removed, the disk is as before,
    and the answer is 200. *)
Theorem delete_file_without_upload (file_id path : string) (name : json)
    (file_data : record) (w : World) :
  stored w FILES_FILE !! file_id = Some file_data ->
  file_data !! "path" = Some (JStr path) ->
  upload_path path = true ->
  file_data !! "filename" = Some name ->
  disk w !! path = None ->
  exists w' : World,
    delete_file file_id w =
      (mkResponse 200 (Message "File deleted successfully"), w') /\
    stored w' FILES_FILE = delete file_id (stored w FILES_FILE) /\
    disk w' = disk w.
Proof.
  intros Hfile Hpath Hupload Hname Hdisk.
  assert (Hget : get file_data "path" = JStr path)
    by (unfold get; rewrite Hpath; reflexivity).
  eexists. split.
  { rewrite delete_file_run.
    - rewrite Hfile, Hname. reflexivity.
    - intros fd Hfd. rewrite Hfile in Hfd. injection Hfd as <-.
      apply path_or_none_no_special.
      right. exists path. split; [exact Hget | right; exact Hupload]. }
  rewrite stored_write_same. split; [reflexivity|].
  rewrite disk_write_doc, Hget. cbn [disk set_disk disk_without].
  destruct (Str.truthy path && negb (Str.contains NUL path));
    [apply delete_id, Hdisk | reflexivity].
Qed.

Lemma delete_file_without_upload_witness :
  let w := set_disk Sample.busy ∅ in
  exists w' : World,
    delete_file "f-1" w = (mkResponse 200 (Message "File deleted successfully"), w') /\
    stored w' FILES_FILE !! "f-1" = None.
Proof.
  destruct (delete_file_without_upload "f-1" "data/f-1_notes.txt" (JStr "notes.txt")
              Sample.file_1 (set_disk Sample.busy ∅))
    as (w' & Hrun & Hstore & _);
    [reflexivity | reflexivity | reflexivity | reflexivity | reflexivity |].
  exists w'. split; [exact Hrun|]. rewrite Hstore. apply lookup_delete_eq.
Defined.
